(** * pulling_data_local: fetch bitstamp bars from PostgreSQL and archive them

    A shallow embedding of [src/main.py].  The script loads connection
    parameters from a JSON file, builds one SELECT statement by text
    interpolation, runs it through psycopg2, wraps the rows in a DataFrame
    and pickles it under [data_root/symbol/broker/timeframe/].

    Layout of this file: the model (definitions only) comes first, in the
    order of the source; the lemmas and the theorems about it follow. *)

From Stdlib Require Import ZArith List Ascii String Bool Lia Permutation Sorted.
From Stdlib Require Import DecimalString DecimalZ.
From stdpp Require Import base option list gmap strings sorting.

Local Open Scope Z_scope.
Local Open Scope string_scope.
Local Open Scope list_scope.

(* ===================================================================== *)
(** ** Text helpers: Python's [str(int)] and character classes            *)
(* ===================================================================== *)

(** [str(n)] for a Python [int]: optional minus sign, decimal digits, no
    leading zeros, ["0"] for zero.  This is what an f-string writes for
    [{start_ns}]. *)
Definition str_int (z : Z) : string :=
  NilZero.string_of_int (Z.to_int z).

Definition nl : string := String (ascii_of_nat 10) EmptyString.
Definition quote : ascii := ascii_of_nat 39.

Definition is_digit (c : ascii) : bool :=
  let n := nat_of_ascii c in (48 <=? n)%nat && (n <=? 57)%nat.

Definition is_upper (c : ascii) : bool :=
  let n := nat_of_ascii c in (65 <=? n)%nat && (n <=? 90)%nat.

Definition is_lower (c : ascii) : bool :=
  let n := nat_of_ascii c in (97 <=? n)%nat && (n <=? 122)%nat.

Definition is_word_start (c : ascii) : bool :=
  is_upper c || is_lower c || Ascii.eqb c "_".

Definition is_word_char (c : ascii) : bool :=
  is_word_start c || is_digit c.

Definition is_space (c : ascii) : bool :=
  let n := nat_of_ascii c in
  (n =? 32)%nat || (n =? 9)%nat || (n =? 10)%nat || (n =? 13)%nat.

Definition to_lower (c : ascii) : ascii :=
  if is_upper c then ascii_of_nat (nat_of_ascii c + 32) else c.

Fixpoint lower (s : string) : string :=
  match s with
  | EmptyString => EmptyString
  | String c r => String (to_lower c) (lower r)
  end.

(** Append one character at the end of an accumulator. *)
Definition snoc (acc : string) (c : ascii) : string :=
  acc +:+ String c EmptyString.

(** [c not in s]. *)
Fixpoint lacks (c : ascii) (s : string) : bool :=
  match s with
  | EmptyString => true
  | String d r => negb (Ascii.eqb d c) && lacks c r
  end.

(* ===================================================================== *)
(** ** The query text ([fetch_and_save_data], step 3)                     *)
(* ===================================================================== *)

(** The f-string of lines 167-175, character for character: the values
    are pasted into the text, the two strings between single quotes and
    the two integers bare. *)
Definition build_query (symbol timeframe : string) (start_ns end_ns : Z)
  : string :=
  nl +:+ "        SELECT *" +:+
  nl +:+ "        FROM bitstamp_data" +:+
  nl +:+ "        WHERE symbol = '" +:+ symbol +:+ "'" +:+
  nl +:+ "          AND timeframe = '" +:+ timeframe +:+ "'" +:+
  nl +:+ "          AND epoch_open_time >= " +:+ str_int start_ns +:+
  nl +:+ "          AND epoch_open_time < " +:+ str_int end_ns +:+
  nl +:+ "        ORDER BY epoch_open_time ASC" +:+
  nl +:+ "    ".

(* ===================================================================== *)
(** ** Reference semantics of the SQL fragment the query lives in         *)
(* ===================================================================== *)

(** What the data source does with a query text is not part of the
    repository.  To say which rows a text selects we fix the reading of
    standard SQL on the fragment
    [SELECT * FROM t [WHERE c op lit {AND c op lit}] [ORDER BY c [ASC|DESC]]]:
    string literals are delimited by single quotes and a doubled quote
    inside a literal stands for one quote character; words are folded to
    lower case; integers are decimal with an optional sign.  Three
    outcomes are kept apart: a result, an error every SQL reader reports
    (an unterminated literal), and text outside the fragment, about which
    the model says nothing. *)
Inductive outcome (A : Type) : Type :=
| Good (a : A)
| SqlError
| Unmodelled.
Arguments Good {A} a.
Arguments SqlError {A}.
Arguments Unmodelled {A}.

Definition obind {A B} (x : outcome A) (f : A -> outcome B) : outcome B :=
  match x with
  | Good a => f a
  | SqlError => SqlError
  | Unmodelled => Unmodelled
  end.

Definition omap {A B} (f : A -> B) (x : outcome A) : outcome B :=
  obind x (fun a => Good (f a)).

Inductive token : Type :=
| TWord (w : string)
| TStr (s : string)
| TInt (z : Z)
| TSym (s : string).

Inductive lex_state : Type :=
| LIdle
| LWord (acc : string)
| LMinus
| LNum (acc : string)
| LStr (acc : string)
| LStrQ (acc : string)
| LOp (c : ascii).

Definition is_op_char (c : ascii) : bool :=
  Ascii.eqb c "=" || Ascii.eqb c "<" || Ascii.eqb c ">" || Ascii.eqb c "!"
  || Ascii.eqb c "*" || Ascii.eqb c ";".

(** State entered on reading [c] between tokens. *)
Definition idle_next (c : ascii) : outcome lex_state :=
  if is_space c then Good LIdle
  else if is_word_start c then Good (LWord (String c EmptyString))
  else if is_digit c then Good (LNum (String c EmptyString))
  else if Ascii.eqb c "-" then Good LMinus
  else if Ascii.eqb c quote then Good (LStr EmptyString)
  else if is_op_char c then Good (LOp c)
  else Unmodelled.

Definition num_token (acc : string) : outcome token :=
  match NilZero.int_of_string acc with
  | Some d => Good (TInt (Z.of_int d))
  | None => Unmodelled
  end.

Definition two_char_op (a b : ascii) : bool :=
  (Ascii.eqb a "<" && (Ascii.eqb b "=" || Ascii.eqb b ">"))
  || (Ascii.eqb a ">" && Ascii.eqb b "=")
  || (Ascii.eqb a "!" && Ascii.eqb b "=").

Definition emit (t : token) (c : ascii) : outcome (list token * lex_state) :=
  omap (fun st => ([t], st)) (idle_next c).

(** One character of input: the tokens completed by it and the next state. *)
Definition lex_step (st : lex_state) (c : ascii)
  : outcome (list token * lex_state) :=
  match st with
  | LIdle => omap (fun st' => ([], st')) (idle_next c)
  | LWord acc =>
      if is_word_char c then Good ([], LWord (snoc acc c))
      else emit (TWord (lower acc)) c
  | LMinus =>
      if is_digit c then Good ([], LNum (String "-" (String c EmptyString)))
      else Unmodelled
  | LNum acc =>
      if is_digit c then Good ([], LNum (snoc acc c))
      else if is_word_start c then Unmodelled
      else obind (num_token acc) (fun t => emit t c)
  | LStr acc =>
      if Ascii.eqb c quote then Good ([], LStrQ acc)
      else Good ([], LStr (snoc acc c))
  | LStrQ acc =>
      if Ascii.eqb c quote then Good ([], LStr (snoc acc quote))
      else emit (TStr acc) c
  | LOp a =>
      if two_char_op a c
      then Good ([TSym (String a (String c EmptyString))], LIdle)
      else emit (TSym (String a EmptyString)) c
  end.

(** End of input. *)
Definition lex_finish (st : lex_state) : outcome (list token) :=
  match st with
  | LIdle => Good []
  | LWord acc => Good [TWord (lower acc)]
  | LMinus => Unmodelled
  | LNum acc => omap (fun t => [t]) (num_token acc)
  | LStr _ => SqlError
  | LStrQ acc => Good [TStr acc]
  | LOp a => Good [TSym (String a EmptyString)]
  end.

Fixpoint lex_run (st : lex_state) (s : string)
  : outcome (list token * lex_state) :=
  match s with
  | EmptyString => Good ([], st)
  | String c r =>
      obind (lex_step st c) (fun '(ts, st') =>
        omap (fun '(ts', st'') => (ts ++ ts', st'')) (lex_run st' r))
  end.

Definition lex (s : string) : outcome (list token) :=
  obind (lex_run LIdle s) (fun '(ts, st) =>
    omap (fun ts' => ts ++ ts') (lex_finish st)).

(** Abstract syntax of the fragment. *)
Inductive cmp_op : Type := OpEq | OpNe | OpLt | OpLe | OpGt | OpGe.

Inductive literal : Type :=
| LitText (s : string)
| LitInt (z : Z).

Record pred : Type := { p_col : string; p_op : cmp_op; p_lit : literal }.

Inductive direction : Type := Asc | Desc.

Record select : Type := {
  q_table : string;
  q_where : list pred;
  q_order : option (string * direction)
}.

Definition op_of_sym (s : string) : outcome cmp_op :=
  if String.eqb s "=" then Good OpEq
  else if String.eqb s "<>" then Good OpNe
  else if String.eqb s "!=" then Good OpNe
  else if String.eqb s "<" then Good OpLt
  else if String.eqb s "<=" then Good OpLe
  else if String.eqb s ">" then Good OpGt
  else if String.eqb s ">=" then Good OpGe
  else Unmodelled.

Definition lit_of_token (t : token) : outcome literal :=
  match t with
  | TStr s => Good (LitText s)
  | TInt z => Good (LitInt z)
  | _ => Unmodelled
  end.

(** [c op lit {AND c op lit}]; returns the tokens after the conjunction. *)
Fixpoint parse_preds (ts : list token) : outcome (list pred * list token) :=
  match ts with
  | TWord c :: TSym o :: l :: rest =>
      obind (op_of_sym o) (fun op =>
      obind (lit_of_token l) (fun lit =>
        let p := {| p_col := c; p_op := op; p_lit := lit |} in
        match rest with
        | TWord w :: rest' =>
            if String.eqb w "and"
            then omap (fun '(ps, tl) => (p :: ps, tl)) (parse_preds rest')
            else Good ([p], rest)
        | _ => Good ([p], rest)
        end))
  | _ => Unmodelled
  end.

Definition parse_order (ts : list token)
  : outcome (option (string * direction)) :=
  match ts with
  | [] => Good None
  | [TSym ";"] => Good None
  | TWord o :: TWord b :: TWord c :: rest =>
      if String.eqb o "order" && String.eqb b "by" then
        match rest with
        | [] | [TSym ";"] => Good (Some (c, Asc))
        | [TWord d] | [TWord d; TSym ";"] =>
            if String.eqb d "asc" then Good (Some (c, Asc))
            else if String.eqb d "desc" then Good (Some (c, Desc))
            else Unmodelled
        | _ => Unmodelled
        end
      else Unmodelled
  | _ => Unmodelled
  end.

Definition parse_select (ts : list token) : outcome select :=
  match ts with
  | TWord s :: TSym star :: TWord f :: TWord t :: rest =>
      if String.eqb s "select" && String.eqb star "*" && String.eqb f "from"
      then
        match rest with
        | TWord w :: rest' =>
            if String.eqb w "where" then
              obind (parse_preds rest') (fun '(ps, tl) =>
                omap (fun o => {| q_table := t; q_where := ps; q_order := o |})
                     (parse_order tl))
            else
              omap (fun o => {| q_table := t; q_where := []; q_order := o |})
                   (parse_order rest)
        | _ =>
            omap (fun o => {| q_table := t; q_where := []; q_order := o |})
                 (parse_order rest)
        end
      else Unmodelled
  | _ => Unmodelled
  end.

(** A bar of the table [bitstamp_data]: the three columns the query names
    and the remaining columns, carried along untouched. *)
Record bar : Type := {
  symbol : string;
  timeframe : string;
  epoch_open_time : Z;
  other_columns : list string
}.

Inductive cell : Type :=
| CText (s : string)
| CInt (z : Z).

Definition column (c : string) (r : bar) : outcome cell :=
  if String.eqb c "symbol" then Good (CText (symbol r))
  else if String.eqb c "timeframe" then Good (CText (timeframe r))
  else if String.eqb c "epoch_open_time" then Good (CInt (epoch_open_time r))
  else Unmodelled.

Definition cmp_int (op : cmp_op) (a b : Z) : bool :=
  match op with
  | OpEq => Z.eqb a b
  | OpNe => negb (Z.eqb a b)
  | OpLt => Z.ltb a b
  | OpLe => Z.leb a b
  | OpGt => Z.ltb b a
  | OpGe => Z.leb b a
  end.

Definition eval_pred (p : pred) (r : bar) : outcome bool :=
  obind (column (p_col p) r) (fun v =>
    match v, p_lit p, p_op p with
    | CText a, LitText b, OpEq => Good (String.eqb a b)
    | CText a, LitText b, OpNe => Good (negb (String.eqb a b))
    | CInt a, LitInt b, op => Good (cmp_int op a b)
    | _, _, _ => Unmodelled
    end).

Fixpoint eval_where (ps : list pred) (r : bar) : outcome bool :=
  match ps with
  | [] => Good true
  | p :: ps' =>
      obind (eval_pred p r) (fun b =>
        omap (fun b' => b && b') (eval_where ps' r))
  end.

Fixpoint select_rows (ps : list pred) (t : list bar) : outcome (list bar) :=
  match t with
  | [] => Good []
  | r :: t' =>
      obind (eval_where ps r) (fun keep =>
        omap (fun rs => if keep then r :: rs else rs) (select_rows ps t'))
  end.

Definition by_open_time (a b : bar) : Prop :=
  epoch_open_time a <= epoch_open_time b.

Definition by_open_time_desc (a b : bar) : Prop :=
  epoch_open_time b <= epoch_open_time a.

#[global] Instance by_open_time_dec a b : Decision (by_open_time a b).
Proof. unfold by_open_time. apply _. Defined.

#[global] Instance by_open_time_desc_dec a b : Decision (by_open_time_desc a b).
Proof. unfold by_open_time_desc. apply _. Defined.

Definition order_rows (o : option (string * direction)) (rs : list bar)
  : outcome (list bar) :=
  match o with
  | None => Good rs
  | Some (c, d) =>
      if String.eqb c "epoch_open_time" then
        match d with
        | Asc => Good (merge_sort by_open_time rs)
        | Desc => Good (merge_sort by_open_time_desc rs)
        end
      else Unmodelled
  end.

(** A database: its tables by name. *)
Definition run_select (db : gmap string (list bar)) (q : select)
  : outcome (list bar) :=
  match db !! q_table q with
  | None => SqlError
  | Some t => obind (select_rows (q_where q) t) (order_rows (q_order q))
  end.

Definition sql_run (db : gmap string (list bar)) (text : string)
  : outcome (list bar) :=
  obind (lex text) (fun ts => obind (parse_select ts) (run_select db)).

(** The rows the specification asks for. *)
Definition wanted (S T : string) (start_ns end_ns : Z) (r : bar) : bool :=
  String.eqb (symbol r) S && String.eqb (timeframe r) T
  && Z.leb start_ns (epoch_open_time r) && Z.ltb (epoch_open_time r) end_ns.

(* ===================================================================== *)
(** ** Python exceptions and results                                      *)
(* ===================================================================== *)

(** The classes that the script, the operating system, the JSON reader
    and psycopg2 can raise here.  [KeyboardInterrupt] stands for the
    classes that derive from [BaseException] only, which
    [except Exception] lets through. *)
Inductive exn_class : Type :=
| FileNotFoundError
| IsADirectoryError
| NotADirectoryError
| FileExistsError
| PermissionError
| OSError
| JSONDecodeError
| UnicodeDecodeError
| ValueError
| AttributeError
| TypeError
| OverflowError
| OperationalError
| ProgrammingError
| DatabaseError
| KeyboardInterrupt.

(** An exception object: its class and what it carries.  The
    [ValueError] of [db_config] carries the set of missing keys (its text
    prints that set, in an order Python does not fix). *)
Inductive exn : Type :=
| Exn (c : exn_class) (text : string)
| MissingKeys (missing : gset string).

Definition class_of (e : exn) : exn_class :=
  match e with
  | Exn c _ => c
  | MissingKeys _ => ValueError
  end.

(** [except Exception]. *)
Definition is_Exception (e : exn) : bool :=
  match class_of e with
  | KeyboardInterrupt => false
  | _ => true
  end.

(** [except psycopg2.OperationalError]. *)
Definition is_OperationalError (e : exn) : bool :=
  match class_of e with
  | OperationalError => true
  | _ => false
  end.

Inductive res (A : Type) : Type :=
| Ok (a : A)
| Raise (e : exn).
Arguments Ok {A} a.
Arguments Raise {A} e.

(* ===================================================================== *)
(** ** Values: JSON documents, result rows, tables                        *)
(* ===================================================================== *)

(** What [json.load] returns.  A JSON object becomes a [dict]; only its
    keys matter to [db_config]. *)
#[warnings="-register-all"]
Inductive json : Type :=
| JNull
| JBool (b : bool)
| JInt (z : Z)
| JText (s : string)
| JList (l : list json)
| JDict (d : gmap string json).

(** A value in a row handed back by the cursor. *)
Inductive dbvalue : Type :=
| VNull
| VInt (z : Z)
| VText (s : string).

(** [pd.DataFrame(rows, columns=column_names)]. *)
Record DataFrame : Type := {
  columns : list string;
  data : list (list dbvalue)
}.

(* ===================================================================== *)
(** ** The file system                                                    *)
(* ===================================================================== *)

(** A file holds a JSON text (kept as the value it decodes to), some
    other text, a pickled table, or the beginning of one when the disk
    ran full while it was written. *)
Inductive content : Type :=
| JsonText (j : json)
| PlainText (s : string)
| Pickle (df : DataFrame)
| Partial.

Inductive node : Type :=
| Dir
| File (c : content).

(** Why the system refuses to create, read or write an entry. *)
Inductive fault : Type :=
| Denied
| NoSpace.

(** Entries are addressed by the list of names from the root; the root
    itself is always a directory.  No symbolic links. *)
Record filesystem : Type := {
  entries : gmap (list string) node;
  faults : gmap (list string) fault
}.

Definition lookup_node (fs : filesystem) (loc : list string) : option node :=
  match loc with
  | [] => Some Dir
  | _ => entries fs !! loc
  end.

Definition fault_exn (f : fault) : exn :=
  match f with
  | Denied => Exn PermissionError "Permission denied"
  | NoSpace => Exn OSError "No space left on device"
  end.

Definition slash : ascii := "/".

(** [s.split("/")], with the piece being read in [cur]. *)
Fixpoint split_slash (cur s : string) : list string :=
  match s with
  | EmptyString => [cur]
  | String c r =>
      if Ascii.eqb c slash then cur :: split_slash EmptyString r
      else split_slash (snoc cur c) r
  end.

Definition is_skipped (name : string) : bool :=
  String.eqb name "" || String.eqb name ".".

(** The names a path steps through: empty pieces (doubled or trailing
    slashes) and ["."] do nothing. *)
Definition steps (path : string) : list string :=
  List.filter (fun n => negb (is_skipped n)) (split_slash EmptyString path).

Definition is_absolute (path : string) : bool :=
  match path with
  | String c _ => Ascii.eqb c slash
  | EmptyString => false
  end.

Definition parent (loc : list string) : list string := removelast loc.

(** Follow names through directories that must exist. *)
Fixpoint enter (fs : filesystem) (cur : list string) (names : list string)
  : res (list string) :=
  match names with
  | [] => Ok cur
  | n :: rest =>
      if String.eqb n ".." then enter fs (parent cur) rest
      else
        match lookup_node fs (cur ++ [n]) with
        | Some Dir => enter fs (cur ++ [n]) rest
        | Some (File _) => Raise (Exn NotADirectoryError n)
        | None => Raise (Exn FileNotFoundError n)
        end
  end.

(** Where a path points, starting from the working directory [cwd]: all
    names but the last must be directories; the last need not exist. *)
Definition locate (fs : filesystem) (cwd : list string) (path : string)
  : res (list string) :=
  let start := if is_absolute path then [] else cwd in
  match steps path with
  | [] =>
      if String.eqb path "" then Raise (Exn FileNotFoundError path)
      else Ok start
  | n :: rest =>
      match enter fs start (removelast (n :: rest)) with
      | Raise e => Raise e
      | Ok d =>
          let l := List.last (n :: rest) n in
          if String.eqb l ".." then Ok (parent d) else Ok (d ++ [l])
      end
  end.

(** [os.path.exists(path)]. *)
Definition path_exists (fs : filesystem) (cwd : list string) (path : string)
  : bool :=
  match locate fs cwd path with
  | Ok loc => bool_decide (is_Some (lookup_node fs loc))
  | Raise _ => false
  end.

(** [open(path, 'r')] and reading the file to its end. *)
Definition read_file (fs : filesystem) (cwd : list string) (path : string)
  : res content :=
  match locate fs cwd path with
  | Raise e => Raise e
  | Ok loc =>
      match lookup_node fs loc with
      | None => Raise (Exn FileNotFoundError path)
      | Some Dir => Raise (Exn IsADirectoryError path)
      | Some (File c) =>
          match faults fs !! loc with
          | Some f => Raise (fault_exn f)
          | None => Ok c
          end
      end
  end.

Definition set_entry (loc : list string) (n : node) (fs : filesystem)
  : filesystem :=
  {| entries := <[loc := n]> (entries fs); faults := faults fs |}.

(** [os.makedirs(path, exist_ok=True)] along the names of the path:
    existing directories are entered, missing ones are made, [".."]
    steps back, a regular file in the way is an error.  Returns the new
    file system and the directory reached. *)
Fixpoint make_dirs (fs : filesystem) (cur : list string) (names : list string)
  : res (filesystem * list string) :=
  match names with
  | [] => Ok (fs, cur)
  | n :: rest =>
      if String.eqb n ".." then make_dirs fs (parent cur) rest
      else
        let loc := cur ++ [n] in
        match lookup_node fs loc with
        | Some Dir => make_dirs fs loc rest
        | Some (File _) =>
            match rest with
            | [] => Raise (Exn FileExistsError n)
            | _ => Raise (Exn NotADirectoryError n)
            end
        | None =>
            match faults fs !! loc with
            | Some f => Raise (fault_exn f)
            | None => make_dirs (set_entry loc Dir fs) loc rest
            end
        end
  end.

Definition makedirs (fs : filesystem) (cwd : list string) (path : string)
  : res filesystem :=
  if String.eqb path "" then Raise (Exn FileNotFoundError path)
  else
    let start := if is_absolute path then [] else cwd in
    match make_dirs fs start (steps path) with
    | Raise e => Raise e
    | Ok (fs', _) => Ok fs'
    end.

(** [with open(path, "wb") as f: pickle.dump(df, f)]: the file is made
    or emptied first, then filled.  The second component is the file
    system left behind, also when the write fails. *)
Definition write_pickle (fs : filesystem) (cwd : list string) (path : string)
           (df : DataFrame) : res unit * filesystem :=
  match locate fs cwd path with
  | Raise e => (Raise e, fs)
  | Ok loc =>
      match lookup_node fs loc with
      | Some Dir => (Raise (Exn IsADirectoryError path), fs)
      | _ =>
          match faults fs !! loc with
          | Some Denied => (Raise (fault_exn Denied), fs)
          | Some NoSpace =>
              (Raise (fault_exn NoSpace), set_entry loc (File Partial) fs)
          | None => (Ok tt, set_entry loc (File (Pickle df)) fs)
          end
      end
  end.

(* ===================================================================== *)
(** ** Python floats                                                      *)
(* ===================================================================== *)

(** A finite binary64 number, written [fmant * 2 ^ fexpo].  The exponent
    range is not modelled: every number met here lies far inside it,
    except the quotient of two huge integers, which [int_truediv]
    rejects as Python does. *)
Record float : Type := { fmant : Z; fexpo : Z }.

(** [|n| / d] scaled by [2 ^ -e], as a fraction. *)
Definition scaled (a d e : Z) : Z * Z :=
  if Z.leb 0 e then (a, d * 2 ^ e) else (a * 2 ^ (- e), d).

(** The integer nearest to [num / den] (for [den > 0]), ties to the
    even one. *)
Definition nearest (num den : Z) : Z :=
  let q := num / den in
  let r := num mod den in
  if Z.ltb (2 * r) den then q
  else if Z.ltb den (2 * r) then q + 1
  else if Z.even q then q else q + 1.

(** The exponent at which [a / d] has a significand of 53 bits. *)
Definition pick_exponent (a d : Z) : Z :=
  let e0 := Z.log2 a - Z.log2 d - 53 in
  let '(n0, d0) := scaled a d e0 in
  if Z.leb (2 ^ 53) (n0 / d0) then e0 + 1 else e0.

(** The binary64 number nearest to [n / d] (for [d > 0]), ties to the
    even significand: the significand is cut to 53 bits. *)
Definition round53 (n d : Z) : float :=
  if Z.eqb n 0 then {| fmant := 0; fexpo := 0 |}
  else
    let a := Z.abs n in
    let e := pick_exponent a d in
    let '(num, den) := scaled a d e in
    {| fmant := Z.sgn n * nearest num den; fexpo := e |}.

(** The exact value of a float as a fraction with positive denominator. *)
Definition fraction (x : float) : Z * Z :=
  if Z.leb 0 (fexpo x) then (fmant x * 2 ^ fexpo x, 1)
  else (fmant x, 2 ^ (- fexpo x)).

(** [float(n)] for an integer. *)
Definition float_of_int (n : Z) : float := round53 n 1.

(** [n / d] on two Python integers (true division), [d > 0]. *)
Definition int_truediv (n d : Z) : res float :=
  if Z.leb (2 ^ 1024 * d) (Z.abs n)
  then Raise (Exn OverflowError "integer division result too large for a float")
  else Ok (round53 n d).

(** [x * y] on floats. *)
Definition fmul (x y : float) : float :=
  let '(nx, dx) := fraction x in
  let '(ny, dy) := fraction y in
  round53 (nx * ny) (dx * dy).

(** [int(x)]: towards zero. *)
Definition trunc (x : float) : Z :=
  let '(n, d) := fraction x in Z.quot n d.

(** Nearest integer to a float, ties to even. *)
Definition round_half_even (x : float) : Z :=
  let '(n, d) := fraction x in nearest n d.

(* ===================================================================== *)
(** ** Dates and times ([datetime])                                       *)
(* ===================================================================== *)

(** A [datetime] object.  [utcoffset] is [None] for a naive value and
    the offset from UTC in microseconds for an aware one. *)
Record datetime : Type := {
  year : Z;
  month : Z;
  day : Z;
  hour : Z;
  minute : Z;
  second : Z;
  microsecond : Z;
  utcoffset : option Z
}.

Definition is_leap (y : Z) : bool :=
  Z.eqb (y mod 4) 0 && (negb (Z.eqb (y mod 100) 0) || Z.eqb (y mod 400) 0).

Definition days_in_month (y m : Z) : Z :=
  if Z.eqb m 2 then (if is_leap y then 29 else 28)
  else if Z.eqb m 4 || Z.eqb m 6 || Z.eqb m 9 || Z.eqb m 11 then 30
  else 31.

Definition days_before_year (y : Z) : Z :=
  let y1 := y - 1 in
  y1 * 365 + y1 / 4 - y1 / 100 + y1 / 400.

(** [_DAYS_BEFORE_MONTH] of a common year. *)
Definition days_before_month_common (m : Z) : Z :=
  match m with
  | 1 => 0 | 2 => 31 | 3 => 59 | 4 => 90 | 5 => 120 | 6 => 151
  | 7 => 181 | 8 => 212 | 9 => 243 | 10 => 273 | 11 => 304 | 12 => 334
  | _ => 365
  end.

Definition days_before_month (y m : Z) : Z :=
  days_before_month_common m
  + (if Z.ltb 2 m && is_leap y then 1 else 0).

(** Day number of a date, 0001-01-01 being day 1. *)
Definition ymd2ord (y m d : Z) : Z :=
  days_before_year y + days_before_month y m + d.

Definition epoch_ordinal : Z := 719163.
Definition max_ordinal : Z := 3652059.

(** Month and day of the [n]-th day (from 0) of a year. *)
Definition month_day (n : Z) (leapyear : bool) : Z * Z :=
  let m := Z.shiftr (n + 50) 5 in
  let preceding :=
    days_before_month_common m + (if Z.ltb 2 m && leapyear then 1 else 0) in
  if Z.ltb n preceding then
    let m' := m - 1 in
    let dim := (if Z.eqb m' 2 then (if leapyear then 29 else 28)
                else days_in_month 1 m') in
    (m', n - (preceding - dim) + 1)
  else (m, n - preceding + 1).

(** The date of a day number ([_ord2ymd]): cycles of 400, 100, 4 and 1
    years are taken off in turn. *)
Definition ord2ymd (ordinal : Z) : Z * Z * Z :=
  let n := ordinal - 1 in
  let n400 := n / 146097 in
  let n := n mod 146097 in
  let n100 := n / 36524 in
  let n := n mod 36524 in
  let n4 := n / 1461 in
  let n := n mod 1461 in
  let n1 := n / 365 in
  let n := n mod 365 in
  let y := n400 * 400 + 1 + n100 * 100 + n4 * 4 + n1 in
  if Z.eqb n1 4 || Z.eqb n100 4 then (y - 1, 12, 31)
  else
    let leapyear := Z.eqb n1 3 && (negb (Z.eqb n4 24) || Z.eqb n100 3) in
    let '(m, d) := month_day n leapyear in (y, m, d).

(** The checks of the [datetime] constructor. *)
Definition valid_fields (dt : datetime) : bool :=
  Z.leb 1 (year dt) && Z.leb (year dt) 9999
  && Z.leb 1 (month dt) && Z.leb (month dt) 12
  && Z.leb 1 (day dt) && Z.leb (day dt) (days_in_month (year dt) (month dt))
  && Z.leb 0 (hour dt) && Z.leb (hour dt) 23
  && Z.leb 0 (minute dt) && Z.leb (minute dt) 59
  && Z.leb 0 (second dt) && Z.leb (second dt) 59
  && Z.leb 0 (microsecond dt) && Z.leb (microsecond dt) 999999.

(** Microseconds from 1970-01-01T00:00:00 to the wall-clock reading. *)
Definition wall_micros (dt : datetime) : Z :=
  (((ymd2ord (year dt) (month dt) (day dt) - epoch_ordinal) * 86400
    + hour dt * 3600 + minute dt * 60 + second dt) * 1000000)
  + microsecond dt.

(** [datetime.utcfromtimestamp(t)]: whole seconds and the fraction are
    split, the fraction is scaled to microseconds and rounded half to
    even, and the date is read off in UTC. *)
Definition utcfromtimestamp (t : float) : res datetime :=
  let ip := trunc t in
  let '(n, d) := fraction t in
  let scaled_frac := round53 ((n - ip * d) * 1000000) d in
  let us0 := round_half_even scaled_frac in
  let '(secs, us) :=
    if Z.leb 1000000 us0 then (ip + 1, us0 - 1000000)
    else if Z.ltb us0 0 then (ip - 1, us0 + 1000000)
    else (ip, us0) in
  if Z.leb (2 ^ 63) (Z.abs secs)
  then Raise (Exn OverflowError "timestamp out of range for platform time_t")
  else
    let ordinal := secs / 86400 + epoch_ordinal in
    let sod := secs mod 86400 in
    if Z.leb 1 ordinal && Z.leb ordinal max_ordinal then
      let '(y, m, dd) := ord2ymd ordinal in
      Ok {| year := y; month := m; day := dd;
            hour := sod / 3600; minute := (sod mod 3600) / 60;
            second := sod mod 60; microsecond := us; utcoffset := None |}
    else Raise (Exn ValueError "year is out of range").

Definition digit_char (d : Z) : ascii := ascii_of_nat (48 + Z.to_nat d).

Definition digit_val (c : ascii) : Z := Z.of_nat (nat_of_ascii c) - 48.

(** Two and four decimal digits, zero padded ([%m], [%Y], ...). *)
Definition pad2 (v : Z) : string :=
  String (digit_char (v / 10 mod 10)) (String (digit_char (v mod 10)) "").

Definition pad4 (v : Z) : string :=
  String (digit_char (v / 1000 mod 10))
    (String (digit_char (v / 100 mod 10)) (pad2 v)).

(** [dt.strftime("%Y-%m-%d_%H-%M-%S")].  The fields are printed as they
    are; no conversion between time zones takes place. *)
Definition strftime (dt : datetime) : string :=
  pad4 (year dt) +:+ "-" +:+ pad2 (month dt) +:+ "-" +:+ pad2 (day dt)
  +:+ "_" +:+ pad2 (hour dt) +:+ "-" +:+ pad2 (minute dt)
  +:+ "-" +:+ pad2 (second dt).

(* ===================================================================== *)
(** ** Reading ISO strings ([datetime.fromisoformat])                     *)
(* ===================================================================== *)

(** [n] decimal digits at the head of [s]. *)
Fixpoint parse_digits (n : nat) (acc : Z) (s : string) : option (Z * string) :=
  match n with
  | O => Some (acc, s)
  | S n' =>
      match s with
      | String c r =>
          if is_digit c then parse_digits n' (10 * acc + digit_val c) r
          else None
      | EmptyString => None
      end
  end.

(** [HH[:MM[:SS[.fff[fff]]]]], the whole of [s]. *)
Definition parse_hh_mm_ss_ff (s : string) : option (Z * Z * Z * Z) :=
  match parse_digits 2 0 s with
  | None => None
  | Some (h, EmptyString) => Some (h, 0, 0, 0)
  | Some (h, String c1 r1) =>
      if negb (Ascii.eqb c1 ":") then None else
      match parse_digits 2 0 r1 with
      | None => None
      | Some (m, EmptyString) => Some (h, m, 0, 0)
      | Some (m, String c2 r2) =>
          if negb (Ascii.eqb c2 ":") then None else
          match parse_digits 2 0 r2 with
          | None => None
          | Some (sec, EmptyString) => Some (h, m, sec, 0)
          | Some (sec, String c3 r3) =>
              if negb (Ascii.eqb c3 ".") then None else
              if Nat.eqb (String.length r3) 6 then
                match parse_digits 6 0 r3 with
                | Some (f, _) => Some (h, m, sec, f)
                | None => None
                end
              else if Nat.eqb (String.length r3) 3 then
                match parse_digits 3 0 r3 with
                | Some (f, _) => Some (h, m, sec, f * 1000)
                | None => None
                end
              else None
          end
      end
  end.

(** Cut a time text at its first sign: the clock part, and the sign and
    the offset text when there is one. *)
Fixpoint split_at_sign (acc s : string) : string * option (Z * string) :=
  match s with
  | EmptyString => (acc, None)
  | String c r =>
      if Ascii.eqb c "+" then (acc, Some (1, r))
      else if Ascii.eqb c "-" then (acc, Some (-1, r))
      else split_at_sign (snoc acc c) r
  end.

(** The offset text [HH:MM], [HH:MM:SS] or [HH:MM:SS.ffffff], in
    microseconds. *)
Definition parse_offset (sign : Z) (s : string) : option Z :=
  let n := String.length s in
  if Nat.eqb n 5 || Nat.eqb n 8 || Nat.eqb n 15 then
    match parse_hh_mm_ss_ff s with
    | Some (h, m, sec, f) =>
        Some (sign * ((h * 3600 + m * 60 + sec) * 1000000 + f))
    | None => None
    end
  else None.

Definition invalid_isoformat (s : string) : exn :=
  Exn ValueError ("Invalid isoformat string: " +:+ s).

(** [datetime.fromisoformat(s)] on the format it documents,
    [YYYY-MM-DD[*HH[:MM[:SS[.fff[fff]]]][+HH:MM[:SS[.ffffff]]]]], where
    [*] is any one character.  A letter [Z] is not part of that format. *)
Definition fromisoformat (s : string) : res datetime :=
  let bad := Raise (invalid_isoformat s) in
  match parse_digits 4 0 s with
  | Some (y, String d1 s1) =>
      if negb (Ascii.eqb d1 "-") then bad else
      match parse_digits 2 0 s1 with
      | Some (m, String d2 s2) =>
          if negb (Ascii.eqb d2 "-") then bad else
          match parse_digits 2 0 s2 with
          | Some (d, rest) =>
              let build h mi sec us off :=
                let dt := {| year := y; month := m; day := d; hour := h;
                             minute := mi; second := sec; microsecond := us;
                             utcoffset := off |} in
                if valid_fields dt then
                  match off with
                  | Some o =>
                      if Z.ltb (Z.abs o) 86400000000 then Ok dt
                      else Raise (Exn ValueError "offset must be a timedelta strictly between -timedelta(hours=24) and timedelta(hours=24)")
                  | None => Ok dt
                  end
                else Raise (Exn ValueError "field out of range") in
              match rest with
              | EmptyString => build 0 0 0 0 None
              | String _ t =>
                  let '(clock, tz) := split_at_sign EmptyString t in
                  match parse_hh_mm_ss_ff clock with
                  | None => bad
                  | Some (h, mi, sec, us) =>
                      match tz with
                      | None => build h mi sec us None
                      | Some (sign, otext) =>
                          match parse_offset sign otext with
                          | Some o => build h mi sec us (Some o)
                          | None => bad
                          end
                      end
                  end
              end
          | None => bad
          end
      | _ => bad
      end
  | _ => bad
  end.

(** [s.replace("Z", "+00:00")]: every [Z], wherever it stands. *)
Fixpoint replace_Z (s : string) : string :=
  match s with
  | EmptyString => EmptyString
  | String c r =>
      if Ascii.eqb c "Z" then "+00:00" +:+ replace_Z r
      else String c (replace_Z r)
  end.

Section Conversion.

(** [dt.timestamp()] of a naive value goes through the local time zone
    of the machine ([mktime]); that reading belongs to the platform. *)
Variable local_timestamp : datetime -> res float.

(** [dt.timestamp()]: for an aware value
    [(dt - epoch).total_seconds()], the microseconds between the two
    instants divided by [10 ** 6]. *)
Definition timestamp (dt : datetime) : res float :=
  match utcoffset dt with
  | Some off => int_truediv (wall_micros dt - off) 1000000
  | None => local_timestamp dt
  end.

(** [convert_to_nanoseconds], lines 259-265. *)
Definition convert_to_nanoseconds (iso_string : string) : res Z :=
  match fromisoformat (replace_Z iso_string) with
  | Raise e => Raise e
  | Ok dt =>
      match timestamp dt with
      | Raise e => Raise e
      | Ok t => Ok (trunc (fmul t (float_of_int 1000000000)))
      end
  end.

End Conversion.

(* ===================================================================== *)
(** ** Paths ([os.path.join])                                             *)
(* ===================================================================== *)

Fixpoint ends_with_slash (s : string) : bool :=
  match s with
  | EmptyString => false
  | String c EmptyString => Ascii.eqb c slash
  | String _ r => ends_with_slash r
  end.

(** One round of the loop of [posixpath.join]: an absolute piece
    replaces what came before, otherwise it is appended behind one
    slash. *)
Definition join2 (path b : string) : string :=
  if is_absolute b then b
  else if String.eqb path "" || ends_with_slash path then path +:+ b
  else path +:+ "/" +:+ b.

Definition os_path_join (a : string) (ps : list string) : string :=
  fold_left join2 ps a.

(** The folder and the file of lines 107-115. *)
Definition folder_path (data_root symbol broker timeframe : string) : string :=
  os_path_join data_root [symbol; broker; timeframe].

Definition file_name (start_dt end_dt : datetime) : string :=
  strftime start_dt +:+ "_" +:+ strftime end_dt +:+ ".pkl".

Definition archive_path (data_root symbol broker timeframe : string)
           (start_dt end_dt : datetime) : string :=
  os_path_join (folder_path data_root symbol broker timeframe)
               [file_name start_dt end_dt].

(* ===================================================================== *)
(** ** The world the script runs in                                       *)
(* ===================================================================== *)

(** The PostgreSQL server as psycopg2 shows it: [accepts params] is the
    exception [psycopg2.connect( **params)] raises, if any; [answers q]
    is what [cursor.execute(q)] followed by [cursor.fetchall()] gives,
    the rows together with the column names of [cursor.description]. *)
Record server : Type := {
  accepts : gmap string json -> option exn;
  answers : string -> res (list (list dbvalue) * list string)
}.

Inductive db_event : Type :=
| EvConnect (params : gmap string json)
| EvCursor
| EvExecute (query : string)
| EvCursorClose
| EvCommit
| EvRollback
| EvClose.

Inductive log_level : Type := DEBUG | INFO | WARNING | ERROR.

(** The messages of the script, by the line that writes them. *)
Inductive log_msg : Type :=
| MsgConfigFailed (e : exn)
| MsgConnectFailed (e : exn)
| MsgExecuting (query : string)
| MsgQueryError (e : exn)
| MsgNoData
| MsgFetched (n : nat) (symbol timeframe : string)
| MsgSaved (path : string).

Record World : Type := {
  files : filesystem;
  cwd : list string;
  pg : server;
  log : list (log_level * log_msg);
  db_trace : list db_event;
  cursor : option (list (list dbvalue) * list string)
}.

(** A computation that may raise and that changes the world. *)
Definition M (A : Type) : Type := World -> res A * World.

Definition ret {A} (a : A) : M A := fun w => (Ok a, w).

Definition raise {A} (e : exn) : M A := fun w => (Raise e, w).

Definition bind {A B} (m : M A) (k : A -> M B) : M B :=
  fun w =>
    match m w with
    | (Ok a, w') => k a w'
    | (Raise e, w') => (Raise e, w')
    end.

Notation "'let*' x ':=' m 'in' k" := (bind m (fun x => k))
  (at level 10, x pattern, m at level 100, k at level 200).
Notation "m ';;' k" := (bind m (fun _ => k))
  (at level 100, k at level 200, right associativity).

(** The outcome of [m], exception included, as a value: the [try] half of
    [try ... except]. *)
Definition attempt {A} (m : M A) : M (res A) :=
  fun w => let '(r, w') := m w in (Ok r, w').

(** Run [m], then [after] whatever the outcome: the exit of a [with]
    block. *)
Definition finally {A} (m : M A) (after : res A -> World -> World) : M A :=
  fun w => let '(r, w') := m w in (r, after r w').

Definition set_files (fs : filesystem) (w : World) : World :=
  {| files := fs; cwd := cwd w; pg := pg w; log := log w;
     db_trace := db_trace w; cursor := cursor w |}.

Definition add_log (l : log_level) (m : log_msg) (w : World) : World :=
  {| files := files w; cwd := cwd w; pg := pg w; log := log w ++ [(l, m)];
     db_trace := db_trace w; cursor := cursor w |}.

Definition add_event (ev : db_event) (w : World) : World :=
  {| files := files w; cwd := cwd w; pg := pg w; log := log w;
     db_trace := db_trace w ++ [ev]; cursor := cursor w |}.

Definition set_cursor (c : option (list (list dbvalue) * list string))
           (w : World) : World :=
  {| files := files w; cwd := cwd w; pg := pg w; log := log w;
     db_trace := db_trace w; cursor := c |}.

Definition logging (l : log_level) (m : log_msg) : M unit :=
  fun w => (Ok tt, add_log l m w).

(** [psycopg2.connect( **params)]. *)
Definition psycopg2_connect (params : gmap string json) : M unit :=
  fun w =>
    match accepts (pg w) params with
    | Some e => (Raise e, w)
    | None => (Ok tt, add_event (EvConnect params) w)
    end.

(** [cursor.execute(query)]. *)
Definition cursor_execute (query : string) : M unit :=
  fun w =>
    let w1 := add_event (EvExecute query) w in
    match answers (pg w) query with
    | Raise e => (Raise e, w1)
    | Ok r => (Ok tt, set_cursor (Some r) w1)
    end.

(** [cursor.fetchall()]. *)
Definition cursor_fetchall : M (list (list dbvalue)) :=
  fun w =>
    match cursor w with
    | Some (rows, _) => (Ok rows, w)
    | None => (Raise (Exn ProgrammingError "no results to fetch"), w)
    end.

(** [[desc[0] for desc in cur.description]]. *)
Definition cursor_description : M (list string) :=
  fun w =>
    match cursor w with
    | Some (_, names) => (Ok names, w)
    | None => (Raise (Exn TypeError "'NoneType' object is not iterable"), w)
    end.

(** [with conn:] commits when the block ends normally and rolls back
    when it raises; the exception goes on. *)
Definition with_conn {A} (body : M A) : M A :=
  finally body (fun r =>
    match r with
    | Ok _ => add_event EvCommit
    | Raise _ => add_event EvRollback
    end).

(** [with conn.cursor() as cur:] closes the cursor on the way out. *)
Definition with_cursor {A} (body : M A) : M A :=
  fun w =>
    finally body (fun _ => add_event EvCursorClose)
            (set_cursor None (add_event EvCursor w)).

Definition conn_close : M unit :=
  fun w => (Ok tt, add_event EvClose w).

(* ===================================================================== *)
(** ** [db_config], lines 40-61                                           *)
(* ===================================================================== *)

Definition required_keys : gset string :=
  {[ "host"; "port"; "dbname"; "user"; "password" ]}.

(** [json.load] on what the file holds, then [params.keys()]. *)
Definition json_load_dict (c : content) : res (gmap string json) :=
  match c with
  | JsonText (JDict d) => Ok d
  | JsonText _ => Raise (Exn AttributeError "object has no attribute 'keys'")
  | PlainText _ => Raise (Exn JSONDecodeError "Expecting value")
  | Pickle _ => Raise (Exn UnicodeDecodeError "invalid start byte")
  | Partial => Raise (Exn JSONDecodeError "Expecting value")
  end.

Definition db_config (config_file : string) : M (gmap string json) :=
  fun w =>
    if negb (path_exists (files w) (cwd w) config_file)
    then (Raise (Exn FileNotFoundError
                   ("Database configuration file not found at "
                    +:+ config_file +:+ ".")), w)
    else
      match read_file (files w) (cwd w) config_file with
      | Raise e => (Raise e, w)
      | Ok c =>
          match json_load_dict c with
          | Raise e => (Raise e, w)
          | Ok params =>
              let missing := required_keys ∖ dom params in
              if bool_decide (missing = ∅) then (Ok params, w)
              else (Raise (MissingKeys missing), w)
          end
      end.

(* ===================================================================== *)
(** ** [query_postgres_db], lines 67-86                                   *)
(* ===================================================================== *)

Definition query_postgres_db (query : string) (debug : bool)
  : M (list (list dbvalue)) :=
  (if debug then logging DEBUG (MsgExecuting query) else ret tt) ;;
  let* r := attempt (cursor_execute query ;; cursor_fetchall) in
  match r with
  | Ok rows => ret rows
  | Raise error =>
      if is_Exception error
      then logging ERROR (MsgQueryError error) ;; ret []
      else raise error
  end.

(* ===================================================================== *)
(** ** [save_data_to_nested_folders], lines 92-121                        *)
(* ===================================================================== *)

Definition os_makedirs (path : string) : M unit :=
  fun w =>
    match makedirs (files w) (cwd w) path with
    | Raise e => (Raise e, w)
    | Ok fs => (Ok tt, set_files fs w)
    end.

Definition pickle_dump (path : string) (df : DataFrame) : M unit :=
  fun w =>
    let '(r, fs) := write_pickle (files w) (cwd w) path df in
    (r, set_files fs w).

Definition save_data_to_nested_folders
           (df : DataFrame) (data_root symbol broker timeframe : string)
           (start_dt end_dt : datetime) : M string :=
  let folder := folder_path data_root symbol broker timeframe in
  os_makedirs folder ;;
  let file_path := os_path_join folder [file_name start_dt end_dt] in
  pickle_dump file_path df ;;
  logging INFO (MsgSaved file_path) ;;
  ret file_path.

(* ===================================================================== *)
(** ** [fetch_and_save_data], lines 127-204                               *)
(* ===================================================================== *)

Definition lift {A} (r : res A) : M A := fun w => (r, w).

(** [datetime.utcfromtimestamp(ns / 1_000_000_000)]. *)
Definition datetime_of_ns (ns : Z) : res datetime :=
  match int_truediv ns 1000000000 with
  | Raise e => Raise e
  | Ok t => utcfromtimestamp t
  end.

Definition fetch_and_save_data
           (symbol broker timeframe : string) (start_ns end_ns : Z)
           (data_root db_config_file : string) (debug : bool)
  : M (option DataFrame) :=
  (* 1) Load DB params *)
  let* loaded := attempt (db_config db_config_file) in
  match loaded with
  | Raise e =>
      if is_Exception e
      then logging ERROR (MsgConfigFailed e) ;; ret None
      else raise e
  | Ok params =>
      (* 2) Connect to PostgreSQL *)
      let* connected := attempt (psycopg2_connect params) in
      match connected with
      | Raise e =>
          if is_OperationalError e
          then logging ERROR (MsgConnectFailed e) ;; ret None
          else raise e
      | Ok _ =>
          (* 3) Build and run the query *)
          let query := build_query symbol timeframe start_ns end_ns in
          let* df :=
            with_conn (with_cursor (
              let* rows := query_postgres_db query debug in
              match rows with
              | [] => logging WARNING MsgNoData ;; ret None
              | _ :: _ =>
                  let* column_names := cursor_description in
                  let df := {| columns := column_names; data := rows |} in
                  logging INFO (MsgFetched (length rows) symbol timeframe) ;;
                  (* 4) Convert nanoseconds back to datetime *)
                  let* start_dt := lift (datetime_of_ns start_ns) in
                  let* end_dt := lift (datetime_of_ns end_ns) in
                  (* 5) Save into nested folders *)
                  save_data_to_nested_folders
                    df data_root symbol broker timeframe start_dt end_dt ;;
                  ret (Some df)
              end)) in
          conn_close ;;
          ret df
      end
  end.

(* ===================================================================== *)
(** ** The default paths, lines 30-34 ([os.path.dirname])                 *)
(* ===================================================================== *)

(** [p[:p.rfind("/") + 1]]: the text up to the last slash, the slash
    included; [None] stands for the empty text of a path without
    slash. *)
Fixpoint up_to_last_slash (p : string) : option string :=
  match p with
  | EmptyString => None
  | String c r =>
      match up_to_last_slash r with
      | Some h => Some (String c h)
      | None => if Ascii.eqb c slash then Some (String c EmptyString) else None
      end
  end.

Fixpoint all_slashes (s : string) : bool :=
  match s with
  | EmptyString => true
  | String c r => Ascii.eqb c slash && all_slashes r
  end.

(** [s.rstrip("/")]. *)
Fixpoint rstrip_slash (s : string) : string :=
  match s with
  | EmptyString => EmptyString
  | String c r =>
      match rstrip_slash r with
      | EmptyString => if Ascii.eqb c slash then EmptyString
                       else String c EmptyString
      | r' => String c r'
      end
  end.

(** [posixpath.dirname]: the head is cut before its trailing slashes
    unless it consists of slashes only. *)
Definition dirname (p : string) : string :=
  match up_to_last_slash p with
  | None => EmptyString
  | Some head => if all_slashes head then head else rstrip_slash head
  end.

(** The three module constants; [file] is [__file__], the path the
    script was started with. *)
Definition CONFIG_PATH (file : string) : string :=
  os_path_join (dirname file) [".."; "config"].

Definition DB_CONFIG_FILE (file : string) : string :=
  os_path_join (CONFIG_PATH file) ["db_config.json"].

Definition DEFAULT_DATA_ROOT (file : string) : string :=
  os_path_join (dirname file) [".."; "data"].

(* ===================================================================== *)
(** ** [parse_arguments], lines 210-257                                   *)
(* ===================================================================== *)

(** The namespace [parse_args] returns, or any object with the same
    attributes, as [main] takes it. *)
Record Namespace : Type := {
  arg_symbol : string;
  arg_broker : string;
  arg_timeframe : string;
  arg_start : string;
  arg_end : string;
  arg_config : string;
  arg_data_root : string;
  arg_debug : bool
}.


(** How [parser.parse_args()] ends: with the namespace, or with the
    [SystemExit] that argparse raises (status 0 after printing the help,
    status 2 after a usage error).  The model reads the command lines
    made of the option names written in full, each followed by its value
    as a separate word; about any other word that begins with a dash
    (an abbreviated name, [--name=value], a lone [--], a negative
    number) it says nothing. *)
Inductive parsed (A : Type) : Type :=
| Parsed (a : A)
| SystemExit (status : Z)
| OutsideFragment.
Arguments Parsed {A} a.
Arguments SystemExit {A} status.
Arguments OutsideFragment {A}.

(** The options that store one value, with the attribute each one
    fills ([--data-root] fills [data_root]). *)
Definition value_options : list (string * string) :=
  [ ("--symbol", "symbol"); ("--broker", "broker");
    ("--timeframe", "timeframe"); ("--start", "start"); ("--end", "end");
    ("--config", "config"); ("--data-root", "data_root") ].

Fixpoint assoc (k : string) (l : list (string * string)) : option string :=
  match l with
  | [] => None
  | (k', v) :: rest => if String.eqb k k' then Some v else assoc k rest
  end.

Definition is_help (word : string) : bool :=
  String.eqb word "-h" || String.eqb word "--help".

Definition is_option (word : string) : bool :=
  is_help word || String.eqb word "--debug"
  || bool_decide (is_Some (assoc word value_options)).

Definition starts_with_dash (word : string) : bool :=
  match word with
  | String c _ => Ascii.eqb c "-"
  | EmptyString => false
  end.

(** What the parser has gathered: the values stored so far by
    attribute, whether [--debug] was met, and whether a word was left
    over that no option took. *)
Record gathered : Type := {
  stored : gmap string string;
  debug_seen : bool;
  leftover : bool
}.

(** The words are taken from left to right.  [-h] ends the run at once;
    an option that stores a value takes the next word, which must not be
    an option itself; a word that no option takes is left over. *)
Fixpoint take_words (argv : list string) (g : gathered) : parsed gathered :=
  match argv with
  | [] => Parsed g
  | word :: rest =>
      if is_help word then SystemExit 0
      else if String.eqb word "--debug" then
        take_words rest {| stored := stored g; debug_seen := true;
                           leftover := leftover g |}
      else
        match assoc word value_options with
        | Some dest =>
            match rest with
            | value :: rest' =>
                if is_option value then SystemExit 2
                else take_words rest'
                       {| stored := <[dest := value]> (stored g);
                          debug_seen := debug_seen g;
                          leftover := leftover g |}
            | [] => SystemExit 2
            end
        | None =>
            take_words rest {| stored := stored g; debug_seen := debug_seen g;
                               leftover := true |}
        end
  end.

(** The namespace: the four required attributes must have been stored,
    the others fall back on their defaults. *)
Definition namespace_of (file : string) (g : gathered) : option Namespace :=
  match stored g !! "symbol", stored g !! "timeframe",
        stored g !! "start", stored g !! "end" with
  | Some symbol, Some timeframe, Some start, Some end_ =>
      Some {| arg_symbol := symbol;
              arg_broker := default "bitstamp" (stored g !! "broker");
              arg_timeframe := timeframe;
              arg_start := start;
              arg_end := end_;
              arg_config := default (DB_CONFIG_FILE file) (stored g !! "config");
              arg_data_root :=
                default (DEFAULT_DATA_ROOT file) (stored g !! "data_root");
              arg_debug := debug_seen g |}
  | _, _, _, _ => None
  end.

(** [argv] is [sys.argv[1:]]. *)
Definition parse_arguments (file : string) (argv : list string)
  : parsed Namespace :=
  if existsb (fun word => starts_with_dash word && negb (is_option word)) argv
  then OutsideFragment
  else
    match take_words argv {| stored := ∅; debug_seen := false;
                             leftover := false |} with
    | Parsed g =>
        match namespace_of file g with
        | None => SystemExit 2
        | Some args => if leftover g then SystemExit 2 else Parsed args
        end
    | SystemExit status => SystemExit status
    | OutsideFragment => OutsideFragment
    end.

(* ===================================================================== *)
(** ** [main], lines 267-296, and the script, lines 298-313               *)
(* ===================================================================== *)

(** [logging.basicConfig] decides how the records are shown, not which
    calls are made: with [level] set to DEBUG or INFO a record is printed
    when its level is not below it.  [log] keeps the calls. *)
Definition basicConfig_level (debug : bool) : log_level :=
  if debug then DEBUG else INFO.

Definition level_number (l : log_level) : Z :=
  match l with
  | DEBUG => 10
  | INFO => 20
  | WARNING => 30
  | ERROR => 40
  end.

Definition shown (level : log_level) (records : list (log_level * log_msg))
  : list (log_level * log_msg) :=
  List.filter (fun r => Z.leb (level_number level) (level_number (fst r)))
              records.

Definition main (local_timestamp : datetime -> res float)
           (file : string) (argv : list string) (args : option Namespace)
  : M (parsed unit) :=
  match (match args with
         | None => parse_arguments file argv
         | Some given => Parsed given
         end) with
  | Parsed args =>
      let* start_ns :=
        lift (convert_to_nanoseconds local_timestamp (arg_start args)) in
      let* end_ns :=
        lift (convert_to_nanoseconds local_timestamp (arg_end args)) in
      fetch_and_save_data (arg_symbol args) (arg_broker args)
                          (arg_timeframe args) start_ns end_ns
                          (arg_data_root args) (arg_config args)
                          (arg_debug args) ;;
      ret (Parsed tt)
  | SystemExit status => ret (SystemExit status)
  | OutsideFragment => ret OutsideFragment
  end.

(** The class [HardcodedArgs] of the [__main__] block. *)
Definition HardcodedArgs (file : string) : Namespace :=
  {| arg_symbol := "BTCUSD";
     arg_broker := "bitstamp";
     arg_timeframe := "1m";
     arg_start := "2018-07-14T07:30:00Z";
     arg_end := "2018-07-14T07:40:00Z";
     arg_config := DB_CONFIG_FILE file;
     arg_data_root := os_path_join (dirname file) [".."; "data"];
     arg_debug := true |}.

(** Running the file as a script: [main(HardcodedArgs())]. *)
Definition script (local_timestamp : datetime -> res float)
           (file : string) (argv : list string) : M (parsed unit) :=
  main local_timestamp file argv (Some (HardcodedArgs file)).

(* ===================================================================== *)
(** ** The probe of the table ([src/debug_db.py])                         *)
(* ===================================================================== *)

(** What the probe prints, line by line. *)
Inductive printed : Type :=
| ColumnNames (names : list string)
| NoRowsReturned
| AFewRows
| PrintedRow (row : list dbvalue).

(** The world together with the standard output. *)
Record Terminal : Type := {
  world : World;
  stdout : list printed
}.

Module debug_db.

(** A computation that may raise, changes the world and prints. *)
Definition T (A : Type) : Type := Terminal -> res A * Terminal.

Definition bindT {A B} (m : T A) (k : A -> T B) : T B :=
  fun t =>
    match m t with
    | (Ok a, t') => k a t'
    | (Raise e, t') => (Raise e, t')
    end.

Definition in_world {A} (m : M A) : T A :=
  fun t =>
    let '(r, w') := m (world t) in
    (r, {| world := w'; stdout := stdout t |}).

Definition print (line : printed) : T unit :=
  fun t => (Ok tt, {| world := world t; stdout := stdout t ++ [line] |}).

(** [for row in rows: print(row)]. *)
Fixpoint print_rows (rows : list (list dbvalue)) : T unit :=
  match rows with
  | [] => fun t => (Ok tt, t)
  | row :: rest => bindT (print (PrintedRow row)) (fun _ => print_rows rest)
  end.

(** [json.load]: the value the text decodes to, whatever it is. *)
Definition json_load (c : content) : res json :=
  match c with
  | JsonText j => Ok j
  | PlainText _ => Raise (Exn JSONDecodeError "Expecting value")
  | Pickle _ => Raise (Exn UnicodeDecodeError "invalid start byte")
  | Partial => Raise (Exn JSONDecodeError "Expecting value")
  end.

(** [db_config()], lines 11-14: the file is opened and decoded; nothing
    is checked.  [file] is the [__file__] of the script. *)
Definition db_config (file : string) : M json :=
  fun w =>
    match read_file (files w) (cwd w) (DB_CONFIG_FILE file) with
    | Raise e => (Raise e, w)
    | Ok c => (json_load c, w)
    end.

(** [psycopg2.connect( **params)]: the value must be a mapping. *)
Definition connect (params : json) : M unit :=
  match params with
  | JDict d => psycopg2_connect d
  | _ => raise (Exn TypeError "argument after ** must be a mapping")
  end.

(** [conn.cursor()] and [cur.close()]. *)
Definition conn_cursor : M unit :=
  fun w => (Ok tt, set_cursor None (add_event EvCursor w)).

Definition cursor_close : M unit :=
  fun w => (Ok tt, add_event EvCursorClose w).

Definition query : string := "SELECT * FROM bitstamp_data LIMIT 5;".

(** [debug_bitstamp_data()], lines 17-48. *)
Definition debug_bitstamp_data (file : string) : T unit :=
  bindT (in_world (db_config file)) (fun params =>
  bindT (in_world (connect params)) (fun _ =>
  bindT (in_world conn_cursor) (fun _ =>
  bindT (in_world (cursor_execute query)) (fun _ =>
  bindT (in_world cursor_fetchall) (fun rows =>
  bindT (in_world cursor_description) (fun column_names =>
  bindT (print (ColumnNames column_names)) (fun _ =>
  bindT (match rows with
         | [] => print NoRowsReturned
         | _ :: _ => bindT (print AFewRows) (fun _ => print_rows rows)
         end) (fun _ =>
  bindT (in_world cursor_close) (fun _ =>
  in_world conn_close))))))))).

End debug_db.

(* ===================================================================== *)
(** ** Sample worlds                                                      *)
(* ===================================================================== *)

Definition sample_params : gmap string json :=
  <["host" := JText "localhost"]>
  (<["port" := JInt 5432]>
  (<["dbname" := JText "market"]>
  (<["user" := JText "reader"]>
  (<["password" := JText "secret"]> ∅)))).

(** The same with one more entry than the script asks for. *)
Definition sample_params_extra : gmap string json :=
  <["sslmode" := JText "require"]> sample_params.

(** The same without the password. *)
Definition sample_params_short : gmap string json :=
  delete "password" sample_params.

Definition sample_files : filesystem :=
  {| entries :=
       <[["srv"] := Dir]>
       (<[["srv"; "config"] := Dir]>
       (<[["srv"; "config"; "db_config.json"]
            := File (JsonText (JDict sample_params))]>
       (<[["srv"; "config"; "extra.json"]
            := File (JsonText (JDict sample_params_extra))]>
       (<[["srv"; "config"; "short.json"]
            := File (JsonText (JDict sample_params_short))]> ∅))));
     faults := ∅ |}.

Definition sample_columns : list string :=
  ["symbol"; "timeframe"; "epoch_open_time"; "open"].

Definition sample_rows : list (list dbvalue) :=
  [ [VText "BTCUSD"; VText "1m"; VInt 1531553400000000000; VText "6231.5"];
    [VText "BTCUSD"; VText "1m"; VInt 1531553460000000000; VText "6232.0"];
    [VText "BTCUSD"; VText "1m"; VInt 1531553520000000000; VText "6230.1"] ].

(** A server that nobody reaches. *)
Definition server_down : server :=
  {| accepts := fun _ => Some (Exn OperationalError "could not connect to server");
     answers := fun _ => Raise (Exn OperationalError "connection closed") |}.

(** A server that finds no row. *)
Definition server_empty : server :=
  {| accepts := fun _ => None;
     answers := fun _ => Ok ([], sample_columns) |}.

(** A server that finds three rows. *)
Definition server_rows : server :=
  {| accepts := fun _ => None;
     answers := fun _ => Ok (sample_rows, sample_columns) |}.

Definition sample_world (srv : server) : World :=
  {| files := sample_files; cwd := ["srv"]; pg := srv; log := [];
     db_trace := []; cursor := None |}.

(** 2018-07-14 07:30:00 and 07:40:00, as [utcfromtimestamp] builds them. *)
Definition sample_start : datetime :=
  {| year := 2018; month := 7; day := 14; hour := 7; minute := 30;
     second := 0; microsecond := 0; utcoffset := None |}.

Definition sample_end : datetime :=
  {| year := 2018; month := 7; day := 14; hour := 7; minute := 40;
     second := 0; microsecond := 0; utcoffset := None |}.

(* ===================================================================== *)
(** ** Notions used in the statements and in the proofs                  *)
(* ===================================================================== *)

(** Every character of [s] is a decimal digit. *)
Fixpoint all_digits (s : string) : bool :=
  match s with
  | EmptyString => true
  | String c r => is_digit c && all_digits r
  end.

(** Go on lexing [s] from where [x] stopped. *)
Definition then_run (x : outcome (list token * lex_state)) (s : string)
  : outcome (list token * lex_state) :=
  obind x (fun '(ts, st') =>
    omap (fun '(ts', st'') => (ts ++ ts', st'')) (lex_run st' s)).

(** The text is five fixed chunks around the four pasted values. *)
Definition chunk_select : string :=
  nl +:+ "        SELECT *" +:+
  nl +:+ "        FROM bitstamp_data" +:+
  nl +:+ "        WHERE symbol = '".

Definition chunk_timeframe : string :=
  "'" +:+ nl +:+ "          AND timeframe = '".

Definition chunk_from : string :=
  "'" +:+ nl +:+ "          AND epoch_open_time >= ".

Definition chunk_until : string :=
  nl +:+ "          AND epoch_open_time < ".

Definition chunk_order : string :=
  nl +:+ "        ORDER BY epoch_open_time ASC" +:+ nl +:+ "    ".

(** The tokens and the syntax tree the query is meant to have. *)
Definition query_tokens (S T : string) (s e : Z) : list token :=
  [TWord "select"; TSym "*"; TWord "from"; TWord "bitstamp_data";
   TWord "where"; TWord "symbol"; TSym "="; TStr S;
   TWord "and"; TWord "timeframe"; TSym "="; TStr T;
   TWord "and"; TWord "epoch_open_time"; TSym ">="; TInt s;
   TWord "and"; TWord "epoch_open_time"; TSym "<"; TInt e;
   TWord "order"; TWord "by"; TWord "epoch_open_time"; TWord "asc"].

Definition query_ast (S T : string) (s e : Z) : select :=
  {| q_table := "bitstamp_data";
     q_where :=
       [ {| p_col := "symbol"; p_op := OpEq; p_lit := LitText S |};
         {| p_col := "timeframe"; p_op := OpEq; p_lit := LitText T |};
         {| p_col := "epoch_open_time"; p_op := OpGe; p_lit := LitInt s |};
         {| p_col := "epoch_open_time"; p_op := OpLt; p_lit := LitInt e |} ];
     q_order := Some ("epoch_open_time", Asc) |}.

(** A table with one bar whose symbol has a quote in it, and one with
    three bars of which two lie in the interval [3, 10). *)
Definition quoted_table : list bar :=
  [ {| symbol := "BTC'"; timeframe := "D"; epoch_open_time := 5;
       other_columns := [] |} ].

Definition small_table : list bar :=
  [ {| symbol := "BTCUSD"; timeframe := "1m"; epoch_open_time := 7;
       other_columns := ["6231.5"] |};
    {| symbol := "BTCUSD"; timeframe := "1m"; epoch_open_time := 3;
       other_columns := ["6232.0"] |};
    {| symbol := "ETHUSD"; timeframe := "1m"; epoch_open_time := 4;
       other_columns := ["430.2"] |};
    {| symbol := "BTCUSD"; timeframe := "1m"; epoch_open_time := 10;
       other_columns := ["6230.1"] |} ].

(** [r] is an exception of class [c]. *)
Definition raises_class {A} (r : res A) (c : exn_class) : Prop :=
  exists e, r = Raise e /\ class_of e = c.

(** The world in which the query runs: connected, cursor open. *)
Definition at_query (params : gmap string json) (w : World) : World :=
  set_cursor None (add_event EvCursor (add_event (EvConnect params) w)).

(** The world after a query that brought nothing. *)
Definition after_no_data (w : World) : World :=
  add_event EvClose
    (add_event EvCommit
       (add_event EvCursorClose (add_log WARNING MsgNoData w))).

(** How the gateway comes to hand back no row: the server found none, or
    the query failed with an error that [query_postgres_db] catches. *)
Definition yields_no_rows (srv : server) (query : string) : Prop :=
  (exists names, answers srv query = Ok ([], names))
  \/ (exists e, answers srv query = Raise e /\ is_Exception e = true).

(** A float denotes the integer [v]. *)
Definition denotes (x : float) (v : Z) : Prop :=
  fst (fraction x) = v * snd (fraction x) /\ 0 < snd (fraction x).

(** [ord2ymd] gives a date of the calendar whose day number is [n]. *)
Definition ord_ok (n : Z) : bool :=
  let '(y, m, d) := ord2ymd n in
  Z.eqb (ymd2ord y m d) n
  && Z.leb 1 y && Z.leb y 9999 && Z.leb 1 m && Z.leb m 12
  && Z.leb 1 d && Z.leb d (days_in_month y m).

(** [month_day] gives a month and a day of that month, and the days
    before them add up to [r]. *)
Definition month_day_ok (leap : bool) (r : Z) : bool :=
  let '(m, d) := month_day r leap in
  Z.leb 1 m && Z.leb m 12 && Z.leb 1 d
  && Z.leb d (if Z.eqb m 2 then (if leap then 29 else 28)
              else days_in_month 1 m)
  && Z.eqb (days_before_month_common m
            + (if Z.ltb 2 m && leap then 1 else 0) + d) (r + 1).

(** [f] on the [k] integers from [n] on. *)
Fixpoint all_upto (f : Z -> bool) (k : nat) (n : Z) : bool :=
  match k with
  | O => true
  | S k' => if f n then all_upto f k' (n + 1) else false
  end.



(** A path piece that [os.path.join] treats as a plain name: not empty,
    no slash in front, no slash behind. *)
Definition plain_piece (s : string) : Prop :=
  s <> "" /\ is_absolute s = false /\ ends_with_slash s = false.

(** Every directory of [fs] is still a directory in [fs']. *)
Definition keeps_dirs (fs fs' : filesystem) : Prop :=
  forall loc, lookup_node fs loc = Some Dir -> lookup_node fs' loc = Some Dir.

(** The table of the three sample rows and the file it goes to. *)
Definition sample_df : DataFrame :=
  {| columns := sample_columns; data := sample_rows |}.

Definition sample_archive : string :=
  "data/BTCUSD/bitstamp/1m/2018-07-14_07-30-00_2018-07-14_07-40-00.pkl".


(** The sample world where nothing may be made under [/srv/data]. *)
Definition sample_world_denied : World :=
  set_files {| entries := entries sample_files;
               faults := {[ ["srv"; "data"] := Denied ]} |}
            (sample_world server_rows).

(** The world in which the rows are saved: query run, rows counted. *)
Definition at_save (symbol timeframe : string) (start_ns end_ns : Z)
           (debug : bool) (params : gmap string json)
           (rows : list (list dbvalue)) (names : list string) (w : World)
  : World :=
  let query := build_query symbol timeframe start_ns end_ns in
  let w0 := at_query params w in
  let w1 := if debug then add_log DEBUG (MsgExecuting query) w0 else w0 in
  add_log INFO (MsgFetched (length rows) symbol timeframe)
          (set_cursor (Some (rows, names)) (add_event (EvExecute query) w1)).

(* --------------------------------------------------------------------- *)
(** *** Notions for the paths of the orchestrator, the calendar and the
    command line                                                       *)
(* --------------------------------------------------------------------- *)

(** The log line of [query_postgres_db] when [debug] is on. *)
Definition debug_line (query : string) (debug : bool)
  : list (log_level * log_msg) :=
  if debug then [(DEBUG, MsgExecuting query)] else [].

(** The three exchanges with the database a call can have. *)
Definition exchange_committed (params : gmap string json) (query : string)
  : list db_event :=
  [EvConnect params; EvCursor; EvExecute query; EvCursorClose; EvCommit;
   EvClose].

Definition exchange_rolled_back (params : gmap string json) (query : string)
  : list db_event :=
  [EvConnect params; EvCursor; EvExecute query; EvCursorClose; EvRollback].

(** The first and the last second of the calendar, from the epoch. *)
Definition min_second : Z := -62135596800.
Definition max_second : Z := 253402300799.


(** The six numbers a stamp shows. *)
Definition stamp_fields (dt : datetime) : Z * Z * Z * Z * Z * Z :=
  (year dt, month dt, day dt, hour dt, minute dt, second dt).

(** Seconds from the epoch to the wall-clock reading. *)
Definition wall_seconds (dt : datetime) : Z :=
  (ymd2ord (year dt) (month dt) (day dt) - epoch_ordinal) * 86400
  + hour dt * 3600 + minute dt * 60 + second dt.

Definition days_in_year (y : Z) : Z := if is_leap y then 366 else 365.

(** The text [YYYY-MM-DDTHH:MM:SS] of a datetime, and the same followed
    by [Z] or by an offset [+HH:MM] or [-HH:MM]. *)
Definition iso_clock (dt : datetime) : string :=
  pad4 (year dt) +:+ "-" +:+ pad2 (month dt) +:+ "-" +:+ pad2 (day dt)
  +:+ "T" +:+ pad2 (hour dt) +:+ ":" +:+ pad2 (minute dt)
  +:+ ":" +:+ pad2 (second dt).

Definition iso_utc (dt : datetime) : string := iso_clock dt +:+ "Z".

Definition iso_offset (dt : datetime) (east : bool) (oh om : Z) : string :=
  iso_clock dt +:+ (if east then "+" else "-") +:+ pad2 oh +:+ ":" +:+ pad2 om.

(** The offset in seconds that [+HH:MM] or [-HH:MM] stands for. *)
Definition offset_seconds (east : bool) (oh om : Z) : Z :=
  (if east then 1 else -1) * (oh * 3600 + om * 60).

(** The datetime with the fields of [dt], no microseconds and the offset
    [off]. *)
Definition on_the_second (dt : datetime) (off : option Z) : datetime :=
  {| year := year dt; month := month dt; day := day dt; hour := hour dt;
     minute := minute dt; second := second dt; microsecond := 0;
     utcoffset := off |}.

(** A command line that names the four required options and, at will,
    the three others and [--debug]. *)
Definition optional_words (flag : string) (value : option string)
  : list string :=
  match value with
  | Some v => [flag; v]
  | None => []
  end.

Definition command_line (symbol timeframe start end_ : string)
           (broker config data_root : option string) (debug : bool)
  : list string :=
  ["--symbol"; symbol; "--timeframe"; timeframe; "--start"; start;
   "--end"; end_]
  ++ optional_words "--broker" broker
  ++ optional_words "--config" config
  ++ optional_words "--data-root" data_root
  ++ (if debug then ["--debug"] else []).

(** A word that argparse takes for a value: it does not begin with a
    dash. *)
Definition plain_word (s : string) : Prop := starts_with_dash s = false.

Definition plain_if_given (value : option string) : Prop :=
  match value with
  | Some v => plain_word v
  | None => True
  end.

(** What the probe prints when the server answers. *)
Definition probe_output (rows : list (list dbvalue)) (names : list string)
  : list printed :=
  ColumnNames names
  :: match rows with
     | [] => [NoRowsReturned]
     | _ :: _ => AFewRows :: List.map PrintedRow rows
     end.

(** The terminal in which the probe starts on the sample files, the
    script lying in [/srv/src]. *)
Definition sample_terminal (srv : server) : Terminal :=
  {| world := set_files (set_entry ["srv"; "src"] Dir sample_files)
                        (sample_world srv);
     stdout := [] |}.

(* ===================================================================== *)
(** * Lemmas and theorems                                                 *)
(* ===================================================================== *)

(* --------------------------------------------------------------------- *)
(** ** Strings                                                         *)
(* --------------------------------------------------------------------- *)

Lemma append_cons (x : ascii) (a b : string) :
  String x a +:+ b = String x (a +:+ b).
Proof. reflexivity. Qed.

Lemma append_empty_l (b : string) : "" +:+ b = b.
Proof. reflexivity. Qed.

Lemma append_assoc (a b c : string) : (a +:+ b) +:+ c = a +:+ (b +:+ c).
Proof.
  induction a as [|x a IH]; [reflexivity|].
  rewrite !append_cons. now rewrite IH.
Qed.

Lemma append_empty_r (a : string) : a +:+ "" = a.
Proof.
  induction a as [|x a IH]; [reflexivity|].
  rewrite append_cons. now rewrite IH.
Qed.

Lemma snoc_append (acc : string) (c : ascii) (r : string) :
  snoc acc c +:+ r = acc +:+ String c r.
Proof. unfold snoc. now rewrite append_assoc. Qed.

Lemma all_digits_uint (d : Decimal.uint) :
  all_digits (NilEmpty.string_of_uint d) = true.
Proof. induction d; simpl; auto. Qed.

(* --------------------------------------------------------------------- *)
(** ** The lexer on the pieces of the query text                       *)
(* --------------------------------------------------------------------- *)

Lemma lex_run_app (st : lex_state) (a b : string) :
  lex_run st (a +:+ b) = then_run (lex_run st a) b.
Proof.
  revert st. induction a as [|c a IH]; intros st.
  - rewrite append_empty_l. unfold then_run; simpl.
    destruct (lex_run st b) as [[ts st']| |]; reflexivity.
  - rewrite append_cons. unfold then_run in *. simpl.
    destruct (lex_step st c) as [[ts st']| |]; simpl; try reflexivity.
    rewrite IH.
    destruct (lex_run st' a) as [[ts1 st1]| |]; simpl; try reflexivity.
    destruct (lex_run st1 b) as [[ts2 st2]| |]; simpl; try reflexivity.
    now rewrite <- ?List.app_assoc.
Qed.

(** Inside a literal, text without a quote is taken as it stands. *)
Lemma lex_run_literal (s acc : string) :
  lacks quote s = true ->
  lex_run (LStr acc) s = Good ([], LStr (acc +:+ s)).
Proof.
  revert acc. induction s as [|c s IH]; intros acc H; simpl in *.
  - now rewrite append_empty_r.
  - apply andb_true_iff in H as [Hc Hs].
    apply negb_true_iff in Hc. rewrite Hc. simpl.
    rewrite (IH _ Hs). simpl. now rewrite snoc_append.
Qed.

Lemma lex_run_digits (s acc : string) :
  all_digits s = true ->
  lex_run (LNum acc) s = Good ([], LNum (acc +:+ s)).
Proof.
  revert acc. induction s as [|c s IH]; intros acc H; simpl in *.
  - now rewrite append_empty_r.
  - apply andb_true_iff in H as [Hc Hs]. rewrite Hc. simpl.
    rewrite (IH _ Hs). simpl. now rewrite snoc_append.
Qed.

Lemma lex_run_uint (d : Decimal.uint) :
  d <> Decimal.Nil ->
  lex_run LIdle (NilEmpty.string_of_uint d)
  = Good ([], LNum (NilEmpty.string_of_uint d)).
Proof.
  intros Hd. destruct d; try congruence;
    cbn [NilEmpty.string_of_uint lex_run];
    (unfold lex_step, idle_next; simpl;
     rewrite lex_run_digits by apply all_digits_uint; reflexivity).
Qed.

Lemma lex_run_minus_uint (d : Decimal.uint) :
  d <> Decimal.Nil ->
  lex_run LMinus (NilEmpty.string_of_uint d)
  = Good ([], LNum (String "-" (NilEmpty.string_of_uint d))).
Proof.
  intros Hd. destruct d; try congruence;
    cbn [NilEmpty.string_of_uint lex_run];
    (unfold lex_step; simpl;
     rewrite lex_run_digits by apply all_digits_uint; reflexivity).
Qed.

(** [str(n)] is read as one number, whatever its sign. *)
Lemma lex_run_str_int (z : Z) :
  lex_run LIdle (str_int z) = Good ([], LNum (str_int z)).
Proof.
  destruct z as [|p|p]; unfold str_int; simpl.
  - reflexivity.
  - pose proof (DecimalPos.Unsigned.to_uint_nonnil p) as Hp.
    unfold NilZero.string_of_uint.
    destruct (Pos.to_uint p) eqn:E; try congruence;
      rewrite <- E; apply lex_run_uint; rewrite E; discriminate.
  - pose proof (DecimalPos.Unsigned.to_uint_nonnil p) as Hp.
    unfold NilZero.string_of_uint.
    destruct (Pos.to_uint p) eqn:E; try congruence;
      rewrite <- E; unfold lex_step, idle_next; simpl;
      rewrite lex_run_minus_uint by (rewrite E; discriminate); reflexivity.
Qed.

Lemma num_token_str_int (z : Z) : num_token (str_int z) = Good (TInt z).
Proof.
  unfold num_token, str_int.
  rewrite NilZero.isi.
  - now rewrite DecimalZ.of_to.
  - destruct z; simpl; try discriminate.
    intros [= H]. now apply (DecimalPos.Unsigned.to_uint_nonnil p).
  - destruct z; simpl; try discriminate.
    intros [= H]. now apply (DecimalPos.Unsigned.to_uint_nonnil p).
Qed.

Lemma build_query_chunks (S T : string) (s e : Z) :
  build_query S T s e
  = chunk_select +:+ S +:+ chunk_timeframe +:+ T +:+ chunk_from
    +:+ str_int s +:+ chunk_until +:+ str_int e +:+ chunk_order.
Proof. reflexivity. Qed.

Lemma lex_chunk_select :
  lex_run LIdle chunk_select
  = Good ([TWord "select"; TSym "*"; TWord "from"; TWord "bitstamp_data";
           TWord "where"; TWord "symbol"; TSym "="], LStr "").
Proof. vm_compute. reflexivity. Qed.

Lemma lex_chunk_timeframe (acc : string) :
  lex_run (LStr acc) chunk_timeframe
  = Good ([TStr acc; TWord "and"; TWord "timeframe"; TSym "="], LStr "").
Proof. reflexivity. Qed.

Lemma lex_chunk_from (acc : string) :
  lex_run (LStr acc) chunk_from
  = Good ([TStr acc; TWord "and"; TWord "epoch_open_time"; TSym ">="], LIdle).
Proof. reflexivity. Qed.

Lemma lex_run_close_num (acc : string) (c : ascii) (r : string) :
  is_digit c = false -> is_word_start c = false ->
  lex_run (LNum acc) (String c r)
  = obind (num_token acc) (fun t => then_run (emit t c) r).
Proof.
  intros Hd Hw. cbn [lex_run]. unfold lex_step. rewrite Hd, Hw.
  destruct (num_token acc) as [t| |]; reflexivity.
Qed.

Lemma lex_chunk_until (acc : string) :
  lex_run (LNum acc) chunk_until
  = omap (fun t => ([t; TWord "and"; TWord "epoch_open_time"; TSym "<"], LIdle))
         (num_token acc).
Proof.
  etransitivity; [apply lex_run_close_num; reflexivity|].
  destruct (num_token acc) as [t| |]; [vm_compute|..]; reflexivity.
Qed.

Lemma lex_chunk_order (acc : string) :
  lex_run (LNum acc) chunk_order
  = omap (fun t => ([t; TWord "order"; TWord "by"; TWord "epoch_open_time";
                     TWord "asc"], LIdle))
         (num_token acc).
Proof.
  etransitivity; [apply lex_run_close_num; reflexivity|].
  destruct (num_token acc) as [t| |]; [vm_compute|..]; reflexivity.
Qed.

Lemma then_run_good ts st s :
  then_run (Good (ts, st)) s
  = omap (fun '(ts', st') => (ts ++ ts', st')) (lex_run st s).
Proof. reflexivity. Qed.

Lemma lex_build_query (S T : string) (s e : Z) :
  lacks quote S = true -> lacks quote T = true ->
  lex (build_query S T s e) = Good (query_tokens S T s e).
Proof.
  intros HS HT. unfold lex. rewrite build_query_chunks.
  rewrite lex_run_app, lex_chunk_select, then_run_good.
  rewrite lex_run_app, (lex_run_literal S "" HS), then_run_good, append_empty_l.
  rewrite lex_run_app, lex_chunk_timeframe, then_run_good.
  rewrite lex_run_app, (lex_run_literal T "" HT), then_run_good, append_empty_l.
  rewrite lex_run_app, lex_chunk_from, then_run_good.
  rewrite lex_run_app, lex_run_str_int, then_run_good.
  rewrite lex_run_app, lex_chunk_until, num_token_str_int.
  cbn [omap obind]. rewrite then_run_good.
  rewrite lex_run_app, lex_run_str_int, then_run_good.
  rewrite lex_chunk_order, num_token_str_int.
  reflexivity.
Qed.

(* --------------------------------------------------------------------- *)
(** ** From tokens to rows                                             *)
(* --------------------------------------------------------------------- *)

Lemma parse_query_tokens (S T : string) (s e : Z) :
  parse_select (query_tokens S T s e) = Good (query_ast S T s e).
Proof. reflexivity. Qed.

Lemma eval_where_query (S T : string) (s e : Z) (r : bar) :
  eval_where (q_where (query_ast S T s e)) r = Good (wanted S T s e r).
Proof.
  unfold wanted. cbn. f_equal.
  rewrite andb_true_r, !andb_assoc. reflexivity.
Qed.

Lemma select_rows_filter (ps : list pred) (f : bar -> bool) (t : list bar) :
  (forall r, eval_where ps r = Good (f r)) ->
  select_rows ps t = Good (List.filter f t).
Proof.
  intros H. induction t as [|r t IH]; [reflexivity|].
  cbn [select_rows List.filter]. rewrite H, IH. reflexivity.
Qed.

#[global] Instance by_open_time_total : Total by_open_time.
Proof. intros a b. unfold by_open_time. lia. Qed.

#[global] Instance by_open_time_trans : Transitive by_open_time.
Proof. intros a b c. unfold by_open_time. lia. Qed.

Lemma sql_run_build_query (S T : string) (s e : Z)
      (db : gmap string (list bar)) (tbl : list bar) :
  lacks quote S = true -> lacks quote T = true ->
  db !! "bitstamp_data" = Some tbl ->
  sql_run db (build_query S T s e)
  = Good (merge_sort by_open_time (List.filter (wanted S T s e) tbl)).
Proof.
  intros HS HT Hdb. unfold sql_run.
  rewrite (lex_build_query S T s e HS HT). cbn [obind].
  rewrite parse_query_tokens. cbn [obind].
  unfold run_select. change (q_table (query_ast S T s e)) with "bitstamp_data".
  rewrite Hdb.
  rewrite (select_rows_filter _ (wanted S T s e)) by apply eval_where_query.
  reflexivity.
Qed.

Lemma wanted_spec (S T : string) (s e : Z) (r : bar) :
  wanted S T s e r = true
  <-> symbol r = S /\ timeframe r = T
      /\ s <= epoch_open_time r /\ epoch_open_time r < e.
Proof.
  unfold wanted. rewrite !andb_true_iff, !String.eqb_eq.
  rewrite Z.leb_le, Z.ltb_lt. tauto.
Qed.

Example sql_run_sample :
  sql_run {[ "bitstamp_data" := small_table ]} (build_query "BTCUSD" "1m" 3 10)
  = Good [ {| symbol := "BTCUSD"; timeframe := "1m"; epoch_open_time := 3;
              other_columns := ["6232.0"] |};
           {| symbol := "BTCUSD"; timeframe := "1m"; epoch_open_time := 7;
              other_columns := ["6231.5"] |} ].
Proof. vm_compute. reflexivity. Qed.

(** C1 (as amended).  When neither the symbol nor the timeframe contains a
    single quote, the text built by [fetch_and_save_data] is read as one
    SELECT over [bitstamp_data] whose result holds exactly the rows with
    that symbol, that timeframe and [start <= epoch_open_time < end], each
    as often as the table holds it, in ascending order of
    [epoch_open_time]. *)
Theorem query_selects_half_open_interval
        (S T : string) (start_ns end_ns : Z)
        (db : gmap string (list bar)) (tbl : list bar) :
  lacks quote S = true -> lacks quote T = true ->
  db !! "bitstamp_data" = Some tbl ->
  exists out,
    sql_run db (build_query S T start_ns end_ns) = Good out
    /\ Permutation out (List.filter (wanted S T start_ns end_ns) tbl)
    /\ (forall r, In r out <->
          In r tbl /\ symbol r = S /\ timeframe r = T
          /\ start_ns <= epoch_open_time r /\ epoch_open_time r < end_ns)
    /\ StronglySorted by_open_time out.
Proof.
  intros HS HT Hdb.
  exists (merge_sort by_open_time (List.filter (wanted S T start_ns end_ns) tbl)).
  split; [now apply sql_run_build_query|].
  assert (HP : Permutation
                 (merge_sort by_open_time
                    (List.filter (wanted S T start_ns end_ns) tbl))
                 (List.filter (wanted S T start_ns end_ns) tbl))
    by apply merge_sort_Permutation.
  split; [exact HP|]. split.
  - intros r. split.
    + intros Hin. apply (Permutation_in _ HP) in Hin.
      apply filter_In in Hin as [Hin Hw]. apply wanted_spec in Hw. tauto.
    + intros (Hin & Hw). apply (Permutation_in _ (Permutation_sym HP)).
      apply filter_In. split; [exact Hin|]. apply wanted_spec. tauto.
  - apply StronglySorted_merge_sort; apply _.
Qed.

Lemma query_selects_half_open_interval_witness :
  exists out,
    sql_run {[ "bitstamp_data" := small_table ]} (build_query "BTCUSD" "1m" 3 10)
    = Good out
    /\ Permutation out (List.filter (wanted "BTCUSD" "1m" 3 10) small_table)
    /\ (forall r, In r out <->
          In r small_table /\ symbol r = "BTCUSD" /\ timeframe r = "1m"
          /\ 3 <= epoch_open_time r /\ epoch_open_time r < 10)
    /\ StronglySorted by_open_time out.
Proof.
  apply (query_selects_half_open_interval "BTCUSD" "1m" 3 10
           {[ "bitstamp_data" := small_table ]} small_table);
    reflexivity.
Defined.

(** C1, counterexample.  With the symbol [BTC'] the closing quote of the
    first literal is doubled by the pasted text, the last literal never
    ends, and the query is rejected, although the table holds a row with
    exactly that symbol inside the interval. *)
Lemma query_with_quote_in_symbol_is_rejected :
  0 < 10
  /\ ({[ "bitstamp_data" := quoted_table ]} : gmap string (list bar))
       !! "bitstamp_data" = Some quoted_table
  /\ List.filter (wanted "BTC'" "D" 0 10) quoted_table = quoted_table
  /\ sql_run {[ "bitstamp_data" := quoted_table ]}
             (build_query "BTC'" "D" 0 10) = SqlError
  /\ ~ (exists out,
          sql_run {[ "bitstamp_data" := quoted_table ]}
                  (build_query "BTC'" "D" 0 10) = Good out
          /\ Permutation out
               (List.filter (wanted "BTC'" "D" 0 10) quoted_table)).
Proof.
  split; [lia|]. split; [reflexivity|]. split; [reflexivity|].
  assert (E : sql_run {[ "bitstamp_data" := quoted_table ]}
                      (build_query "BTC'" "D" 0 10) = SqlError)
    by (vm_compute; reflexivity).
  split; [exact E|]. intros (out & H & _). rewrite E in H. discriminate.
Qed.

(* --------------------------------------------------------------------- *)
(** ** The configuration loader                                        *)
(* --------------------------------------------------------------------- *)

Lemma db_config_reads_only (config_file : string) (w : World) :
  snd (db_config config_file w) = w.
Proof.
  unfold db_config.
  destruct (negb (path_exists (files w) (cwd w) config_file)); [reflexivity|].
  destruct (read_file (files w) (cwd w) config_file) as [c|e]; [|reflexivity].
  destruct (json_load_dict c) as [d|e]; [|reflexivity].
  destruct (bool_decide _); reflexivity.
Qed.

Lemma read_file_exists (fs : filesystem) (cd : list string) (path : string)
      (c : content) :
  read_file fs cd path = Ok c -> path_exists fs cd path = true.
Proof.
  unfold read_file, path_exists.
  destruct (locate fs cd path) as [loc|e]; [|discriminate].
  destruct (lookup_node fs loc) as [[|c']|]; try discriminate.
  intros _. now apply bool_decide_eq_true.
Qed.



Lemma missing_empty_iff (d : gmap string json) :
  required_keys ∖ dom d = ∅ <-> forall k, k ∈ required_keys -> is_Some (d !! k).
Proof.
  split.
  - intros H k Hk. apply elem_of_dom.
    destruct (decide (k ∈ dom d)) as [|Hn]; [assumption|].
    assert (k ∈ required_keys ∖ dom d) as Hin by set_solver.
    rewrite H in Hin. set_solver.
  - intros H. apply set_eq. intros k. split; [|set_solver].
    intros Hk. apply elem_of_difference in Hk as [Hk Hn].
    exfalso. apply Hn, elem_of_dom, H, Hk.
Qed.

Lemma db_config_on_dict (config_file : string) (w : World)
      (d : gmap string json) :
  read_file (files w) (cwd w) config_file = Ok (JsonText (JDict d)) ->
  db_config config_file w
  = (if bool_decide (required_keys ∖ dom d = ∅) then Ok d
     else Raise (MissingKeys (required_keys ∖ dom d)), w).
Proof.
  intros Hr. unfold db_config.
  rewrite (read_file_exists _ _ _ _ Hr), Hr. simpl.
  destruct (bool_decide _); reflexivity.
Qed.

(** The sample configuration files. *)
Lemma sample_config_loads (srv : server) :
  db_config "config/db_config.json" (sample_world srv)
  = (Ok sample_params, sample_world srv).
Proof.
  rewrite (db_config_on_dict _ _ sample_params) by reflexivity.
  assert (bool_decide (required_keys ∖ dom sample_params = ∅) = true) as ->
    by (vm_compute; reflexivity).
  reflexivity.
Qed.

Lemma sample_extra_loads (srv : server) :
  db_config "config/extra.json" (sample_world srv)
  = (Ok sample_params_extra, sample_world srv).
Proof.
  rewrite (db_config_on_dict _ _ sample_params_extra) by reflexivity.
  assert (bool_decide (required_keys ∖ dom sample_params_extra = ∅) = true)
    as -> by (vm_compute; reflexivity).
  reflexivity.
Qed.

Lemma sample_short_fails (srv : server) :
  db_config "config/short.json" (sample_world srv)
  = (Raise (MissingKeys {[ "password" ]}), sample_world srv).
Proof.
  rewrite (db_config_on_dict _ _ sample_params_short) by reflexivity.
  assert (bool_decide (required_keys ∖ dom sample_params_short = ∅) = false)
    as -> by (vm_compute; reflexivity).
  assert (required_keys ∖ dom sample_params_short = {[ "password" ]}) as ->
    by (apply (bool_decide_eq_true_1 _); vm_compute; reflexivity).
  reflexivity.
Qed.

Lemma sample_none_is_missing (srv : server) :
  db_config "config/none.json" (sample_world srv)
  = (Raise (Exn FileNotFoundError
              "Database configuration file not found at config/none.json."),
     sample_world srv).
Proof. reflexivity. Qed.


Lemma sample_params_extra_complete (k : string) :
  k ∈ required_keys -> is_Some (sample_params_extra !! k).
Proof.
  apply missing_empty_iff. apply (bool_decide_eq_true_1 _).
  vm_compute. reflexivity.
Qed.



(** C10.  A configuration object that has the five required keys is
    returned as it was read: the returned parameters are that object, so
    every entry of it, under a required key or under any other, is an
    entry of the result with the same value, and the result has no other
    entries. *)
Theorem db_config_returns_mapping_verbatim
        (config_file : string) (w : World) (d : gmap string json) :
  read_file (files w) (cwd w) config_file = Ok (JsonText (JDict d)) ->
  (forall k, k ∈ required_keys -> is_Some (d !! k)) ->
  exists params,
    db_config config_file w = (Ok params, w)
    /\ (forall k, params !! k = d !! k)
    /\ (forall k v, k ∉ required_keys -> d !! k = Some v ->
                    params !! k = Some v).
Proof.
  intros Hr Hall. exists d. split; [|split; [reflexivity | auto]].
  rewrite (db_config_on_dict _ _ _ Hr).
  rewrite bool_decide_eq_true_2; [reflexivity|].
  now apply missing_empty_iff.
Qed.

Lemma required_keys_cases (k : string) :
  k ∈ required_keys ->
  k = "host" \/ k = "port" \/ k = "dbname" \/ k = "user" \/ k = "password".
Proof.
  unfold required_keys. rewrite !elem_of_union, !elem_of_singleton. tauto.
Qed.

Lemma db_config_returns_mapping_verbatim_witness :
  exists params,
    db_config "config/extra.json" (sample_world server_down)
    = (Ok params, sample_world server_down)
    /\ (forall k, params !! k = sample_params_extra !! k)
    /\ (forall k v, k ∉ required_keys -> sample_params_extra !! k = Some v ->
                    params !! k = Some v).
Proof.
  apply (db_config_returns_mapping_verbatim
           "config/extra.json" (sample_world server_down) sample_params_extra);
    [reflexivity | exact sample_params_extra_complete].
Defined.

Example extra_key_passes_through :
  fst (db_config "config/extra.json" (sample_world server_down))
  = Ok sample_params_extra
  /\ sample_params_extra !! "sslmode" = Some (JText "require")
  /\ "sslmode" ∉ required_keys.
Proof.
  rewrite sample_extra_loads. split; [reflexivity|]. split; [reflexivity|].
  intros H. destruct (required_keys_cases _ H) as [?|[?|[?|[?|?]]]];
    discriminate.
Qed.

(* --------------------------------------------------------------------- *)
(** ** The orchestrator, path by path                                  *)
(* --------------------------------------------------------------------- *)

Lemma db_config_pair (config_file : string) (w : World) :
  db_config config_file w = (fst (db_config config_file w), w).
Proof.
  rewrite <- (db_config_reads_only config_file w) at 3.
  now destruct (db_config config_file w).
Qed.

(** The configuration cannot be loaded. *)
Lemma fetch_config_failed
      (symbol broker timeframe data_root cfg : string) (start_ns end_ns : Z)
      (debug : bool) (w : World) (e : exn) :
  fst (db_config cfg w) = Raise e ->
  fetch_and_save_data symbol broker timeframe start_ns end_ns
                      data_root cfg debug w
  = if is_Exception e
    then (Ok None, add_log ERROR (MsgConfigFailed e) w)
    else (Raise e, w).
Proof.
  intros H. unfold fetch_and_save_data, bind, attempt.
  rewrite db_config_pair, H. destruct (is_Exception e); reflexivity.
Qed.

(** The configuration loads and the connection is refused. *)
Lemma fetch_connect_failed
      (symbol broker timeframe data_root cfg : string) (start_ns end_ns : Z)
      (debug : bool) (w : World) (params : gmap string json) (e : exn) :
  fst (db_config cfg w) = Ok params ->
  accepts (pg w) params = Some e ->
  fetch_and_save_data symbol broker timeframe start_ns end_ns
                      data_root cfg debug w
  = if is_OperationalError e
    then (Ok None, add_log ERROR (MsgConnectFailed e) w)
    else (Raise e, w).
Proof.
  intros H Ha. unfold fetch_and_save_data, bind, attempt.
  rewrite db_config_pair, H. unfold psycopg2_connect. rewrite Ha.
  destruct (is_OperationalError e); reflexivity.
Qed.

(** The configuration loads, the connection opens and the gateway hands
    back no row. *)
Lemma fetch_no_rows
      (symbol broker timeframe data_root cfg : string) (start_ns end_ns : Z)
      (debug : bool) (w wq : World) (params : gmap string json) :
  fst (db_config cfg w) = Ok params ->
  accepts (pg w) params = None ->
  query_postgres_db (build_query symbol timeframe start_ns end_ns) debug
                    (at_query params w) = (Ok [], wq) ->
  fetch_and_save_data symbol broker timeframe start_ns end_ns
                      data_root cfg debug w
  = (Ok None, after_no_data wq).
Proof.
  intros H Ha Hq. unfold fetch_and_save_data, bind, attempt.
  rewrite db_config_pair, H. unfold psycopg2_connect. rewrite Ha.
  unfold with_conn, with_cursor, finally, bind.
  fold (at_query params w). rewrite Hq. reflexivity.
Qed.

(** What the gateway does with the answer of the server. *)
Lemma query_postgres_db_answer (query : string) (debug : bool) (w : World) :
  let w0 := if debug then add_log DEBUG (MsgExecuting query) w else w in
  let w1 := add_event (EvExecute query) w0 in
  query_postgres_db query debug w
  = match answers (pg w) query with
    | Ok (rows, names) => (Ok rows, set_cursor (Some (rows, names)) w1)
    | Raise e =>
        if is_Exception e
        then (Ok [], add_log ERROR (MsgQueryError e) w1)
        else (Raise e, w1)
    end.
Proof.
  unfold query_postgres_db, bind, attempt, cursor_execute, cursor_fetchall.
  destruct debug; simpl;
    (destruct (answers (pg w) query) as [[rows names]|e]; simpl;
     [reflexivity | destruct (is_Exception e); reflexivity]).
Qed.

Lemma query_postgres_db_no_rows (query : string) (debug : bool) (w : World) :
  yields_no_rows (pg w) query ->
  exists wq pre,
    query_postgres_db query debug w = (Ok [], wq)
    /\ files wq = files w
    /\ log wq = log w ++ pre
    /\ db_trace wq = db_trace w ++ [EvExecute query].
Proof.
  intros Hy. rewrite query_postgres_db_answer. cbv zeta.
  destruct debug;
    (destruct Hy as [(names & Ha) | (e & Ha & He)]; rewrite Ha;
     [|rewrite He]);
    eexists; eexists; (split; [reflexivity|]); (split; [reflexivity|]);
    simpl; (split; [|reflexivity]);
    rewrite <- ?List.app_assoc; try reflexivity;
    symmetry; apply List.app_nil_r.
Qed.

Lemma fetch_yields_no_rows
      (symbol broker timeframe data_root cfg : string) (start_ns end_ns : Z)
      (debug : bool) (w : World) (params : gmap string json) :
  fst (db_config cfg w) = Ok params ->
  accepts (pg w) params = None ->
  yields_no_rows (pg w) (build_query symbol timeframe start_ns end_ns) ->
  exists w' pre,
    fetch_and_save_data symbol broker timeframe start_ns end_ns
                        data_root cfg debug w = (Ok None, w')
    /\ files w' = files w
    /\ log w' = log w ++ pre ++ [(WARNING, MsgNoData)]
    /\ db_trace w'
       = db_trace w
         ++ [EvConnect params; EvCursor;
             EvExecute (build_query symbol timeframe start_ns end_ns);
             EvCursorClose; EvCommit; EvClose].
Proof.
  intros H Ha Hy.
  destruct (query_postgres_db_no_rows
              (build_query symbol timeframe start_ns end_ns) debug
              (at_query params w) Hy) as (wq & pre & Hq & Hf & Hl & Ht).
  exists (after_no_data wq), pre.
  split; [now apply (fetch_no_rows _ _ _ _ _ _ _ _ _ _ params)|].
  split; [exact Hf|]. simpl. rewrite Hl, Ht. simpl.
  split; [now rewrite <- List.app_assoc|].
  now rewrite <- !List.app_assoc.
Qed.

(** C2 (as amended).  A configuration error, be it the missing file or
    a missing key, stops the operation before any database work: no
    connection is attempted and no file is touched.  It does not leave
    the operation: it is written to the log at level ERROR and the
    caller receives [None]. *)
Theorem config_error_is_logged_and_absorbed
        (symbol broker timeframe data_root cfg : string) (start_ns end_ns : Z)
        (debug : bool) (w : World) (e : exn) :
  fst (db_config cfg w) = Raise e ->
  class_of e = FileNotFoundError \/ class_of e = ValueError ->
  exists w',
    fetch_and_save_data symbol broker timeframe start_ns end_ns
                        data_root cfg debug w = (Ok None, w')
    /\ log w' = log w ++ [(ERROR, MsgConfigFailed e)]
    /\ db_trace w' = db_trace w
    /\ files w' = files w.
Proof.
  intros H Hc. exists (add_log ERROR (MsgConfigFailed e) w).
  rewrite (fetch_config_failed _ _ _ _ _ _ _ _ _ _ H).
  assert (He : is_Exception e = true)
    by (unfold is_Exception; destruct Hc as [-> | ->]; reflexivity).
  rewrite He. repeat split.
Qed.

Lemma config_error_is_logged_and_absorbed_witness :
  exists w',
    fetch_and_save_data "BTCUSD" "bitstamp" "1m"
                        1531553400000000000 1531554000000000000
                        "data" "config/short.json" true
                        (sample_world server_rows) = (Ok None, w')
    /\ log w' = [(ERROR, MsgConfigFailed (MissingKeys {[ "password" ]}))]
    /\ db_trace w' = []
    /\ files w' = sample_files.
Proof.
  apply (config_error_is_logged_and_absorbed
           "BTCUSD" "bitstamp" "1m" "data" "config/short.json"
           1531553400000000000 1531554000000000000 true
           (sample_world server_rows) (MissingKeys {[ "password" ]})).
  - now rewrite sample_short_fails.
  - right. reflexivity.
Defined.

(** C2, counterexample.  With the configuration file missing, and with
    the password missing from it, [db_config] raises, yet the operation
    returns [None] normally: nothing reaches the process boundary. *)
Lemma config_error_does_not_surface :
  raises_class (fst (db_config "config/none.json" (sample_world server_rows)))
               FileNotFoundError
  /\ raises_class (fst (db_config "config/short.json" (sample_world server_rows)))
                  ValueError
  /\ fst (fetch_and_save_data "BTCUSD" "bitstamp" "1m"
            1531553400000000000 1531554000000000000
            "data" "config/none.json" true (sample_world server_rows))
     = Ok None
  /\ fst (fetch_and_save_data "BTCUSD" "bitstamp" "1m"
            1531553400000000000 1531554000000000000
            "data" "config/short.json" true (sample_world server_rows))
     = Ok None
  /\ ~ (exists e,
          fst (fetch_and_save_data "BTCUSD" "bitstamp" "1m"
                 1531553400000000000 1531554000000000000
                 "data" "config/none.json" true (sample_world server_rows))
          = Raise e).
Proof.
  assert (E : fst (fetch_and_save_data "BTCUSD" "bitstamp" "1m"
            1531553400000000000 1531554000000000000
            "data" "config/none.json" true (sample_world server_rows))
     = Ok None)
    by (rewrite (fetch_config_failed _ _ _ _ _ _ _ _ _ _
                   (f_equal fst (sample_none_is_missing server_rows)));
        reflexivity).
  split; [rewrite sample_none_is_missing; eexists; split; reflexivity|].
  split; [rewrite sample_short_fails; eexists; split; reflexivity|].
  split; [exact E|]. split.
  - rewrite (fetch_config_failed _ _ _ _ _ _ _ _ _ _
               (f_equal fst (sample_short_fails server_rows))).
    reflexivity.
  - intros (e & He). rewrite E in He. discriminate.
Qed.



(** Another class of error out of [psycopg2.connect] is not caught. *)
Lemma connection_other_error_propagates
      (symbol broker timeframe data_root cfg : string) (start_ns end_ns : Z)
      (debug : bool) (w : World) (params : gmap string json) (e : exn) :
  fst (db_config cfg w) = Ok params ->
  accepts (pg w) params = Some e ->
  is_OperationalError e = false ->
  fetch_and_save_data symbol broker timeframe start_ns end_ns
                      data_root cfg debug w = (Raise e, w).
Proof.
  intros H Ha He.
  now rewrite (fetch_connect_failed _ _ _ _ _ _ _ _ _ _ _ H Ha), He.
Qed.

(** C3 (as amended).  When the query runs and brings no row, or fails
    with a caught error, the caller receives [None], the very value it
    receives when the connection could not be opened; the two
    situations differ in the log only. *)
Theorem no_rows_and_no_connection_return_the_same
        (symbol broker timeframe data_root cfg : string) (start_ns end_ns : Z)
        (debug : bool) (w1 w2 : World) (params1 params2 : gmap string json)
        (e : exn) :
  fst (db_config cfg w1) = Ok params1 ->
  accepts (pg w1) params1 = None ->
  yields_no_rows (pg w1) (build_query symbol timeframe start_ns end_ns) ->
  fst (db_config cfg w2) = Ok params2 ->
  accepts (pg w2) params2 = Some e ->
  is_OperationalError e = true ->
  let r1 := fetch_and_save_data symbol broker timeframe start_ns end_ns
                                data_root cfg debug w1 in
  let r2 := fetch_and_save_data symbol broker timeframe start_ns end_ns
                                data_root cfg debug w2 in
  fst r1 = Ok None /\ fst r2 = Ok None /\ fst r1 = fst r2
  /\ List.last (log (snd r1)) (ERROR, MsgNoData) = (WARNING, MsgNoData)
  /\ List.last (log (snd r2)) (WARNING, MsgNoData)
     = (ERROR, MsgConnectFailed e).
Proof.
  intros H1 Ha1 Hy H2 Ha2 He r1 r2.
  destruct (fetch_yields_no_rows symbol broker timeframe data_root cfg
              start_ns end_ns debug w1 params1 H1 Ha1 Hy)
    as (w1' & pre & E1 & _ & Hl1 & _).
  pose proof (fetch_connect_failed symbol broker timeframe data_root cfg
                start_ns end_ns debug w2 params2 e H2 Ha2) as E2.
  rewrite He in E2.
  subst r1 r2. rewrite E1, E2. simpl. rewrite Hl1.
  repeat split.
  - now rewrite List.app_assoc, List.last_last.
  - now rewrite List.last_last.
Qed.

Lemma no_rows_and_no_connection_return_the_same_witness :
  let r1 := fetch_and_save_data "BTCUSD" "bitstamp" "1m"
              1531553400000000000 1531554000000000000
              "data" "config/db_config.json" false (sample_world server_empty) in
  let r2 := fetch_and_save_data "BTCUSD" "bitstamp" "1m"
              1531553400000000000 1531554000000000000
              "data" "config/db_config.json" false (sample_world server_down) in
  fst r1 = Ok None /\ fst r2 = Ok None /\ fst r1 = fst r2
  /\ List.last (log (snd r1)) (ERROR, MsgNoData) = (WARNING, MsgNoData)
  /\ List.last (log (snd r2)) (WARNING, MsgNoData)
     = (ERROR, MsgConnectFailed
                 (Exn OperationalError "could not connect to server")).
Proof.
  apply (no_rows_and_no_connection_return_the_same
           "BTCUSD" "bitstamp" "1m" "data" "config/db_config.json"
           1531553400000000000 1531554000000000000 false
           (sample_world server_empty) (sample_world server_down)
           sample_params sample_params
           (Exn OperationalError "could not connect to server")).
  - now rewrite sample_config_loads.
  - reflexivity.
  - left. exists sample_columns. reflexivity.
  - now rewrite sample_config_loads.
  - reflexivity.
  - reflexivity.
Defined.

(** C3, counterexample.  The server is reached, the query runs and finds
    nothing: the caller gets [None], not a table without rows, and gets
    the same from a server that cannot be reached. *)
Lemma empty_result_is_returned_as_absent :
  In (EvExecute (build_query "BTCUSD" "1m"
                   1531553400000000000 1531554000000000000))
     (db_trace (snd (fetch_and_save_data "BTCUSD" "bitstamp" "1m"
                       1531553400000000000 1531554000000000000
                       "data" "config/db_config.json" false
                       (sample_world server_empty))))
  /\ answers server_empty (build_query "BTCUSD" "1m"
                             1531553400000000000 1531554000000000000)
     = Ok ([], sample_columns)
  /\ fst (fetch_and_save_data "BTCUSD" "bitstamp" "1m"
            1531553400000000000 1531554000000000000
            "data" "config/db_config.json" false (sample_world server_empty))
     = Ok None
  /\ fst (fetch_and_save_data "BTCUSD" "bitstamp" "1m"
            1531553400000000000 1531554000000000000
            "data" "config/db_config.json" false (sample_world server_empty))
     <> Ok (Some {| columns := sample_columns; data := [] |})
  /\ fst (fetch_and_save_data "BTCUSD" "bitstamp" "1m"
            1531553400000000000 1531554000000000000
            "data" "config/db_config.json" false (sample_world server_down))
     = Ok None.
Proof.
  assert (E : fst (fetch_and_save_data "BTCUSD" "bitstamp" "1m"
            1531553400000000000 1531554000000000000
            "data" "config/db_config.json" false (sample_world server_empty))
     = Ok None) by (vm_compute; reflexivity).
  split; [vm_compute; tauto|]. split; [vm_compute; reflexivity|].
  split; [exact E|]. split; [rewrite E; discriminate|].
  vm_compute. reflexivity.
Qed.

(* --------------------------------------------------------------------- *)
(** ** No data                                                         *)
(* --------------------------------------------------------------------- *)

Lemma wanted_empty_interval (S T : string) (s : Z) (r : bar) :
  wanted S T s s r = false.
Proof.
  unfold wanted. destruct (Z.leb s (epoch_open_time r)) eqn:E1;
    [|now rewrite andb_false_r].
  destruct (Z.ltb (epoch_open_time r) s) eqn:E2; [|now rewrite andb_false_r].
  apply Z.leb_le in E1. apply Z.ltb_lt in E2. lia.
Qed.

Lemma filter_none {A} (f : A -> bool) (l : list A) :
  (forall x, f x = false) -> List.filter f l = [].
Proof.
  intros H. induction l as [|x l IH]; [reflexivity|].
  simpl. now rewrite H.
Qed.

(** An interval whose two ends coincide selects nothing. *)
Lemma empty_interval_selects_nothing
      (S T : string) (s : Z) (db : gmap string (list bar)) (tbl : list bar) :
  lacks quote S = true -> lacks quote T = true ->
  db !! "bitstamp_data" = Some tbl ->
  sql_run db (build_query S T s s) = Good [].
Proof.
  intros HS HT Hdb. rewrite (sql_run_build_query S T s s db tbl HS HT Hdb).
  rewrite filter_none by apply wanted_empty_interval. reflexivity.
Qed.

(** C7.  When the configuration loads, the connection opens and the
    gateway hands back no row, the operation writes the warning
    "No data returned from the query." as its last log entry, leaves the
    file system exactly as it was (no file, no directory), and returns
    [None].  The database is left in order: cursor closed, transaction
    committed, connection closed.  An interval with [start = end] is
    such a case for a data source that reads the query as written: it
    selects no row of [bitstamp_data]. *)
Theorem no_rows_skips_persistence
        (symbol broker timeframe data_root cfg : string) (start_ns end_ns : Z)
        (debug : bool) (w : World) (params : gmap string json) :
  fst (db_config cfg w) = Ok params ->
  accepts (pg w) params = None ->
  yields_no_rows (pg w) (build_query symbol timeframe start_ns end_ns) ->
  (exists w' pre,
     fetch_and_save_data symbol broker timeframe start_ns end_ns
                         data_root cfg debug w = (Ok None, w')
     /\ files w' = files w
     /\ log w' = log w ++ pre ++ [(WARNING, MsgNoData)]
     /\ db_trace w'
        = db_trace w
          ++ [EvConnect params; EvCursor;
              EvExecute (build_query symbol timeframe start_ns end_ns);
              EvCursorClose; EvCommit; EvClose])
  /\ (forall (db : gmap string (list bar)) (tbl : list bar),
        lacks quote symbol = true -> lacks quote timeframe = true ->
        db !! "bitstamp_data" = Some tbl ->
        start_ns = end_ns ->
        sql_run db (build_query symbol timeframe start_ns end_ns) = Good []).
Proof.
  intros H Ha Hy. split.
  - now apply fetch_yields_no_rows.
  - intros db tbl HS HT Hdb <-. now apply (empty_interval_selects_nothing _ _ _ _ tbl).
Qed.

Lemma no_rows_skips_persistence_witness :
  (exists w' pre,
     fetch_and_save_data "BTCUSD" "bitstamp" "1m"
                         1577836800000000000 1577836800000000000
                         "data" "config/db_config.json" true
                         (sample_world server_empty) = (Ok None, w')
     /\ files w' = files (sample_world server_empty)
     /\ log w' = log (sample_world server_empty) ++ pre ++ [(WARNING, MsgNoData)]
     /\ db_trace w'
        = db_trace (sample_world server_empty)
          ++ [EvConnect sample_params; EvCursor;
              EvExecute (build_query "BTCUSD" "1m"
                           1577836800000000000 1577836800000000000);
              EvCursorClose; EvCommit; EvClose])
  /\ (forall (db : gmap string (list bar)) (tbl : list bar),
        lacks quote "BTCUSD" = true -> lacks quote "1m" = true ->
        db !! "bitstamp_data" = Some tbl ->
        1577836800000000000 = 1577836800000000000 ->
        sql_run db (build_query "BTCUSD" "1m"
                      1577836800000000000 1577836800000000000) = Good []).
Proof.
  apply (no_rows_skips_persistence
           "BTCUSD" "bitstamp" "1m" "data" "config/db_config.json"
           1577836800000000000 1577836800000000000 true
           (sample_world server_empty) sample_params).
  - now rewrite sample_config_loads.
  - reflexivity.
  - left. exists sample_columns. reflexivity.
Defined.

(* --------------------------------------------------------------------- *)
(** ** Floats: when rounding is exact                                  *)
(* --------------------------------------------------------------------- *)

Lemma nearest_exact (k den : Z) : 0 < den -> nearest (k * den) den = k.
Proof.
  intros H. unfold nearest.
  rewrite Z.div_mul, Z.mod_mul by lia.
  destruct (Z.ltb_spec (2 * 0) den); [reflexivity | lia].
Qed.

(** The error of [nearest] is at most one half. *)
Lemma nearest_error (num den : Z) :
  0 < den -> 2 * Z.abs (num - nearest num den * den) <= den.
Proof.
  intros H. unfold nearest.
  assert (Hne : den <> 0) by lia.
  pose proof (Z.div_mod num den Hne) as E.
  pose proof (Z.mod_pos_bound num den H) as B.
  destruct (Z.ltb_spec (2 * (num mod den)) den);
    [|destruct (Z.ltb_spec den (2 * (num mod den)));
      [|destruct (Z.even (num / den))]]; nia.
Qed.

Lemma pick_exponent_bound (v d : Z) :
  0 < v -> 0 < d ->
  0 < pick_exponent (v * d) d -> 2 ^ (52 + pick_exponent (v * d) d) <= v.
Proof.
  intros Hv Hd. unfold pick_exponent, scaled.
  set (e0 := Z.log2 (v * d) - Z.log2 d - 53).
  assert (He0 : e0 <= Z.log2 v - 52).
  { assert (Hv0 : 0 <= v) by lia. assert (Hd0 : 0 <= d) by lia.
    pose proof (Z.log2_mul_above v d Hv0 Hd0). lia. }
  assert (Hlow : forall e, 0 < e -> e <= e0 -> 2 ^ (52 + e) <= v).
  { intros e H0 Hle. pose proof (Z.log2_spec v Hv) as [Hl _].
    apply Z.le_trans with (2 ^ Z.log2 v); [|exact Hl].
    apply Z.pow_le_mono_r; lia. }
  destruct (Z.leb_spec 0 e0) as [Hpos|Hneg].
  - destruct (Z.leb_spec (2 ^ 53) (v * d / (d * 2 ^ e0))) as [Hq|Hq].
    + intros _.
      assert (Hp : 0 < 2 ^ e0) by (apply Z.pow_pos_nonneg; lia).
      rewrite (Z.mul_comm v d) in Hq.
      rewrite Z.div_mul_cancel_l in Hq by lia.
      replace (52 + (e0 + 1)) with (53 + e0) by lia.
      rewrite Z.pow_add_r by lia.
      pose proof (Z.mul_div_le v (2 ^ e0) Hp).
      nia.
    + intros H. apply Hlow; lia.
  - destruct (Z.leb_spec (2 ^ 53) (v * d * 2 ^ (- e0) / d)) as [Hq|Hq];
      intros H; [lia | apply Hlow; lia].
Qed.

Lemma divide_pow2 (m j e : Z) :
  0 <= e <= j -> exists k, m * 2 ^ j = k * 2 ^ e.
Proof.
  intros H. exists (m * 2 ^ (j - e)).
  rewrite <- Z.mul_assoc, <- Z.pow_add_r by lia. f_equal. f_equal. lia.
Qed.

Lemma round53_positive_integer (v d m j : Z) :
  0 < d -> 0 < v -> v = m * 2 ^ j -> 0 <= j -> m < 2 ^ 53 ->
  let e := pick_exponent (v * d) d in
  exists k, nearest (fst (scaled (v * d) d e)) (snd (scaled (v * d) d e)) = k
            /\ (if Z.leb 0 e then k * 2 ^ e = v else k = v * 2 ^ (- e)).
Proof.
  intros Hd Hv Hm Hj Hb e.
  assert (Hmpos : 0 < m).
  { assert (0 < 2 ^ j) by (apply Z.pow_pos_nonneg; lia). nia. }
  unfold scaled. destruct (Z.leb_spec 0 e) as [He|He]; cbn [fst snd].
  - assert (Hej : e <= j).
    { destruct (Z.eq_dec e 0) as [->|Hne]; [lia|].
      assert (Hepos : 0 < pick_exponent (v * d) d) by (fold e; lia).
      pose proof (pick_exponent_bound v d Hv Hd Hepos) as Hlow.
      fold e in Hlow.
      destruct (Z.le_gt_cases e j) as [|Hgt]; [assumption|exfalso].
      assert (2 ^ (53 + j) <= 2 ^ (52 + e)) by (apply Z.pow_le_mono_r; lia).
      rewrite Z.pow_add_r in H by lia.
      assert (0 < 2 ^ j) by (apply Z.pow_pos_nonneg; lia). nia. }
    assert (Hrange : 0 <= e <= j) by lia.
    destruct (divide_pow2 m j e Hrange) as (k & Hk).
    exists k. rewrite <- Hm in Hk.
    assert (Hp : 0 < 2 ^ e) by (apply Z.pow_pos_nonneg; lia).
    split; [|lia].
    replace (v * d) with (k * (d * 2 ^ e)) by (rewrite Hk; ring).
    apply nearest_exact. nia.
  - exists (v * 2 ^ (- e)). split; [|reflexivity].
    replace (v * d * 2 ^ (- e)) with (v * 2 ^ (- e) * d) by ring.
    now apply nearest_exact.
Qed.

(** [round53] is exact on an integer that fits in 53 bits up to a power
    of two. *)
Lemma round53_integer (v d m j : Z) :
  0 < d -> v = m * 2 ^ j -> 0 <= j -> Z.abs m < 2 ^ 53 ->
  denotes (round53 (v * d) d) v.
Proof.
  intros Hd Hm Hj Hb. unfold round53, denotes.
  destruct (Z.eqb_spec (v * d) 0) as [E0|Hne].
  - assert (v = 0) by nia. subst v. rewrite H. cbn. lia.
  - assert (Hv : v <> 0) by (intros ->; lia).
    assert (Habs : Z.abs (v * d) = Z.abs v * d) by (rewrite Z.abs_mul; lia).
    assert (Hsg : Z.sgn (v * d) = Z.sgn v) by (rewrite Z.sgn_mul; lia).
    rewrite Habs, Hsg.
    assert (Hav : Z.abs v = Z.abs m * 2 ^ j).
    { rewrite Hm, Z.abs_mul.
      rewrite (Z.abs_eq (2 ^ j)) by (apply Z.pow_nonneg; lia). reflexivity. }
    assert (Hvpos : 0 < Z.abs v) by lia.
    destruct (round53_positive_integer (Z.abs v) d (Z.abs m) j
                Hd Hvpos Hav Hj Hb) as (k & Hk & Hval).
    destruct (scaled (Z.abs v * d) d (pick_exponent (Z.abs v * d) d))
      as [num den] eqn:Es.
    cbn [fst snd] in Hk. rewrite Hk.
    unfold fraction. cbn [fmant fexpo].
    destruct (Z.leb 0 (pick_exponent (Z.abs v * d) d)) eqn:El; cbn [fst snd].
    + split; [|lia]. rewrite <- Z.mul_assoc, Hval.
      rewrite Z.mul_1_r, Z.mul_comm. apply Z.abs_sgn.
    + apply Z.leb_gt in El. split.
      * rewrite Hval, Z.mul_assoc. f_equal.
        rewrite Z.mul_comm. apply Z.abs_sgn.
      * apply Z.pow_pos_nonneg; lia.
Qed.

Lemma trunc_denotes (x : float) (v : Z) : denotes x v -> trunc x = v.
Proof.
  unfold denotes, trunc. destruct (fraction x) as [n d]. cbn [fst snd].
  intros [-> Hd]. apply Z.quot_mul. lia.
Qed.

Lemma fmul_denotes (x y : float) (a b m j : Z) :
  denotes x a -> denotes y b ->
  a * b = m * 2 ^ j -> 0 <= j -> Z.abs m < 2 ^ 53 ->
  denotes (fmul x y) (a * b).
Proof.
  unfold denotes at 1 2, fmul.
  destruct (fraction x) as [nx dx], (fraction y) as [ny dy]. cbn [fst snd].
  intros [-> Hx] [-> Hy] Hm Hj Hb.
  replace (a * dx * (b * dy)) with (a * b * (dx * dy)) by ring.
  apply (round53_integer _ _ m j); auto. nia.
Qed.

Lemma int_truediv_integer (v d : Z) :
  0 < d -> Z.abs v < 2 ^ 53 ->
  exists t, int_truediv (v * d) d = Ok t /\ denotes t v.
Proof.
  intros Hd Hb. unfold int_truediv.
  assert (H53 : 2 ^ 53 <= 2 ^ 1024) by (apply Z.pow_le_mono_r; lia).
  destruct (Z.leb_spec (2 ^ 1024 * d) (Z.abs (v * d))) as [Hbig|_].
  - exfalso. rewrite Z.abs_mul, (Z.abs_eq d) in Hbig by lia. nia.
  - eexists. split; [reflexivity|].
    apply (round53_integer v d v 0); auto; lia.
Qed.

Lemma float_of_int_billion : denotes (float_of_int 1000000000) 1000000000.
Proof.
  unfold float_of_int.
  change 1000000000 with (1000000000 * 1) at 1.
  apply (round53_integer _ _ 1000000000 0); [lia | lia | lia |].
  vm_compute. reflexivity.
Qed.

(* --------------------------------------------------------------------- *)
(** ** The conversion of the time bounds                               *)
(* --------------------------------------------------------------------- *)

Lemma replace_Z_app (a b : string) :
  replace_Z (a +:+ b) = replace_Z a +:+ replace_Z b.
Proof.
  induction a as [|c a IH]; [reflexivity|].
  rewrite append_cons. cbn [replace_Z]. rewrite IH.
  destruct (Ascii.eqb c "Z"); [now rewrite append_assoc | reflexivity].
Qed.

Lemma replace_Z_lacks (s : string) :
  lacks "Z" s = true -> replace_Z s = s.
Proof.
  induction s as [|c s IH]; [reflexivity|].
  cbn [lacks replace_Z]. intros H. apply andb_true_iff in H as [Hc Hs].
  apply negb_true_iff in Hc. now rewrite Hc, (IH Hs).
Qed.

Lemma convert_unfold (lt : datetime -> res float) (s : string)
      (dt : datetime) (off : Z) :
  fromisoformat (replace_Z s) = Ok dt -> utcoffset dt = Some off ->
  convert_to_nanoseconds lt s
  = match int_truediv (wall_micros dt - off) 1000000 with
    | Ok t => Ok (trunc (fmul t (float_of_int 1000000000)))
    | Raise e => Raise e
    end.
Proof.
  intros Hp Ho. unfold convert_to_nanoseconds, timestamp. rewrite Hp, Ho.
  destruct (int_truediv _ _); reflexivity.
Qed.

(** C6.  [convert_to_nanoseconds] reads the string with every [Z]
    replaced by [+00:00], so that a trailing [Z] means the UTC offset;
    it takes the float nearest to the seconds since the epoch (the
    microseconds between the instant and the epoch, divided by
    [10 ** 6]), multiplies it by [1e9] in floating point and cuts the
    product towards zero.  For an instant on a whole second, less than
    [2 ** 53 / 5 ** 9] seconds from the epoch, both roundings are exact
    and the result is the number of nanoseconds since the epoch;
    2018-07-14T07:30:00Z gives 1531553400000000000. *)
Theorem convert_to_nanoseconds_spec (lt : datetime -> res float) :
  (forall body,
     lacks "Z" body = true ->
     convert_to_nanoseconds lt (body +:+ "Z")
     = convert_to_nanoseconds lt (body +:+ "+00:00"))
  /\ (forall s dt off,
        fromisoformat (replace_Z s) = Ok dt -> utcoffset dt = Some off ->
        convert_to_nanoseconds lt s
        = match int_truediv (wall_micros dt - off) 1000000 with
          | Ok t => Ok (trunc (fmul t (float_of_int 1000000000)))
          | Raise e => Raise e
          end)
  /\ (forall s dt off secs,
        fromisoformat (replace_Z s) = Ok dt -> utcoffset dt = Some off ->
        wall_micros dt - off = secs * 1000000 ->
        Z.abs secs * 5 ^ 9 < 2 ^ 53 ->
        convert_to_nanoseconds lt s = Ok (secs * 1000000000))
  /\ convert_to_nanoseconds lt "2018-07-14T07:30:00Z"
     = Ok 1531553400000000000.
Proof.
  split; [|split; [|split]].
  - intros body Hb. unfold convert_to_nanoseconds.
    rewrite !replace_Z_app, (replace_Z_lacks body Hb). reflexivity.
  - intros s dt off. apply convert_unfold.
  - intros s dt off secs Hp Ho Hw Hb.
    rewrite (convert_unfold lt s dt off Hp Ho), Hw.
    assert (Hs : Z.abs secs < 2 ^ 53) by lia.
    destruct (int_truediv_integer secs 1000000 ltac:(lia) Hs)
      as (t & -> & Ht).
    f_equal. apply trunc_denotes.
    apply (fmul_denotes _ _ _ _ (secs * 5 ^ 9) 9 Ht float_of_int_billion).
    + change 1000000000 with (5 ^ 9 * 2 ^ 9). ring.
    + lia.
    + rewrite Z.abs_mul. change (Z.abs (5 ^ 9)) with (5 ^ 9). exact Hb.
  - vm_compute. reflexivity.
Qed.

Example convert_examples (lt : datetime -> res float) :
  convert_to_nanoseconds lt "2018-07-14T07:40:00Z" = Ok 1531554000000000000
  /\ convert_to_nanoseconds lt "2018-07-14T09:30:00+02:00"
     = Ok 1531553400000000000
  /\ convert_to_nanoseconds lt "2018-07-14T07:30:00.123456Z"
     = Ok 1531553400123456000
  /\ convert_to_nanoseconds lt "2020-01-01T00:00:00Z" = Ok 1577836800000000000
  /\ convert_to_nanoseconds lt "1969-12-31T23:59:59.500Z" = Ok (-500000000)
  /\ convert_to_nanoseconds lt "2018-07-14T07:30:00"
     = match lt (sample_start) with
       | Ok t => Ok (trunc (fmul t (float_of_int 1000000000)))
       | Raise e => Raise e
       end
  /\ convert_to_nanoseconds lt "14/07/2018"
     = Raise (invalid_isoformat "14/07/2018").
Proof. repeat split; try (vm_compute; reflexivity). Qed.

(** The rounding shows on an instant far from the epoch: the float
    product is not the exact number of nanoseconds. *)
Example convert_far_from_epoch (lt : datetime -> res float) :
  convert_to_nanoseconds lt "9999-12-31T23:59:59Z" = Ok 253402300798999986176.
Proof. vm_compute. reflexivity. Qed.

(* --------------------------------------------------------------------- *)
(** ** From nanoseconds to the UTC reading                             *)
(* --------------------------------------------------------------------- *)

Lemma all_upto_spec f (k : nat) :
  forall n i, all_upto f k n = true -> n <= i < n + Z.of_nat k -> f i = true.
Proof.
  induction k as [|k IH]; intros n i H Hi; [lia|].
  cbn [all_upto] in H. destruct (f n) eqn:E; [|discriminate].
  destruct (Z.eq_dec i n) as [->|Hne]; [exact E|].
  apply (IH (n + 1)); [exact H | lia].
Qed.

(** The 365 days of a year, checked one by one. *)
Lemma month_day_ok_all (leap : bool) (r : Z) :
  0 <= r <= 364 -> month_day_ok leap r = true.
Proof.
  intros H. apply (all_upto_spec (month_day_ok leap) 365 0).
  - destruct leap; vm_compute; reflexivity.
  - lia.
Qed.

Lemma is_leap_parts (n400 n100 n4 n1 : Z) :
  0 <= n400 -> 0 <= n100 <= 3 -> 0 <= n4 <= 24 -> 0 <= n1 <= 3 ->
  is_leap (n400 * 400 + 1 + n100 * 100 + n4 * 4 + n1)
  = Z.eqb n1 3 && (negb (Z.eqb n4 24) || Z.eqb n100 3).
Proof.
  intros H400 H100 H4 H1. unfold is_leap.
  set (y := n400 * 400 + 1 + n100 * 100 + n4 * 4 + n1).
  assert (E4 : y mod 4 = (n1 + 1) mod 4).
  { unfold y. replace (n400 * 400 + 1 + n100 * 100 + n4 * 4 + n1)
      with (n1 + 1 + (n400 * 100 + n100 * 25 + n4) * 4) by ring.
    apply Z.mod_add. lia. }
  assert (E100 : y mod 100 = (n4 * 4 + n1 + 1) mod 100).
  { unfold y. replace (n400 * 400 + 1 + n100 * 100 + n4 * 4 + n1)
      with (n4 * 4 + n1 + 1 + (n400 * 4 + n100) * 100) by ring.
    apply Z.mod_add. lia. }
  assert (E400 : y mod 400 = (n100 * 100 + n4 * 4 + n1 + 1) mod 400).
  { unfold y. replace (n400 * 400 + 1 + n100 * 100 + n4 * 4 + n1)
      with (n100 * 100 + n4 * 4 + n1 + 1 + n400 * 400) by ring.
    apply Z.mod_add. lia. }
  rewrite E4, E100, E400.
  destruct (Z.eqb_spec n1 3) as [->|N1].
  - destruct (Z.eqb_spec n4 24) as [->|N4].
    + destruct (Z.eqb_spec n100 3) as [->|N100]; [reflexivity|].
      assert (n100 = 0 \/ n100 = 1 \/ n100 = 2) as [->|[->| ->]] by lia;
        reflexivity.
    + cbn [negb orb andb].
      replace ((3 + 1) mod 4) with 0 by reflexivity. cbn [Z.eqb andb].
      assert (Hm : (n4 * 4 + 3 + 1) mod 100 <> 0).
      { rewrite Z.mod_small by lia. lia. }
      apply Z.eqb_neq in Hm. rewrite Hm. reflexivity.
  - assert (Hm : (n1 + 1) mod 4 <> 0) by (rewrite Z.mod_small by lia; lia).
    apply Z.eqb_neq in Hm. rewrite Hm. reflexivity.
Qed.

Lemma days_before_year_parts (n400 n100 n4 n1 : Z) :
  0 <= n400 -> 0 <= n100 <= 3 -> 0 <= n4 <= 24 -> 0 <= n1 <= 3 ->
  days_before_year (n400 * 400 + 1 + n100 * 100 + n4 * 4 + n1)
  = n400 * 146097 + n100 * 36524 + n4 * 1461 + n1 * 365.
Proof.
  intros H400 H100 H4 H1. unfold days_before_year. cbv zeta.
  replace (n400 * 400 + 1 + n100 * 100 + n4 * 4 + n1 - 1)
    with (n400 * 400 + n100 * 100 + n4 * 4 + n1) by ring.
  set (y1 := n400 * 400 + n100 * 100 + n4 * 4 + n1).
  assert (Q4 : y1 / 4 = n400 * 100 + n100 * 25 + n4)
    by (symmetry; apply (Z.div_unique _ _ _ n1); unfold y1; lia).
  assert (Q100 : y1 / 100 = n400 * 4 + n100)
    by (symmetry; apply (Z.div_unique _ _ _ (n4 * 4 + n1)); unfold y1; lia).
  assert (Q400 : y1 / 400 = n400)
    by (symmetry; apply (Z.div_unique _ _ _ (n100 * 100 + n4 * 4 + n1));
        unfold y1; lia).
  rewrite Q4, Q100, Q400. unfold y1. ring.
Qed.

Lemma days_in_month_flag (y m : Z) (leap : bool) :
  is_leap y = leap ->
  days_in_month y m
  = if Z.eqb m 2 then (if leap then 29 else 28) else days_in_month 1 m.
Proof.
  intros <-. unfold days_in_month. destruct (Z.eqb m 2); reflexivity.
Qed.

(** Every day number of the calendar, 0001-01-01 to 9999-12-31. *)
Lemma ord_ok_all (n : Z) : 1 <= n <= 3652059 -> ord_ok n = true.
Proof.
  intros Hn. unfold ord_ok, ord2ymd. cbv zeta.
  assert (N1 : 146097 <> 0) by lia. assert (N2 : 36524 <> 0) by lia.
  assert (N3 : 1461 <> 0) by lia. assert (N4 : 365 <> 0) by lia.
  pose proof (Z.div_mod (n - 1) 146097 N1) as E1.
  pose proof (Z.mod_pos_bound (n - 1) 146097 eq_refl) as B1.
  set (n400 := (n - 1) / 146097) in *. set (r1 := (n - 1) mod 146097) in *.
  pose proof (Z.div_mod r1 36524 N2) as E2.
  pose proof (Z.mod_pos_bound r1 36524 eq_refl) as B2.
  set (n100 := r1 / 36524) in *. set (r2 := r1 mod 36524) in *.
  pose proof (Z.div_mod r2 1461 N3) as E3.
  pose proof (Z.mod_pos_bound r2 1461 eq_refl) as B3.
  set (n4 := r2 / 1461) in *. set (r3 := r2 mod 1461) in *.
  pose proof (Z.div_mod r3 365 N4) as E4.
  pose proof (Z.mod_pos_bound r3 365 eq_refl) as B4.
  set (n1 := r3 / 365) in *. set (r4 := r3 mod 365) in *.
  clearbody n400 r1 n100 r2 n4 r3 n1 r4. clear N1 N2 N3 N4.
  assert (H400 : 0 <= n400 <= 24) by lia.
  assert (H100 : 0 <= n100 <= 4) by lia.
  assert (H4 : 0 <= n4 <= 24) by lia.
  assert (H1 : 0 <= n1 <= 4) by lia.
  destruct (Z.eqb_spec n1 4) as [F1|F1]; cbn [orb].
  - (* last day of a leap year *)
    assert (Hn4 : n4 <= 23) by lia.
    assert (H100' : 0 <= n100 <= 3) by lia.
    replace (n400 * 400 + 1 + n100 * 100 + n4 * 4 + n1 - 1)
      with (n400 * 400 + 1 + n100 * 100 + n4 * 4 + 3) by lia.
    set (Y := n400 * 400 + 1 + n100 * 100 + n4 * 4 + 3).
    assert (Hleap : is_leap Y = true).
    { unfold Y. rewrite is_leap_parts by lia.
      destruct (Z.eqb_spec n4 24); [lia | reflexivity]. }
    unfold ymd2ord, days_before_month.
    rewrite (days_in_month_flag Y 12 true Hleap), Hleap.
    unfold Y at 1. rewrite days_before_year_parts by lia.
    change (days_before_month_common 12) with 334.
    change (Z.ltb 2 12 && true) with true. cbv iota.
    change (Z.eqb 12 2) with false. cbv iota.
    change (days_in_month 1 12) with 31.
    rewrite !andb_true_iff, Z.eqb_eq, !Z.leb_le. unfold Y. lia.
  - destruct (Z.eqb_spec n100 4) as [F2|F2].
    + replace (n400 * 400 + 1 + n100 * 100 + n4 * 4 + n1 - 1)
        with (n400 * 400 + 1 + 3 * 100 + 24 * 4 + 3) by lia.
      set (Y := n400 * 400 + 1 + 3 * 100 + 24 * 4 + 3).
      assert (Hleap : is_leap Y = true)
        by (unfold Y; rewrite is_leap_parts by lia; reflexivity).
      unfold ymd2ord, days_before_month.
      rewrite (days_in_month_flag Y 12 true Hleap), Hleap.
      unfold Y at 1. rewrite days_before_year_parts by lia.
      change (days_before_month_common 12) with 334.
      change (Z.ltb 2 12 && true) with true. cbv iota.
      change (Z.eqb 12 2) with false. cbv iota.
      change (days_in_month 1 12) with 31.
      rewrite !andb_true_iff, Z.eqb_eq, !Z.leb_le. unfold Y. lia.
    + set (leap := Z.eqb n1 3 && (negb (Z.eqb n4 24) || Z.eqb n100 3)).
      assert (Hr4 : 0 <= r4 <= 364) by lia.
      pose proof (month_day_ok_all leap r4 Hr4) as Hmd.
      unfold month_day_ok in Hmd.
      destruct (month_day r4 leap) as [m d].
      rewrite !andb_true_iff, Z.eqb_eq, !Z.leb_le in Hmd.
      destruct Hmd as ((((Hm1 & Hm2) & Hd1) & Hd2) & Hsum).
      set (Y := n400 * 400 + 1 + n100 * 100 + n4 * 4 + n1).
      assert (Hleap : is_leap Y = leap) by (apply is_leap_parts; lia).
      unfold ymd2ord, days_before_month.
      rewrite (days_in_month_flag Y m leap Hleap), Hleap.
      unfold Y at 1. rewrite days_before_year_parts by lia.
      rewrite !andb_true_iff, Z.eqb_eq, !Z.leb_le. unfold Y. lia.
Qed.

Lemma utcfromtimestamp_integer (t : float) (s : Z) :
  denotes t s -> Z.abs s * 5 ^ 9 < 2 ^ 53 ->
  exists dt,
    utcfromtimestamp t = Ok dt
    /\ wall_micros dt = s * 1000000
    /\ utcoffset dt = None
    /\ valid_fields dt = true.
Proof.
  intros Ht Hb. unfold utcfromtimestamp.
  rewrite (trunc_denotes t s Ht).
  destruct Ht as [Hn Hd]. destruct (fraction t) as [n d]. cbn [fst snd] in *.
  subst n. replace (s * d - s * d) with 0 by ring.
  change (round_half_even (round53 (0 * 1000000) d)) with 0. cbv iota beta.
  change (Z.leb 1000000 0) with false. change (Z.ltb 0 0) with false.
  cbv iota.
  assert (H63 : 2 ^ 53 <= 2 ^ 63) by (apply Z.pow_le_mono_r; lia).
  destruct (Z.leb_spec (2 ^ 63) (Z.abs s)) as [Hbig|_]; [lia|].
  assert (Hs : -4611686019 < s < 4611686019).
  { change (5 ^ 9) with 1953125 in Hb.
    change (2 ^ 53) with 9007199254740992 in Hb. lia. }
  pose proof (Z.div_mod s 86400 ltac:(lia)) as Hdm.
  pose proof (Z.mod_pos_bound s 86400 ltac:(lia)) as Hmb.
  set (sod := s mod 86400) in *. set (q := s / 86400) in *.
  assert (Hord : 665000 <= q + epoch_ordinal <= 773000)
    by (unfold epoch_ordinal; lia).
  assert (Hin : Z.leb 1 (q + epoch_ordinal)
                && Z.leb (q + epoch_ordinal) max_ordinal = true).
  { apply andb_true_iff. rewrite !Z.leb_le. unfold max_ordinal. lia. }
  rewrite Hin.
  assert (Hcal : 1 <= q + epoch_ordinal <= 3652059) by lia.
  pose proof (ord_ok_all _ Hcal) as Hok. unfold ord_ok in Hok.
  destruct (ord2ymd (q + epoch_ordinal)) as [[y m] dd].
  rewrite !andb_true_iff, Z.eqb_eq, !Z.leb_le in Hok.
  destruct Hok as ((((((Hy2o & Hy1) & Hy2) & Hm1) & Hm2) & Hd1) & Hd2).
  pose proof (Z.div_mod sod 3600 ltac:(lia)).
  pose proof (Z.mod_pos_bound sod 3600 ltac:(lia)).
  pose proof (Z.div_mod (sod mod 3600) 60 ltac:(lia)).
  pose proof (Z.mod_pos_bound (sod mod 3600) 60 ltac:(lia)).
  pose proof (Z.div_mod sod 60 ltac:(lia)).
  pose proof (Z.mod_pos_bound sod 60 ltac:(lia)).
  eexists. split; [reflexivity|]. split; [|split; [reflexivity|]].
  - unfold wall_micros. cbn [year month day hour minute second microsecond].
    rewrite Hy2o. lia.
  - unfold valid_fields.
    cbn [year month day hour minute second microsecond].
    rewrite !andb_true_iff, !Z.leb_le. lia.
Qed.

(** The datetime that [fetch_and_save_data] hands to the writer for a
    bound on a whole second: the UTC reading of that second. *)
Lemma datetime_of_ns_whole_second (s : Z) :
  Z.abs s * 5 ^ 9 < 2 ^ 53 ->
  exists dt,
    datetime_of_ns (s * 1000000000) = Ok dt
    /\ wall_micros dt = s * 1000000
    /\ utcoffset dt = None
    /\ valid_fields dt = true.
Proof.
  intros Hb. unfold datetime_of_ns.
  assert (Hs : Z.abs s < 2 ^ 53) by lia.
  destruct (int_truediv_integer s 1000000000 ltac:(lia) Hs) as (t & -> & Ht).
  now apply utcfromtimestamp_integer.
Qed.

Example datetime_of_ns_samples :
  datetime_of_ns 1531553400000000000 = Ok sample_start
  /\ datetime_of_ns 1531554000000000000 = Ok sample_end.
Proof. split; vm_compute; reflexivity. Qed.

(* --------------------------------------------------------------------- *)
(** ** The archival path                                               *)
(* --------------------------------------------------------------------- *)

Lemma digit_cases (d : Z) :
  0 <= d < 10 ->
  d = 0 \/ d = 1 \/ d = 2 \/ d = 3 \/ d = 4 \/ d = 5 \/ d = 6 \/ d = 7
  \/ d = 8 \/ d = 9.
Proof. lia. Qed.

Ltac each_digit d H :=
  destruct (digit_cases d H)
    as [->|[->|[->|[->|[->|[->|[->|[->|[->| ->]]]]]]]]].

Lemma is_digit_digit_char (d : Z) :
  0 <= d < 10 -> is_digit (digit_char d) = true.
Proof. intros H. each_digit d H; reflexivity. Qed.

Lemma digit_val_digit_char (d : Z) :
  0 <= d < 10 -> digit_val (digit_char d) = d.
Proof. intros H. each_digit d H; reflexivity. Qed.

Lemma digit_char_not (c : ascii) (d : Z) :
  0 <= d < 10 -> is_digit c = false -> Ascii.eqb (digit_char d) c = false.
Proof.
  intros H Hc. destruct (Ascii.eqb_spec (digit_char d) c) as [<-|]; [|reflexivity].
  now rewrite is_digit_digit_char in Hc.
Qed.

Lemma mod10_digit (v : Z) : 0 <= v mod 10 < 10.
Proof. apply Z.mod_pos_bound. lia. Qed.

#[local] Hint Resolve mod10_digit : core.


Lemma pad2_append (v : Z) (rest : string) :
  pad2 v +:+ rest
  = String (digit_char (v / 10 mod 10)) (String (digit_char (v mod 10)) rest).
Proof. reflexivity. Qed.

Lemma pad4_append (v : Z) (rest : string) :
  pad4 v +:+ rest
  = String (digit_char (v / 1000 mod 10))
      (String (digit_char (v / 100 mod 10))
         (String (digit_char (v / 10 mod 10))
            (String (digit_char (v mod 10)) rest))).
Proof. reflexivity. Qed.





Lemma parse_pad2 (v : Z) (rest : string) :
  0 <= v < 100 -> parse_digits 2 0 (pad2 v +:+ rest) = Some (v, rest).
Proof.
  intros H. rewrite pad2_append. cbn [parse_digits].
  rewrite !is_digit_digit_char by auto.
  rewrite !digit_val_digit_char by auto.
  f_equal. f_equal.
  rewrite (Z.mod_small (v / 10) 10)
    by (split; [apply Z.div_pos; lia | apply Z.div_lt_upper_bound; lia]).
  pose proof (Z.div_mod v 10). lia.
Qed.

Lemma parse_pad4 (v : Z) (rest : string) :
  0 <= v < 10000 -> parse_digits 4 0 (pad4 v +:+ rest) = Some (v, rest).
Proof.
  intros H. rewrite pad4_append. cbn [parse_digits].
  rewrite !is_digit_digit_char by auto.
  rewrite !digit_val_digit_char by auto.
  f_equal. f_equal.
  assert (H1 : v / 1000 mod 10 = v / 1000)
    by (apply Z.mod_small; split;
        [apply Z.div_pos; lia | apply Z.div_lt_upper_bound; lia]).
  rewrite H1.
  pose proof (Z.div_mod v 1000). pose proof (Z.mod_pos_bound v 1000).
  pose proof (Z.div_mod v 100). pose proof (Z.mod_pos_bound v 100).
  pose proof (Z.div_mod v 10). pose proof (Z.mod_pos_bound v 10).
  pose proof (Z.div_mod (v / 100) 10). pose proof (Z.mod_pos_bound (v / 100) 10).
  pose proof (Z.div_mod (v / 10) 10). pose proof (Z.mod_pos_bound (v / 10) 10).
  assert (v / 100 / 10 = v / 1000) by (rewrite Z.div_div by lia; reflexivity).
  assert (v / 10 / 10 = v / 100) by (rewrite Z.div_div by lia; reflexivity).
  lia.
Qed.

Lemma parse_pad2_end (v : Z) :
  0 <= v < 100 -> parse_digits 2 0 (pad2 v) = Some (v, "").
Proof.
  intros H. rewrite <- (append_empty_r (pad2 v)). now apply parse_pad2.
Qed.

Lemma days_in_month_le (y m : Z) : days_in_month y m <= 31.
Proof.
  unfold days_in_month.
  destruct (Z.eqb m 2); [destruct (is_leap y); lia|].
  destruct (Z.eqb m 4 || Z.eqb m 6 || Z.eqb m 9 || Z.eqb m 11); lia.
Qed.

Lemma valid_fields_ranges (dt : datetime) :
  valid_fields dt = true ->
  1 <= year dt <= 9999 /\ 1 <= month dt <= 12 /\ 1 <= day dt <= 31
  /\ 0 <= hour dt <= 23 /\ 0 <= minute dt <= 59 /\ 0 <= second dt <= 59
  /\ 0 <= microsecond dt <= 999999.
Proof.
  unfold valid_fields. rewrite !andb_true_iff, !Z.leb_le.
  pose proof (days_in_month_le (year dt) (month dt)). lia.
Qed.


Lemma ends_with_slash_app (a b : string) :
  b <> "" -> ends_with_slash (a +:+ b) = ends_with_slash b.
Proof.
  intros Hb. induction a as [|c a IH]; [reflexivity|].
  rewrite append_cons. cbn [ends_with_slash].
  destruct (a +:+ b) eqn:E; [|exact IH].
  destruct a; [|discriminate]. rewrite append_empty_l in E. contradiction.
Qed.

Lemma append_nonempty_l (a b : string) : a <> "" -> a +:+ b <> "".
Proof. destruct a; [congruence | discriminate]. Qed.

Lemma eqb_empty_false (a : string) : a <> "" -> String.eqb a "" = false.
Proof. intros H. now apply String.eqb_neq. Qed.

Lemma join2_plain (path b : string) :
  path <> "" -> ends_with_slash path = false -> is_absolute b = false ->
  join2 path b = path +:+ "/" +:+ b.
Proof.
  intros Hp He Hb. unfold join2.
  now rewrite Hb, (eqb_empty_false _ Hp), He.
Qed.

Lemma join2_plain_keeps (path b : string) :
  path <> "" -> plain_piece b ->
  path +:+ "/" +:+ b <> "" /\ ends_with_slash (path +:+ "/" +:+ b) = false.
Proof.
  intros Hp (Hb & _ & He). split; [now apply append_nonempty_l|].
  rewrite ends_with_slash_app by discriminate.
  change ("/" +:+ b) with (String "/" b).
  cbn [ends_with_slash]. destruct b; [contradiction | exact He].
Qed.




Lemma save_returns_archive_path
      (df : DataFrame) (root sym brk tf : string) (sdt edt : datetime)
      (w : World) (p : string) :
  fst (save_data_to_nested_folders df root sym brk tf sdt edt w) = Ok p ->
  p = archive_path root sym brk tf sdt edt.
Proof.
  unfold save_data_to_nested_folders, bind, os_makedirs, pickle_dump,
    logging, ret.
  destruct (makedirs (files w) (cwd w) (folder_path root sym brk tf))
    as [fs|e]; [|discriminate].
  cbn [files cwd set_files].
  destruct (write_pickle fs (cwd w) _ df) as [[[]|e] fs']; [|discriminate].
  simpl. now intros [= <-].
Qed.




(* --------------------------------------------------------------------- *)
(** ** The file system: making directories, writing, reading back      *)
(* --------------------------------------------------------------------- *)



Lemma snoc_not_nil {A} (l : list A) (x : A) : l ++ [x] <> [].
Proof. destruct l; discriminate. Qed.

Lemma lookup_set_entry (loc : list string) (n : node) (fs : filesystem)
      (l : list string) :
  loc <> [] ->
  lookup_node (set_entry loc n fs) l
  = if decide (l = loc) then Some n else lookup_node fs l.
Proof.
  intros Hloc. destruct l as [|x l]; simpl.
  - destruct (decide ([] = loc)); [congruence | reflexivity].
  - rewrite lookup_insert. destruct (decide (loc = x :: l)) as [->|Hne].
    + now rewrite decide_True.
    + now rewrite decide_False by congruence.
Qed.

Lemma set_entry_keeps_dirs (loc : list string) (n : node) (fs : filesystem) :
  loc <> [] -> lookup_node fs loc <> Some Dir ->
  keeps_dirs fs (set_entry loc n fs).
Proof.
  intros Hloc Hnd l Hl. rewrite lookup_set_entry by assumption.
  destruct (decide (l = loc)) as [->|]; [contradiction | exact Hl].
Qed.

Lemma enter_keeps_dirs (fs fs' : filesystem) (names cur d : list string) :
  keeps_dirs fs fs' ->
  enter fs cur names = Ok d -> enter fs' cur names = Ok d.
Proof.
  intros Hk. revert cur. induction names as [|n rest IH]; intros cur H.
  - exact H.
  - cbn [enter] in *. destruct (String.eqb n ".."); [now apply IH|].
    destruct (lookup_node fs (cur ++ [n])) as [[|c]|] eqn:E; try discriminate.
    rewrite (Hk _ E). now apply IH.
Qed.



Lemma lacks_app (c : ascii) (a b : string) :
  lacks c (a +:+ b) = lacks c a && lacks c b.
Proof.
  induction a as [|x a IH]; [reflexivity|].
  rewrite append_cons. cbn [lacks]. rewrite IH. now rewrite andb_assoc.
Qed.

Lemma split_slash_app_slash (a b cur : string) :
  split_slash cur (a +:+ String slash b)
  = split_slash cur a ++ split_slash "" b.
Proof.
  revert cur. induction a as [|c a IH]; intros cur.
  - rewrite append_empty_l. cbn [split_slash]. now rewrite Ascii.eqb_refl.
  - rewrite append_cons. cbn [split_slash].
    destruct (Ascii.eqb c slash); [now rewrite IH | apply IH].
Qed.






Lemma removelast_snoc {A} (l : list A) (x : A) : removelast (l ++ [x]) = l.
Proof. apply List.removelast_last. Qed.

Lemma last_snoc {A} (l : list A) (x d : A) : List.last (l ++ [x]) d = x.
Proof. apply List.last_last. Qed.

(** Where a file lies whose folder can be entered. *)
Lemma locate_in_folder (fs : filesystem) (cd : list string)
      (path : string) (names : list string) (name : string)
      (d : list string) :
  steps path = names ++ [name] ->
  String.eqb name ".." = false ->
  enter fs (if is_absolute path then [] else cd) names = Ok d ->
  locate fs cd path = Ok (d ++ [name]).
Proof.
  intros Hs Hn He. unfold locate. rewrite Hs.
  destruct (names ++ [name]) as [|n rest] eqn:E;
    [now apply snoc_not_nil in E|].
  rewrite <- E. rewrite removelast_snoc, He, last_snoc, Hn. reflexivity.
Qed.

Lemma write_then_read (fs : filesystem) (cd : list string) (path : string)
      (df : DataFrame) (fs' : filesystem) :
  write_pickle fs cd path df = (Ok tt, fs') ->
  read_file fs' cd path = Ok (Pickle df)
  /\ keeps_dirs fs fs'
  /\ exists loc, locate fs cd path = Ok loc
                 /\ fs' = set_entry loc (File (Pickle df)) fs.
Proof.
  unfold write_pickle, read_file.
  destruct (locate fs cd path) as [loc|e] eqn:L; [|discriminate].
  assert (Hroot : loc = [] -> lookup_node fs loc = Some Dir) by (now intros ->).
  destruct (lookup_node fs loc) as [[|c]|] eqn:E; try discriminate;
    (destruct (faults fs !! loc) as [[|]|] eqn:F; try discriminate;
     intros [= <-];
     assert (Hne : loc <> []) by (intros ->; now specialize (Hroot eq_refl));
     assert (Hk : keeps_dirs fs (set_entry loc (File (Pickle df)) fs))
       by (apply set_entry_keeps_dirs; [exact Hne | rewrite E; discriminate]);
     assert (L' : locate (set_entry loc (File (Pickle df)) fs) cd path = Ok loc);
     [ revert L; unfold locate; destruct (steps path) as [|n rest];
       [ now destruct (String.eqb path "")
       | destruct (enter fs _ (removelast (n :: rest))) as [d0|e0] eqn:En;
         [ rewrite (enter_keeps_dirs _ _ _ _ _ Hk En); auto | discriminate ] ]
     | rewrite L', lookup_set_entry by exact Hne;
       rewrite decide_True by reflexivity; cbn [faults set_entry]; rewrite F;
       split; [reflexivity|]; split; [exact Hk|]; exists loc; now split ]).
Qed.



Lemma save_unfold (df : DataFrame) (root sym brk tf : string)
      (sdt edt : datetime) (w : World) :
  save_data_to_nested_folders df root sym brk tf sdt edt w
  = match makedirs (files w) (cwd w) (folder_path root sym brk tf) with
    | Raise e => (Raise e, w)
    | Ok fs1 =>
        match write_pickle fs1 (cwd w)
                (archive_path root sym brk tf sdt edt) df with
        | (Raise e, fs2) => (Raise e, set_files fs2 w)
        | (Ok _, fs2) =>
            (Ok (archive_path root sym brk tf sdt edt),
             add_log INFO (MsgSaved (archive_path root sym brk tf sdt edt))
                     (set_files fs2 w))
        end
    end.
Proof.
  unfold save_data_to_nested_folders, bind, os_makedirs, pickle_dump,
    logging, ret.
  destruct (makedirs (files w) (cwd w) (folder_path root sym brk tf))
    as [fs1|e]; [|reflexivity].
  cbn [files cwd set_files].
  change (os_path_join (folder_path root sym brk tf) [file_name sdt edt])
    with (archive_path root sym brk tf sdt edt).
  destruct (write_pickle fs1 (cwd w) _ df) as [[[]|e] fs2]; reflexivity.
Qed.



Example save_refused_raises :
  save_data_to_nested_folders sample_df
    "data" "BTCUSD" "bitstamp" "1m" sample_start sample_end
    sample_world_denied
  = (Raise (Exn PermissionError "Permission denied"), sample_world_denied).
Proof.
  rewrite save_unfold.
  assert (makedirs (files sample_world_denied) (cwd sample_world_denied)
            (folder_path "data" "BTCUSD" "bitstamp" "1m")
          = Raise (Exn PermissionError "Permission denied")) as ->
    by (vm_compute; reflexivity).
  reflexivity.
Qed.

(** The configuration loads, the connection opens, the server finds
    rows and both time bounds are dates: everything then hangs on the
    writer. *)
Lemma fetch_with_rows
      (symbol broker timeframe data_root cfg : string) (start_ns end_ns : Z)
      (debug : bool) (w : World) (params : gmap string json)
      (r : list dbvalue) (rows : list (list dbvalue)) (names : list string)
      (sdt edt : datetime) :
  fst (db_config cfg w) = Ok params ->
  accepts (pg w) params = None ->
  answers (pg w) (build_query symbol timeframe start_ns end_ns)
  = Ok (r :: rows, names) ->
  datetime_of_ns start_ns = Ok sdt ->
  datetime_of_ns end_ns = Ok edt ->
  let df := {| columns := names; data := r :: rows |} in
  fetch_and_save_data symbol broker timeframe start_ns end_ns
                      data_root cfg debug w
  = match save_data_to_nested_folders df data_root symbol broker timeframe
            sdt edt
            (at_save symbol timeframe start_ns end_ns debug params
                     (r :: rows) names w) with
    | (Ok _, w2) =>
        (Ok (Some df),
         add_event EvClose (add_event EvCommit (add_event EvCursorClose w2)))
    | (Raise e, w2) =>
        (Raise e, add_event EvRollback (add_event EvCursorClose w2))
    end.
Proof.
  intros H Ha Hq Hs He df. unfold fetch_and_save_data, bind, attempt.
  rewrite db_config_pair, H. unfold psycopg2_connect. rewrite Ha.
  unfold with_conn, with_cursor, finally, bind.
  fold (at_query params w). rewrite query_postgres_db_answer. cbv zeta.
  change (pg (at_query params w)) with (pg w). rewrite Hq.
  unfold cursor_description, logging, lift. cbn [cursor set_cursor add_log].
  rewrite Hs, He. fold df.
  unfold at_save. cbv zeta.
  destruct debug;
    (match goal with
     | |- context [save_data_to_nested_folders ?a ?b ?c ?d ?e ?f ?g ?h] =>
         destruct (save_data_to_nested_folders a b c d e f g h)
           as [[p|e0] w2]
     end; reflexivity).
Qed.

(** An error of the writer leaves [fetch_and_save_data] as it is: the
    transaction is rolled back and the exception goes to the caller. *)
Lemma fetch_passes_writer_error_on
      (symbol broker timeframe data_root cfg : string) (start_ns end_ns : Z)
      (debug : bool) (w : World) (params : gmap string json)
      (r : list dbvalue) (rows : list (list dbvalue)) (names : list string)
      (sdt edt : datetime) (e : exn) :
  fst (db_config cfg w) = Ok params ->
  accepts (pg w) params = None ->
  answers (pg w) (build_query symbol timeframe start_ns end_ns)
  = Ok (r :: rows, names) ->
  datetime_of_ns start_ns = Ok sdt ->
  datetime_of_ns end_ns = Ok edt ->
  fst (save_data_to_nested_folders
         {| columns := names; data := r :: rows |}
         data_root symbol broker timeframe sdt edt
         (at_save symbol timeframe start_ns end_ns debug params
                  (r :: rows) names w)) = Raise e ->
  fst (fetch_and_save_data symbol broker timeframe start_ns end_ns
                           data_root cfg debug w) = Raise e.
Proof.
  intros H Ha Hq Hs He Hsave.
  rewrite (fetch_with_rows _ _ _ _ _ _ _ _ _ _ _ _ _ _ _ H Ha Hq Hs He).
  destruct (save_data_to_nested_folders _ _ _ _ _ _ _ _) as [[p|e0] w2];
    [discriminate|]. simpl in *. now injection Hsave as ->.
Qed.

Example scenario_three_rows :
  let r := fetch_and_save_data "BTCUSD" "bitstamp" "1m"
             1531553400000000000 1531554000000000000
             "data" "config/db_config.json" false
             (sample_world server_rows) in
  fst r = Ok (Some sample_df)
  /\ read_file (files (snd r)) ["srv"] sample_archive = Ok (Pickle sample_df).
Proof. vm_compute. split; reflexivity. Qed.

(* --------------------------------------------------------------------- *)
(** ** The gateway and the paths of the orchestrator                     *)
(* --------------------------------------------------------------------- *)

Lemma save_keeps_database (df : DataFrame) (root sym brk tf : string)
      (sdt edt : datetime) (w : World) :
  let w' := snd (save_data_to_nested_folders df root sym brk tf sdt edt w) in
  db_trace w' = db_trace w /\ cursor w' = cursor w /\ pg w' = pg w
  /\ cwd w' = cwd w.
Proof.
  cbv zeta. rewrite save_unfold.
  destruct (makedirs _ _ _) as [fs1|e]; [|repeat split].
  destruct (write_pickle _ _ _ _) as [[[]|e] fs2]; repeat split.
Qed.

Lemma save_log (df : DataFrame) (root sym brk tf : string)
      (sdt edt : datetime) (w : World) :
  let r := save_data_to_nested_folders df root sym brk tf sdt edt w in
  log (snd r)
  = log w ++ match fst r with
             | Ok p => [(INFO, MsgSaved p)]
             | Raise _ => []
             end.
Proof.
  cbv zeta. rewrite save_unfold.
  destruct (makedirs _ _ _) as [fs1|e]; [|symmetry; apply List.app_nil_r].
  destruct (write_pickle _ _ _ _) as [[[]|e] fs2]; simpl;
    [reflexivity | symmetry; apply List.app_nil_r].
Qed.

(** The writer looks at the files and at the working directory only. *)
Lemma save_same_files (df : DataFrame) (root sym brk tf : string)
      (sdt edt : datetime) (w1 w2 : World) :
  files w1 = files w2 -> cwd w1 = cwd w2 ->
  fst (save_data_to_nested_folders df root sym brk tf sdt edt w1)
  = fst (save_data_to_nested_folders df root sym brk tf sdt edt w2)
  /\ files (snd (save_data_to_nested_folders df root sym brk tf sdt edt w1))
     = files (snd (save_data_to_nested_folders df root sym brk tf sdt edt w2)).
Proof.
  intros Hf Hc. rewrite !save_unfold, Hf, Hc.
  destruct (makedirs _ _ _) as [fs1|e]; [|split; [reflexivity | exact Hf]].
  destruct (write_pickle _ _ _ _) as [[[]|e] fs2]; split; reflexivity.
Qed.

(** X1.  [query_postgres_db] never lets an [Exception] out.  It hands back
    the rows the cursor fetched, or the empty list after an error of
    [execute] or [fetchall], which it writes to the log at level ERROR;
    only an exception outside [Exception] leaves it.  It sends the query
    to the server exactly once, writes the DEBUG line exactly when
    [debug] is set, and touches no file. *)
Theorem query_postgres_db_contract (query : string) (debug : bool) (w : World) :
  let r := query_postgres_db query debug w in
  (forall e, fst r = Raise e ->
     is_Exception e = false /\ answers (pg w) query = Raise e)
  /\ (forall rows, fst r = Ok rows ->
        (exists names,
            answers (pg w) query = Ok (rows, names)
            /\ cursor (snd r) = Some (rows, names)
            /\ log (snd r) = log w ++ debug_line query debug)
        \/ (rows = []
            /\ exists e,
                 answers (pg w) query = Raise e /\ is_Exception e = true
                 /\ log (snd r)
                    = log w ++ debug_line query debug
                      ++ [(ERROR, MsgQueryError e)]))
  /\ files (snd r) = files w
  /\ db_trace (snd r) = db_trace w ++ [EvExecute query].
Proof.
  cbv zeta. rewrite query_postgres_db_answer. cbv zeta.
  destruct (answers (pg w) query) as [[rows names]|e] eqn:Ha.
  - split; [intros e; discriminate|]. split.
    + intros rows' [= <-]. left. exists names.
      split; [reflexivity|]. split; [reflexivity|].
      destruct debug; simpl; [reflexivity | now rewrite List.app_nil_r].
    + destruct debug; split; reflexivity.
  - destruct (is_Exception e) eqn:He.
    + split; [intros e'; discriminate|]. split.
      * intros rows' [= <-]. right. split; [reflexivity|]. exists e.
        split; [reflexivity|]. split; [exact He|].
        destruct debug; simpl; [now rewrite <- List.app_assoc | reflexivity].
      * destruct debug; split; reflexivity.
    + split.
      * intros e' [= <-]. split; [exact He | reflexivity].
      * split; [intros rows'; discriminate|].
        destruct debug; split; reflexivity.
Qed.

Lemma save_ok_reads_back (df : DataFrame) (root sym brk tf : string)
      (sdt edt : datetime) (w : World) (p : string) :
  fst (save_data_to_nested_folders df root sym brk tf sdt edt w) = Ok p ->
  p = archive_path root sym brk tf sdt edt
  /\ read_file (files (snd (save_data_to_nested_folders
                              df root sym brk tf sdt edt w)))
               (cwd w) p = Ok (Pickle df)
  /\ log (snd (save_data_to_nested_folders df root sym brk tf sdt edt w))
     = log w ++ [(INFO, MsgSaved p)].
Proof.
  intros H. pose proof (save_log df root sym brk tf sdt edt w) as Hl.
  cbv zeta in Hl. rewrite H in Hl.
  pose proof (save_returns_archive_path _ _ _ _ _ _ _ _ _ H) as ->.
  split; [reflexivity|]. split; [|exact Hl].
  revert H. rewrite save_unfold.
  destruct (makedirs _ _ _) as [fs1|e] eqn:Hm; [|discriminate].
  destruct (write_pickle _ _ _ _) as [[[]|e] fs2] eqn:Hw; [|discriminate].
  intros _. cbn [snd files add_log set_files].
  now destruct (write_then_read _ _ _ _ _ Hw) as (Hr & _).
Qed.

(** The orchestrator up to the answer of the server. *)
Lemma fetch_connected
      (symbol broker timeframe data_root cfg : string) (start_ns end_ns : Z)
      (debug : bool) (w : World) (params : gmap string json) :
  fst (db_config cfg w) = Ok params ->
  accepts (pg w) params = None ->
  fetch_and_save_data symbol broker timeframe start_ns end_ns
                      data_root cfg debug w
  = let query := build_query symbol timeframe start_ns end_ns in
    let w0 := at_query params w in
    let w1 := add_event (EvExecute query)
                (if debug then add_log DEBUG (MsgExecuting query) w0 else w0) in
    match answers (pg w) query with
    | Raise e =>
        if is_Exception e
        then (Ok None, after_no_data (add_log ERROR (MsgQueryError e) w1))
        else (Raise e, add_event EvRollback (add_event EvCursorClose w1))
    | Ok ([], names) =>
        (Ok None, after_no_data (set_cursor (Some ([], names)) w1))
    | Ok (r :: rows, names) =>
        let df := {| columns := names; data := r :: rows |} in
        let w2 := at_save symbol timeframe start_ns end_ns debug params
                          (r :: rows) names w in
        match datetime_of_ns start_ns with
        | Raise e => (Raise e, add_event EvRollback (add_event EvCursorClose w2))
        | Ok sdt =>
            match datetime_of_ns end_ns with
            | Raise e =>
                (Raise e, add_event EvRollback (add_event EvCursorClose w2))
            | Ok edt =>
                match save_data_to_nested_folders
                        df data_root symbol broker timeframe sdt edt w2 with
                | (Ok _, w3) =>
                    (Ok (Some df),
                     add_event EvClose
                       (add_event EvCommit (add_event EvCursorClose w3)))
                | (Raise e, w3) =>
                    (Raise e, add_event EvRollback (add_event EvCursorClose w3))
                end
            end
        end
    end.
Proof.
  intros H Ha. cbv zeta.
  destruct (answers (pg w) (build_query symbol timeframe start_ns end_ns))
    as [[[|r rows] names]|e] eqn:Hq.
  - apply (fetch_no_rows _ _ _ _ _ _ _ _ _ _ params H Ha).
    rewrite query_postgres_db_answer. cbv zeta.
    change (pg (at_query params w)) with (pg w). now rewrite Hq.
  - destruct (datetime_of_ns start_ns) as [sdt|e1] eqn:Hs;
      [destruct (datetime_of_ns end_ns) as [edt|e2] eqn:He|].
    + apply (fetch_with_rows _ _ _ _ _ _ _ _ _ _ _ _ _ _ _ H Ha Hq Hs He).
    + unfold fetch_and_save_data, bind, attempt.
      rewrite db_config_pair, H. unfold psycopg2_connect. rewrite Ha.
      unfold with_conn, with_cursor, finally, bind.
      fold (at_query params w). rewrite query_postgres_db_answer. cbv zeta.
      change (pg (at_query params w)) with (pg w). rewrite Hq.
      unfold cursor_description, logging, lift. cbn [cursor set_cursor add_log].
      rewrite Hs, He. unfold at_save. cbv zeta. destruct debug; reflexivity.
    + unfold fetch_and_save_data, bind, attempt.
      rewrite db_config_pair, H. unfold psycopg2_connect. rewrite Ha.
      unfold with_conn, with_cursor, finally, bind.
      fold (at_query params w). rewrite query_postgres_db_answer. cbv zeta.
      change (pg (at_query params w)) with (pg w). rewrite Hq.
      unfold cursor_description, logging, lift. cbn [cursor set_cursor add_log].
      rewrite Hs. unfold at_save. cbv zeta. destruct debug; reflexivity.
  - unfold fetch_and_save_data, bind, attempt.
    rewrite db_config_pair, H. unfold psycopg2_connect. rewrite Ha.
    unfold with_conn, with_cursor, finally, bind.
    fold (at_query params w). rewrite query_postgres_db_answer. cbv zeta.
    change (pg (at_query params w)) with (pg w). rewrite Hq.
    destruct (is_Exception e); destruct debug; reflexivity.
Qed.

Lemma at_save_trace (symbol timeframe : string) (start_ns end_ns : Z)
      (debug : bool) (params : gmap string json)
      (rows : list (list dbvalue)) (names : list string) (w : World) :
  let w2 := at_save symbol timeframe start_ns end_ns debug params rows names w in
  db_trace w2
  = db_trace w ++ [EvConnect params; EvCursor;
                   EvExecute (build_query symbol timeframe start_ns end_ns)]
  /\ files w2 = files w /\ cwd w2 = cwd w /\ pg w2 = pg w
  /\ log w2 = log w
              ++ debug_line (build_query symbol timeframe start_ns end_ns) debug
              ++ [(INFO, MsgFetched (length rows) symbol timeframe)].
Proof.
  cbv zeta. unfold at_save, at_query. cbv zeta.
  destruct debug; simpl; rewrite <- ?List.app_assoc; repeat split.
Qed.

(** X2.  Every call of [fetch_and_save_data] ends in one of three ways.
    Without any word to the database and with the files untouched,
    returning [None] or raising (configuration or connection failed).
    Or after one exchange that is committed and closed,
    connect / cursor / execute the built query / close the cursor /
    commit / close: then it returns [None] with the files untouched, or
    a table with at least one row, the answer of the server under the
    column names of the cursor, which the archive file holds.  Or after
    one exchange that is rolled back: then it raises, and the connection
    is not closed. *)
Theorem fetch_outcomes
        (symbol broker timeframe data_root cfg : string) (start_ns end_ns : Z)
        (debug : bool) (w : World) :
  let r := fetch_and_save_data symbol broker timeframe start_ns end_ns
                               data_root cfg debug w in
  let q := build_query symbol timeframe start_ns end_ns in
  (db_trace (snd r) = db_trace w /\ files (snd r) = files w
   /\ (fst r = Ok None \/ exists e, fst r = Raise e))
  \/ (exists params,
        db_trace (snd r) = db_trace w ++ exchange_committed params q
        /\ ((fst r = Ok None /\ files (snd r) = files w)
            \/ (exists names row rows sdt edt,
                  fst r = Ok (Some {| columns := names; data := row :: rows |})
                  /\ answers (pg w) q = Ok (row :: rows, names)
                  /\ datetime_of_ns start_ns = Ok sdt
                  /\ datetime_of_ns end_ns = Ok edt
                  /\ read_file (files (snd r)) (cwd w)
                       (archive_path data_root symbol broker timeframe sdt edt)
                     = Ok (Pickle {| columns := names; data := row :: rows |}))))
  \/ (exists params e,
        db_trace (snd r) = db_trace w ++ exchange_rolled_back params q
        /\ fst r = Raise e).
Proof.
  cbv zeta.
  destruct (fst (db_config cfg w)) as [params|e] eqn:H.
  - destruct (accepts (pg w) params) as [e|] eqn:Ha.
    + left. rewrite (fetch_connect_failed _ _ _ _ _ _ _ _ _ _ _ H Ha).
      destruct (is_OperationalError e); simpl; eauto.
    + right. rewrite (fetch_connected _ _ _ _ _ _ _ _ _ _ H Ha). cbv zeta.
      destruct (answers (pg w) (build_query symbol timeframe start_ns end_ns))
        as [[[|r rows] names]|e] eqn:Hq.
      * left. exists params.
        split; [|left; split; [reflexivity | destruct debug; reflexivity]].
        destruct debug; simpl; now rewrite <- !List.app_assoc.
      * pose proof (at_save_trace symbol timeframe start_ns end_ns debug params
                      (r :: rows) names w) as Hw2. cbv zeta in Hw2.
        set (w2 := at_save symbol timeframe start_ns end_ns debug params
                           (r :: rows) names w) in *.
        destruct Hw2 as (Ht & Hf & Hc & _). clearbody w2.
        destruct (datetime_of_ns start_ns) as [sdt|e1] eqn:Hs;
          [destruct (datetime_of_ns end_ns) as [edt|e2] eqn:He|].
        -- pose proof (save_keeps_database
                         {| columns := names; data := r :: rows |}
                         data_root symbol broker timeframe sdt edt w2) as Hk.
           cbv zeta in Hk. destruct Hk as (Hk & _).
           pose proof (save_ok_reads_back
                         {| columns := names; data := r :: rows |}
                         data_root symbol broker timeframe sdt edt w2) as Hrb.
           destruct (save_data_to_nested_folders _ _ _ _ _ _ _ w2)
             as [[p|e3] w3].
           ++ left. exists params. cbn [fst snd] in *. split.
              ** simpl. rewrite Hk, Ht. now rewrite <- !List.app_assoc.
              ** right. exists names, r, rows, sdt, edt.
                 split; [reflexivity|]. split; [reflexivity|].
                 split; [reflexivity|]. split; [reflexivity|].
                 destruct (Hrb p eq_refl) as (-> & Hr & _).
                 rewrite Hc in Hr. exact Hr.
           ++ right. exists params, e3. cbn [fst snd] in *. split; [|reflexivity].
              simpl. rewrite Hk, Ht. now rewrite <- !List.app_assoc.
        -- right. exists params, e2. split; [|reflexivity].
           simpl. rewrite Ht. now rewrite <- !List.app_assoc.
        -- right. exists params, e1. split; [|reflexivity].
           simpl. rewrite Ht. now rewrite <- !List.app_assoc.
      * destruct (is_Exception e).
        -- left. exists params.
           split; [|left; split; [reflexivity | destruct debug; reflexivity]].
           destruct debug; simpl; now rewrite <- !List.app_assoc.
        -- right. exists params, e. split; [|reflexivity].
           destruct debug; simpl; now rewrite <- !List.app_assoc.
  - left. rewrite (fetch_config_failed _ _ _ _ _ _ _ _ _ _ H).
    destruct (is_Exception e); simpl; eauto.
Qed.

(** X3.  When the configuration loads, the connection opens, the server
    answers with at least one row, both bounds are dates and the writer
    succeeds, [fetch_and_save_data] returns the rows under the column
    names of [cursor.description], and the file at the archive path
    holds that very table.  The log gains the DEBUG line if asked for,
    then "Fetched n rows" with the number of rows and "DataFrame saved"
    with the path; the exchange is committed and the connection
    closed. *)
Theorem fetch_returns_what_it_saved
        (symbol broker timeframe data_root cfg : string) (start_ns end_ns : Z)
        (debug : bool) (w : World) (params : gmap string json)
        (row : list dbvalue) (rows : list (list dbvalue)) (names : list string)
        (sdt edt : datetime) (p : string) :
  let q := build_query symbol timeframe start_ns end_ns in
  let df := {| columns := names; data := row :: rows |} in
  fst (db_config cfg w) = Ok params ->
  accepts (pg w) params = None ->
  answers (pg w) q = Ok (row :: rows, names) ->
  datetime_of_ns start_ns = Ok sdt ->
  datetime_of_ns end_ns = Ok edt ->
  fst (save_data_to_nested_folders df data_root symbol broker timeframe
                                   sdt edt w) = Ok p ->
  exists w',
    fetch_and_save_data symbol broker timeframe start_ns end_ns
                        data_root cfg debug w = (Ok (Some df), w')
    /\ p = archive_path data_root symbol broker timeframe sdt edt
    /\ read_file (files w') (cwd w) p = Ok (Pickle df)
    /\ log w' = log w ++ debug_line q debug
                ++ [(INFO, MsgFetched (S (length rows)) symbol timeframe);
                    (INFO, MsgSaved p)]
    /\ db_trace w' = db_trace w ++ exchange_committed params q.
Proof.
  intros q df H Ha Hq Hs He Hsave.
  rewrite (fetch_connected _ _ _ _ _ _ _ _ _ _ H Ha). cbv zeta.
  fold q. rewrite Hq, Hs, He. fold df.
  pose proof (at_save_trace symbol timeframe start_ns end_ns debug params
                (row :: rows) names w) as Hw2. cbv zeta in Hw2.
  set (w2 := at_save symbol timeframe start_ns end_ns debug params
                     (row :: rows) names w) in *.
  destruct Hw2 as (Ht & Hf & Hc & _ & Hl). clearbody w2.
  destruct (save_same_files df data_root symbol broker timeframe sdt edt
              w2 w Hf Hc) as (Hfst & _).
  rewrite Hsave in Hfst.
  destruct (save_ok_reads_back df data_root symbol broker timeframe sdt edt
              w2 p Hfst) as (Hp & Hr & Hlog).
  pose proof (save_keeps_database df data_root symbol broker timeframe
                sdt edt w2) as Hk. cbv zeta in Hk. destruct Hk as (Hk & _).
  destruct (save_data_to_nested_folders df data_root symbol broker timeframe
              sdt edt w2) as [[p'|e'] w3]; [|discriminate].
  cbn [fst snd] in *. eexists. split; [reflexivity|].
  split; [exact Hp|]. split; [now rewrite <- Hc|]. split.
  - simpl. rewrite Hlog, Hl. fold q. cbn [length].
    now rewrite <- !List.app_assoc.
  - simpl. rewrite Hk, Ht. fold q. now rewrite <- !List.app_assoc.
Qed.

Lemma fetch_returns_what_it_saved_witness :
  exists w',
    fetch_and_save_data "BTCUSD" "bitstamp" "1m"
                        1531553400000000000 1531554000000000000
                        "data" "config/db_config.json" true
                        (sample_world server_rows) = (Ok (Some sample_df), w')
    /\ sample_archive
       = archive_path "data" "BTCUSD" "bitstamp" "1m" sample_start sample_end
    /\ read_file (files w') ["srv"] sample_archive = Ok (Pickle sample_df).
Proof.
  destruct (fetch_returns_what_it_saved
              "BTCUSD" "bitstamp" "1m" "data" "config/db_config.json"
              1531553400000000000 1531554000000000000 true
              (sample_world server_rows) sample_params
              [VText "BTCUSD"; VText "1m"; VInt 1531553400000000000;
               VText "6231.5"]
              [ [VText "BTCUSD"; VText "1m"; VInt 1531553460000000000;
                 VText "6232.0"];
                [VText "BTCUSD"; VText "1m"; VInt 1531553520000000000;
                 VText "6230.1"] ]
              sample_columns sample_start sample_end sample_archive)
    as (w' & E & Hp & Hr & _).
  - now rewrite sample_config_loads.
  - reflexivity.
  - reflexivity.
  - vm_compute. reflexivity.
  - vm_compute. reflexivity.
  - vm_compute. reflexivity.
  - exists w'. split; [exact E|]. split; [exact Hp | exact Hr].
Defined.

(** X4.  When rows were fetched and the writer raises, the exception leaves
    [fetch_and_save_data] after the cursor is closed and the transaction
    rolled back; [conn.close()] is not reached.  "Fetched n rows" is in
    the log, "DataFrame saved" is not, and the files are as the failed
    writer left them. *)
Theorem fetch_writer_error_skips_close
        (symbol broker timeframe data_root cfg : string) (start_ns end_ns : Z)
        (debug : bool) (w : World) (params : gmap string json)
        (row : list dbvalue) (rows : list (list dbvalue)) (names : list string)
        (sdt edt : datetime) (e : exn) :
  let q := build_query symbol timeframe start_ns end_ns in
  let df := {| columns := names; data := row :: rows |} in
  fst (db_config cfg w) = Ok params ->
  accepts (pg w) params = None ->
  answers (pg w) q = Ok (row :: rows, names) ->
  datetime_of_ns start_ns = Ok sdt ->
  datetime_of_ns end_ns = Ok edt ->
  fst (save_data_to_nested_folders df data_root symbol broker timeframe
                                   sdt edt w) = Raise e ->
  exists w',
    fetch_and_save_data symbol broker timeframe start_ns end_ns
                        data_root cfg debug w = (Raise e, w')
    /\ db_trace w' = db_trace w ++ exchange_rolled_back params q
    /\ log w' = log w ++ debug_line q debug
                ++ [(INFO, MsgFetched (S (length rows)) symbol timeframe)]
    /\ files w'
       = files (snd (save_data_to_nested_folders
                       df data_root symbol broker timeframe sdt edt w)).
Proof.
  intros q df H Ha Hq Hs He Hsave.
  rewrite (fetch_connected _ _ _ _ _ _ _ _ _ _ H Ha). cbv zeta.
  fold q. rewrite Hq, Hs, He. fold df.
  pose proof (at_save_trace symbol timeframe start_ns end_ns debug params
                (row :: rows) names w) as Hw2. cbv zeta in Hw2.
  set (w2 := at_save symbol timeframe start_ns end_ns debug params
                     (row :: rows) names w) in *.
  destruct Hw2 as (Ht & Hf & Hc & _ & Hl). clearbody w2.
  destruct (save_same_files df data_root symbol broker timeframe sdt edt
              w2 w Hf Hc) as (Hfst & Hfiles).
  rewrite Hsave in Hfst.
  pose proof (save_log df data_root symbol broker timeframe sdt edt w2) as Hlog.
  cbv zeta in Hlog. rewrite Hfst, List.app_nil_r in Hlog.
  pose proof (save_keeps_database df data_root symbol broker timeframe
                sdt edt w2) as Hk. cbv zeta in Hk. destruct Hk as (Hk & _).
  destruct (save_data_to_nested_folders df data_root symbol broker timeframe
              sdt edt w2) as [[p'|e'] w3]; [discriminate|].
  cbn [fst snd] in *. injection Hfst as ->.
  eexists. split; [reflexivity|]. split; [|split].
  - simpl. rewrite Hk, Ht. fold q. now rewrite <- !List.app_assoc.
  - simpl. rewrite Hlog, Hl. reflexivity.
  - exact Hfiles.
Qed.

Lemma fetch_writer_error_skips_close_witness :
  exists w',
    fetch_and_save_data "BTCUSD" "bitstamp" "1m"
                        1531553400000000000 1531554000000000000
                        "data" "config/db_config.json" false
                        sample_world_denied
    = (Raise (Exn PermissionError "Permission denied"), w')
    /\ db_trace w'
       = [EvConnect sample_params; EvCursor;
          EvExecute (build_query "BTCUSD" "1m"
                       1531553400000000000 1531554000000000000);
          EvCursorClose; EvRollback].
Proof.
  destruct (fetch_writer_error_skips_close
              "BTCUSD" "bitstamp" "1m" "data" "config/db_config.json"
              1531553400000000000 1531554000000000000 false
              sample_world_denied sample_params
              [VText "BTCUSD"; VText "1m"; VInt 1531553400000000000;
               VText "6231.5"]
              [ [VText "BTCUSD"; VText "1m"; VInt 1531553460000000000;
                 VText "6232.0"];
                [VText "BTCUSD"; VText "1m"; VInt 1531553520000000000;
                 VText "6230.1"] ]
              sample_columns sample_start sample_end
              (Exn PermissionError "Permission denied"))
    as (w' & E & Ht & _).
  - reflexivity.
  - reflexivity.
  - reflexivity.
  - vm_compute. reflexivity.
  - vm_compute. reflexivity.
  - exact (f_equal fst save_refused_raises).
  - exists w'. split; [exact E | exact Ht].
Defined.

(* --------------------------------------------------------------------- *)
(** ** The bounds as dates; the debug switch                             *)
(* --------------------------------------------------------------------- *)

Lemma utcfromtimestamp_whole (t : float) (s : Z) :
  denotes t s -> Z.abs s < 2 ^ 53 ->
  (min_second <= s <= max_second ->
   exists dt,
     utcfromtimestamp t = Ok dt
     /\ wall_micros dt = s * 1000000
     /\ utcoffset dt = None
     /\ valid_fields dt = true)
  /\ (s < min_second \/ max_second < s ->
      utcfromtimestamp t = Raise (Exn ValueError "year is out of range")).
Proof.
  intros Ht Hb. unfold utcfromtimestamp.
  rewrite (trunc_denotes t s Ht).
  destruct Ht as [Hn Hd]. destruct (fraction t) as [n d]. cbn [fst snd] in *.
  subst n. replace (s * d - s * d) with 0 by ring.
  change (round_half_even (round53 (0 * 1000000) d)) with 0. cbv iota beta.
  change (Z.leb 1000000 0) with false. change (Z.ltb 0 0) with false.
  cbv iota.
  assert (H63 : 2 ^ 53 <= 2 ^ 63) by (apply Z.pow_le_mono_r; lia).
  destruct (Z.leb_spec (2 ^ 63) (Z.abs s)) as [Hbig|_]; [lia|].
  pose proof (Z.div_mod s 86400 ltac:(lia)) as Hdm.
  pose proof (Z.mod_pos_bound s 86400 ltac:(lia)) as Hmb.
  set (sod := s mod 86400) in *. set (q := s / 86400) in *.
  unfold min_second, max_second, epoch_ordinal, max_ordinal.
  split.
  - intros Hin.
    assert (Hcal : 1 <= q + 719163 <= 3652059) by lia.
    assert (Hle : Z.leb 1 (q + 719163) && Z.leb (q + 719163) 3652059 = true).
    { apply andb_true_iff. rewrite !Z.leb_le. lia. }
    rewrite Hle.
    pose proof (ord_ok_all _ Hcal) as Hok. unfold ord_ok in Hok.
    destruct (ord2ymd (q + 719163)) as [[y m] dd].
    rewrite !andb_true_iff, Z.eqb_eq, !Z.leb_le in Hok.
    destruct Hok as ((((((Hy2o & Hy1) & Hy2) & Hm1) & Hm2) & Hd1) & Hd2).
    pose proof (Z.div_mod sod 3600 ltac:(lia)).
    pose proof (Z.mod_pos_bound sod 3600 ltac:(lia)).
    pose proof (Z.div_mod (sod mod 3600) 60 ltac:(lia)).
    pose proof (Z.mod_pos_bound (sod mod 3600) 60 ltac:(lia)).
    pose proof (Z.div_mod sod 60 ltac:(lia)).
    pose proof (Z.mod_pos_bound sod 60 ltac:(lia)).
    eexists. split; [reflexivity|]. split; [|split; [reflexivity|]].
    + unfold wall_micros. cbn [year month day hour minute second microsecond].
      rewrite Hy2o. unfold epoch_ordinal. lia.
    + unfold valid_fields.
      cbn [year month day hour minute second microsecond].
      rewrite !andb_true_iff, !Z.leb_le. lia.
  - intros Hout.
    assert (Hle : Z.leb 1 (q + 719163) && Z.leb (q + 719163) 3652059 = false).
    { apply andb_false_iff. rewrite !Z.leb_gt. lia. }
    now rewrite Hle.
Qed.

(** X5.  [datetime.utcfromtimestamp(ns / 1_000_000_000)] on a bound that is a
    whole number of seconds [s] with [|s| < 2 ** 53]: it is the UTC
    reading of that second, without microseconds, when the second lies
    between 0001-01-01 00:00:00 and 9999-12-31 23:59:59, and it raises
    [ValueError] otherwise. *)
Theorem datetime_of_ns_calendar_range (s : Z) :
  Z.abs s < 2 ^ 53 ->
  (min_second <= s <= max_second ->
   exists dt,
     datetime_of_ns (s * 1000000000) = Ok dt
     /\ wall_micros dt = s * 1000000
     /\ microsecond dt = 0
     /\ utcoffset dt = None
     /\ valid_fields dt = true)
  /\ (s < min_second \/ max_second < s ->
      raises_class (datetime_of_ns (s * 1000000000)) ValueError).
Proof.
  intros Hb. unfold datetime_of_ns.
  destruct (int_truediv_integer s 1000000000 ltac:(lia) Hb) as (t & -> & Ht).
  destruct (utcfromtimestamp_whole t s Ht Hb) as (Hin & Hout).
  split.
  - intros H. destruct (Hin H) as (dt & E & Hw & Ho & Hv).
    exists dt. split; [exact E|]. split; [exact Hw|]. split; [|now split].
    apply valid_fields_ranges in Hv as Hr.
    unfold wall_micros in Hw.
    assert (microsecond dt = (s - ((ymd2ord (year dt) (month dt) (day dt)
                                    - epoch_ordinal) * 86400
                                   + hour dt * 3600 + minute dt * 60
                                   + second dt)) * 1000000) by lia.
    lia.
  - intros H. rewrite (Hout H). eexists. split; reflexivity.
Qed.

Lemma datetime_of_ns_calendar_range_witness :
  (exists dt,
     datetime_of_ns (max_second * 1000000000) = Ok dt
     /\ wall_micros dt = max_second * 1000000
     /\ microsecond dt = 0
     /\ utcoffset dt = None
     /\ valid_fields dt = true)
  /\ raises_class (datetime_of_ns ((max_second + 1) * 1000000000)) ValueError.
Proof.
  split.
  - apply (datetime_of_ns_calendar_range max_second);
      [vm_compute; reflexivity | unfold min_second, max_second; lia].
  - apply (datetime_of_ns_calendar_range (max_second + 1));
      [vm_compute; reflexivity | unfold min_second, max_second; lia].
Defined.

(** X6.  The bounds are turned into datetimes only after rows were fetched.
    When one of them is no date (the year 10000, say), the exception of
    [utcfromtimestamp] leaves [fetch_and_save_data]: the query has run
    and "Fetched n rows" is logged, no file or directory is written, the
    transaction is rolled back and the connection is not closed. *)
Theorem fetch_bound_outside_calendar
        (symbol broker timeframe data_root cfg : string) (start_ns end_ns : Z)
        (debug : bool) (w : World) (params : gmap string json)
        (row : list dbvalue) (rows : list (list dbvalue)) (names : list string)
        (e : exn) :
  let q := build_query symbol timeframe start_ns end_ns in
  fst (db_config cfg w) = Ok params ->
  accepts (pg w) params = None ->
  answers (pg w) q = Ok (row :: rows, names) ->
  datetime_of_ns start_ns = Raise e
  \/ (exists sdt, datetime_of_ns start_ns = Ok sdt)
     /\ datetime_of_ns end_ns = Raise e ->
  exists w',
    fetch_and_save_data symbol broker timeframe start_ns end_ns
                        data_root cfg debug w = (Raise e, w')
    /\ files w' = files w
    /\ db_trace w' = db_trace w ++ exchange_rolled_back params q
    /\ log w' = log w ++ debug_line q debug
                ++ [(INFO, MsgFetched (S (length rows)) symbol timeframe)].
Proof.
  intros q H Ha Hq Hbad.
  rewrite (fetch_connected _ _ _ _ _ _ _ _ _ _ H Ha). cbv zeta.
  fold q. rewrite Hq.
  pose proof (at_save_trace symbol timeframe start_ns end_ns debug params
                (row :: rows) names w) as Hw2. cbv zeta in Hw2.
  set (w2 := at_save symbol timeframe start_ns end_ns debug params
                     (row :: rows) names w) in *.
  destruct Hw2 as (Ht & Hf & Hc & _ & Hl). clearbody w2.
  assert (Hgoal : forall e0,
             exists w',
               (Raise e0 : res (option DataFrame),
                add_event EvRollback (add_event EvCursorClose w2))
               = (Raise e0, w')
               /\ files w' = files w
               /\ db_trace w' = db_trace w ++ exchange_rolled_back params q
               /\ log w' = log w ++ debug_line q debug
                   ++ [(INFO, MsgFetched (S (length rows)) symbol timeframe)]).
  { intros e0. eexists. split; [reflexivity|]. split; [exact Hf|]. split.
    - simpl. rewrite Ht. fold q. now rewrite <- !List.app_assoc.
    - simpl. rewrite Hl. reflexivity. }
  destruct Hbad as [Hs | ((sdt & Hs) & He)].
  - rewrite Hs. apply Hgoal.
  - rewrite Hs, He. apply Hgoal.
Qed.

Lemma fetch_bound_outside_calendar_witness :
  exists w',
    fetch_and_save_data "BTCUSD" "bitstamp" "1m"
                        1531553400000000000 253402300800000000000
                        "data" "config/db_config.json" false
                        (sample_world server_rows)
    = (Raise (Exn ValueError "year is out of range"), w')
    /\ files w' = sample_files.
Proof.
  destruct (fetch_bound_outside_calendar
              "BTCUSD" "bitstamp" "1m" "data" "config/db_config.json"
              1531553400000000000 253402300800000000000 false
              (sample_world server_rows) sample_params
              [VText "BTCUSD"; VText "1m"; VInt 1531553400000000000;
               VText "6231.5"]
              [ [VText "BTCUSD"; VText "1m"; VInt 1531553460000000000;
                 VText "6232.0"];
                [VText "BTCUSD"; VText "1m"; VInt 1531553520000000000;
                 VText "6230.1"] ]
              sample_columns (Exn ValueError "year is out of range"))
    as (w' & E & Hf & _).
  - now rewrite sample_config_loads.
  - reflexivity.
  - reflexivity.
  - right. split; [exists sample_start|]; vm_compute; reflexivity.
  - exists w'. split; [exact E | exact Hf].
Defined.

(** X7.  The [debug] switch changes nothing but the log: with and without
    it [fetch_and_save_data] returns the same, leaves the same files and
    has the same exchange with the database.  If the query is reached,
    the log with [debug] has one more record, "Executing SQL command"
    with the query text at level DEBUG, in front of the others; and
    without [debug] no record at level DEBUG is written. *)
Theorem debug_adds_one_log_line
        (symbol broker timeframe data_root cfg : string) (start_ns end_ns : Z)
        (w : World) :
  let quiet := fetch_and_save_data symbol broker timeframe start_ns end_ns
                                   data_root cfg false w in
  let loud := fetch_and_save_data symbol broker timeframe start_ns end_ns
                                  data_root cfg true w in
  let q := build_query symbol timeframe start_ns end_ns in
  fst loud = fst quiet
  /\ files (snd loud) = files (snd quiet)
  /\ db_trace (snd loud) = db_trace (snd quiet)
  /\ ((db_trace (snd quiet) = db_trace w /\ log (snd loud) = log (snd quiet))
      \/ (exists rest,
            log (snd quiet) = log w ++ rest
            /\ log (snd loud) = log w ++ (DEBUG, MsgExecuting q) :: rest
            /\ Forall (fun entry => fst entry <> DEBUG) rest)).
Proof.
  cbv zeta.
  destruct (fst (db_config cfg w)) as [params|e] eqn:H.
  - destruct (accepts (pg w) params) as [e|] eqn:Ha.
    + rewrite !(fetch_connect_failed _ _ _ _ _ _ _ _ _ _ _ H Ha).
      repeat split. left. split; [|reflexivity].
      destruct (is_OperationalError e); reflexivity.
    + rewrite !(fetch_connected _ _ _ _ _ _ _ _ _ _ H Ha). cbv zeta.
      destruct (answers (pg w) (build_query symbol timeframe start_ns end_ns))
        as [[[|r rows] names]|e] eqn:Hq.
      * repeat split. right. eexists. simpl.
        split; [reflexivity|]. split; [now rewrite <- List.app_assoc|].
        repeat constructor; discriminate.
      * pose proof (at_save_trace symbol timeframe start_ns end_ns false params
                      (r :: rows) names w) as H0. cbv zeta in H0.
        pose proof (at_save_trace symbol timeframe start_ns end_ns true params
                      (r :: rows) names w) as H1. cbv zeta in H1.
        set (w0 := at_save symbol timeframe start_ns end_ns false params
                           (r :: rows) names w) in *.
        set (w1 := at_save symbol timeframe start_ns end_ns true params
                           (r :: rows) names w) in *.
        destruct H0 as (Ht0 & Hf0 & Hc0 & _ & Hl0).
        destruct H1 as (Ht1 & Hf1 & Hc1 & _ & Hl1).
        clearbody w0 w1. cbn [debug_line] in Hl0, Hl1.
        rewrite List.app_nil_l in Hl0.
        destruct (datetime_of_ns start_ns) as [sdt|e1];
          [destruct (datetime_of_ns end_ns) as [edt|e2]|].
        -- set (df := {| columns := names; data := r :: rows |}).
           destruct (save_same_files df data_root symbol broker timeframe
                       sdt edt w1 w0) as (Hfst & Hfiles); [congruence..|].
           pose proof (save_log df data_root symbol broker timeframe
                         sdt edt w0) as Hlg0.
           pose proof (save_log df data_root symbol broker timeframe
                         sdt edt w1) as Hlg1.
           pose proof (save_keeps_database df data_root symbol broker timeframe
                         sdt edt w0) as Hk0.
           pose proof (save_keeps_database df data_root symbol broker timeframe
                         sdt edt w1) as Hk1.
           cbv zeta in Hlg0, Hlg1, Hk0, Hk1.
           destruct Hk0 as (Hk0 & _). destruct Hk1 as (Hk1 & _).
           destruct (save_data_to_nested_folders df data_root symbol broker
                       timeframe sdt edt w0) as [r0 v0].
           destruct (save_data_to_nested_folders df data_root symbol broker
                       timeframe sdt edt w1) as [r1 v1].
           cbn [fst snd] in *. subst r1.
           destruct r0 as [p|e3]; cbn [fst snd]; simpl;
             rewrite Hfiles, Hk0, Hk1, Ht0, Ht1, Hlg0, Hlg1, Hl0, Hl1;
             (split; [reflexivity|]); (split; [reflexivity|]);
             (split; [reflexivity|]); right; eexists;
             (split; [rewrite <- List.app_assoc; reflexivity|]);
             (split; [rewrite <- !List.app_assoc; reflexivity|]);
             repeat constructor; discriminate.
        -- simpl. rewrite Hf0, Hf1, Ht0, Ht1, Hl0, Hl1.
           repeat split. right. eexists. split; [reflexivity|].
           split; [rewrite <- ?List.app_assoc; reflexivity|].
           repeat constructor; discriminate.
        -- simpl. rewrite Hf0, Hf1, Ht0, Ht1, Hl0, Hl1.
           repeat split. right. eexists. split; [reflexivity|].
           split; [rewrite <- ?List.app_assoc; reflexivity|].
           repeat constructor; discriminate.
      * destruct (is_Exception e); simpl; repeat split; right.
        -- exists [(ERROR, MsgQueryError e); (WARNING, MsgNoData)].
           split; [now rewrite <- List.app_assoc|].
           split; [now rewrite <- !List.app_assoc|].
           repeat constructor; discriminate.
        -- exists []. split; [now rewrite List.app_nil_r|].
           split; [reflexivity | constructor].
  - rewrite !(fetch_config_failed _ _ _ _ _ _ _ _ _ _ H).
    repeat split. left. split; [|reflexivity].
    destruct (is_Exception e); reflexivity.
Qed.

(* --------------------------------------------------------------------- *)
(** ** Failures of the loader; what the writer leaves alone              *)
(* --------------------------------------------------------------------- *)

Lemma enter_raises_exception (fs : filesystem) (names cur : list string)
      (e : exn) :
  enter fs cur names = Raise e -> is_Exception e = true.
Proof.
  revert cur. induction names as [|n rest IH]; intros cur; [discriminate|].
  cbn [enter]. destruct (String.eqb n ".."); [apply IH|].
  destruct (lookup_node fs (cur ++ [n])) as [[|c]|]; [apply IH | |];
    now intros [= <-].
Qed.

Lemma locate_raises_exception (fs : filesystem) (cd : list string)
      (path : string) (e : exn) :
  locate fs cd path = Raise e -> is_Exception e = true.
Proof.
  unfold locate. destruct (steps path) as [|n rest].
  - destruct (String.eqb path ""); [now intros [= <-] | discriminate].
  - destruct (enter fs _ (removelast (n :: rest))) as [d|e'] eqn:E.
    + destruct (String.eqb _ ".."); discriminate.
    + intros [= <-]. exact (enter_raises_exception _ _ _ _ E).
Qed.

Lemma read_file_raises_exception (fs : filesystem) (cd : list string)
      (path : string) (e : exn) :
  read_file fs cd path = Raise e -> is_Exception e = true.
Proof.
  unfold read_file. destruct (locate fs cd path) as [loc|e'] eqn:L.
  - destruct (lookup_node fs loc) as [[|c]|]; try (now intros [= <-]).
    destruct (faults fs !! loc) as [[|]|]; [| |discriminate];
      now intros [= <-].
  - intros [= <-]. exact (locate_raises_exception _ _ _ _ L).
Qed.

Lemma db_config_raises_exception (cfg : string) (w : World) (e : exn) :
  fst (db_config cfg w) = Raise e -> is_Exception e = true.
Proof.
  unfold db_config.
  destruct (negb (path_exists (files w) (cwd w) cfg)); [now intros [= <-]|].
  destruct (read_file (files w) (cwd w) cfg) as [c|e'] eqn:R.
  - destruct (json_load_dict c) as [d|e'] eqn:J.
    + destruct (bool_decide _); [discriminate | now intros [= <-]].
    + intros [= <-]. destruct c as [[]| | |]; simpl in J; try discriminate;
        now injection J as <-.
  - intros [= <-]. exact (read_file_raises_exception _ _ _ _ R).
Qed.

(** X8.  Whatever [db_config] raises, not only the missing file and the
    missing key but also a path that is a directory, a file that cannot
    be read, a text that is no JSON, a JSON value that is no object, is
    an [Exception]; [fetch_and_save_data] catches it, writes it to the
    log at level ERROR and returns [None], with nothing else
    changed. *)
Theorem any_loader_failure_is_absorbed
        (symbol broker timeframe data_root cfg : string) (start_ns end_ns : Z)
        (debug : bool) (w : World) (e : exn) :
  fst (db_config cfg w) = Raise e ->
  is_Exception e = true
  /\ fetch_and_save_data symbol broker timeframe start_ns end_ns
                         data_root cfg debug w
     = (Ok None, add_log ERROR (MsgConfigFailed e) w).
Proof.
  intros H. pose proof (db_config_raises_exception _ _ _ H) as He.
  split; [exact He|].
  now rewrite (fetch_config_failed _ _ _ _ _ _ _ _ _ _ H), He.
Qed.

Lemma any_loader_failure_is_absorbed_witness :
  fst (db_config "config" (sample_world server_rows))
  = Raise (Exn IsADirectoryError "config")
  /\ fetch_and_save_data "BTCUSD" "bitstamp" "1m"
                         1531553400000000000 1531554000000000000
                         "data" "config" false (sample_world server_rows)
     = (Ok None,
        add_log ERROR (MsgConfigFailed (Exn IsADirectoryError "config"))
                (sample_world server_rows)).
Proof.
  assert (E : fst (db_config "config" (sample_world server_rows))
              = Raise (Exn IsADirectoryError "config")) by reflexivity.
  split; [exact E|].
  exact (proj2 (any_loader_failure_is_absorbed
                  "BTCUSD" "bitstamp" "1m" "data" "config"
                  1531553400000000000 1531554000000000000 false
                  (sample_world server_rows)
                  (Exn IsADirectoryError "config") E)).
Defined.








(* --------------------------------------------------------------------- *)
(** ** One file per request                                              *)
(* --------------------------------------------------------------------- *)










(* --------------------------------------------------------------------- *)
(** ** The calendar, there and back                                      *)
(* --------------------------------------------------------------------- *)

Lemma days_before_next_year (y : Z) :
  days_before_year (y + 1) = days_before_year y + days_in_year y.
Proof.
  unfold days_before_year, days_in_year, is_leap. cbv zeta.
  replace (y + 1 - 1) with y by ring.
  pose proof (Z.div_mod y 4 ltac:(lia)). pose proof (Z.mod_pos_bound y 4 ltac:(lia)).
  pose proof (Z.div_mod y 100 ltac:(lia)). pose proof (Z.mod_pos_bound y 100 ltac:(lia)).
  pose proof (Z.div_mod y 400 ltac:(lia)). pose proof (Z.mod_pos_bound y 400 ltac:(lia)).
  pose proof (Z.div_mod (y - 1) 4 ltac:(lia)). pose proof (Z.mod_pos_bound (y - 1) 4 ltac:(lia)).
  pose proof (Z.div_mod (y - 1) 100 ltac:(lia)). pose proof (Z.mod_pos_bound (y - 1) 100 ltac:(lia)).
  pose proof (Z.div_mod (y - 1) 400 ltac:(lia)). pose proof (Z.mod_pos_bound (y - 1) 400 ltac:(lia)).
  destruct (Z.eqb_spec (y mod 4) 0); destruct (Z.eqb_spec (y mod 100) 0);
    destruct (Z.eqb_spec (y mod 400) 0); cbn [andb orb negb]; lia.
Qed.

Lemma days_before_year_mono (y y' : Z) :
  y <= y' -> days_before_year y + 365 * (y' - y) <= days_before_year y'.
Proof.
  intros H. unfold days_before_year. cbv zeta.
  pose proof (Z.div_mod (y - 1) 4 ltac:(lia)). pose proof (Z.mod_pos_bound (y - 1) 4 ltac:(lia)).
  pose proof (Z.div_mod (y - 1) 100 ltac:(lia)). pose proof (Z.mod_pos_bound (y - 1) 100 ltac:(lia)).
  pose proof (Z.div_mod (y - 1) 400 ltac:(lia)). pose proof (Z.mod_pos_bound (y - 1) 400 ltac:(lia)).
  pose proof (Z.div_mod (y' - 1) 4 ltac:(lia)). pose proof (Z.mod_pos_bound (y' - 1) 4 ltac:(lia)).
  pose proof (Z.div_mod (y' - 1) 100 ltac:(lia)). pose proof (Z.mod_pos_bound (y' - 1) 100 ltac:(lia)).
  pose proof (Z.div_mod (y' - 1) 400 ltac:(lia)). pose proof (Z.mod_pos_bound (y' - 1) 400 ltac:(lia)).
  lia.
Qed.

Lemma month_cases (m : Z) :
  1 <= m <= 12 ->
  m = 1 \/ m = 2 \/ m = 3 \/ m = 4 \/ m = 5 \/ m = 6 \/ m = 7 \/ m = 8
  \/ m = 9 \/ m = 10 \/ m = 11 \/ m = 12.
Proof. lia. Qed.

(** The day of the year of a date of the calendar. *)
Lemma day_of_year_bounds (y m d : Z) :
  1 <= m <= 12 -> 1 <= d <= days_in_month y m ->
  1 <= days_before_month y m + d <= days_in_year y.
Proof.
  intros Hm. unfold days_before_month, days_in_month, days_in_year.
  destruct (month_cases m Hm)
    as [->|[->|[->|[->|[->|[->|[->|[->|[->|[->|[->| ->]]]]]]]]]]];
    destruct (is_leap y); cbn; lia.
Qed.

Lemma day_of_year_inj (y m d m' d' : Z) :
  1 <= m <= 12 -> 1 <= d <= days_in_month y m ->
  1 <= m' <= 12 -> 1 <= d' <= days_in_month y m' ->
  days_before_month y m + d = days_before_month y m' + d' ->
  m = m' /\ d = d'.
Proof.
  intros Hm Hd Hm' Hd'. revert Hd Hd'.
  unfold days_before_month, days_in_month.
  destruct (month_cases m Hm)
    as [->|[->|[->|[->|[->|[->|[->|[->|[->|[->|[->| ->]]]]]]]]]]];
    destruct (month_cases m' Hm')
      as [->|[->|[->|[->|[->|[->|[->|[->|[->|[->|[->| ->]]]]]]]]]]];
    destruct (is_leap y); cbn; lia.
Qed.

Lemma ymd2ord_inj (y m d y' m' d' : Z) :
  1 <= m <= 12 -> 1 <= d <= days_in_month y m ->
  1 <= m' <= 12 -> 1 <= d' <= days_in_month y' m' ->
  ymd2ord y m d = ymd2ord y' m' d' ->
  y = y' /\ m = m' /\ d = d'.
Proof.
  intros Hm Hd Hm' Hd'. unfold ymd2ord. intros E.
  pose proof (day_of_year_bounds y m d Hm Hd) as B.
  pose proof (day_of_year_bounds y' m' d' Hm' Hd') as B'.
  assert (Hy : y = y').
  { destruct (Z.lt_trichotomy y y') as [Hlt | [Heq | Hgt]]; [exfalso | exact Heq | exfalso].
    - pose proof (days_before_next_year y).
      pose proof (days_before_year_mono (y + 1) y' ltac:(lia)). lia.
    - pose proof (days_before_next_year y').
      pose proof (days_before_year_mono (y' + 1) y ltac:(lia)). lia. }
  subst y'. split; [reflexivity|].
  apply (day_of_year_inj y); auto. lia.
Qed.

(** [ord2ymd] undoes [ymd2ord] on the dates of the calendar. *)
Lemma ord2ymd_ymd2ord (y m d : Z) :
  1 <= y <= 9999 -> 1 <= m <= 12 -> 1 <= d <= days_in_month y m ->
  ord2ymd (ymd2ord y m d) = (y, m, d).
Proof.
  intros Hy Hm Hd.
  pose proof (day_of_year_bounds y m d Hm Hd) as B.
  assert (Hn : 1 <= ymd2ord y m d <= 3652059).
  { unfold ymd2ord.
    pose proof (days_before_year_mono 1 y ltac:(lia)).
    pose proof (days_before_next_year y).
    pose proof (days_before_year_mono (y + 1) 10000 ltac:(lia)).
    change (days_before_year 1) with 0 in *.
    change (days_before_year 10000) with 3652059 in *. lia. }
  pose proof (ord_ok_all _ Hn) as Hok. unfold ord_ok in Hok.
  destruct (ord2ymd (ymd2ord y m d)) as [[y' m'] d'].
  rewrite !andb_true_iff, Z.eqb_eq, !Z.leb_le in Hok.
  destruct Hok as ((((((E & _) & _) & Hm1) & Hm2) & Hd1) & Hd2).
  destruct (ymd2ord_inj y' m' d' y m d) as (-> & -> & ->); auto.
Qed.

Lemma valid_fields_date (dt : datetime) :
  valid_fields dt = true ->
  1 <= year dt <= 9999 /\ 1 <= month dt <= 12
  /\ 1 <= day dt <= days_in_month (year dt) (month dt)
  /\ 0 <= hour dt <= 23 /\ 0 <= minute dt <= 59 /\ 0 <= second dt <= 59
  /\ 0 <= microsecond dt <= 999999.
Proof.
  unfold valid_fields. rewrite !andb_true_iff, !Z.leb_le. lia.
Qed.

(** Two datetimes of the calendar at the same microsecond have the same
    fields. *)
Lemma wall_micros_inj (a b : datetime) :
  valid_fields a = true -> valid_fields b = true ->
  wall_micros a = wall_micros b ->
  stamp_fields a = stamp_fields b /\ microsecond a = microsecond b.
Proof.
  intros Va Vb. apply valid_fields_date in Va, Vb.
  unfold wall_micros, stamp_fields. intros E.
  destruct Va as (Ya & Ma & Da & Ha & Mia & Sa & Ua).
  destruct Vb as (Yb & Mb & Db & Hb & Mib & Sb & Ub).
  set (oa := ymd2ord (year a) (month a) (day a)) in *.
  set (ob := ymd2ord (year b) (month b) (day b)) in *.
  assert (Hu : microsecond a = microsecond b /\
               (oa - epoch_ordinal) * 86400 + hour a * 3600 + minute a * 60
               + second a
               = (ob - epoch_ordinal) * 86400 + hour b * 3600 + minute b * 60
                 + second b) by lia.
  destruct Hu as (Hu & Hsec).
  assert (Ho : oa = ob) by lia.
  subst oa ob.
  destruct (ymd2ord_inj _ _ _ _ _ _ Ma Da Mb Db Ho) as (Hy & Hm & Hd).
  assert (hour a = hour b) by lia.
  assert (minute a = minute b) by lia.
  assert (second a = second b) by lia.
  split; [congruence | lia].
Qed.

(* --------------------------------------------------------------------- *)
(** ** ISO texts with an offset; the bound in the file name              *)
(* --------------------------------------------------------------------- *)

Lemma split_at_sign_skip (a acc r : string) :
  lacks "+" a = true -> lacks "-" a = true ->
  split_at_sign acc (a +:+ r) = split_at_sign (acc +:+ a) r.
Proof.
  revert acc. induction a as [|c a IH]; intros acc Hp Hm.
  - now rewrite append_empty_l, append_empty_r.
  - cbn [lacks] in Hp, Hm.
    apply andb_true_iff in Hp as [Hp1 Hp2]. apply andb_true_iff in Hm as [Hm1 Hm2].
    apply negb_true_iff in Hp1, Hm1.
    rewrite append_cons. cbn [split_at_sign]. rewrite Hp1, Hm1.
    rewrite (IH _ Hp2 Hm2). now rewrite snoc_append.
Qed.

Lemma lacks_pad2 (c : ascii) (v : Z) :
  is_digit c = false -> lacks c (pad2 v) = true.
Proof.
  intros Hc. unfold pad2. cbn [lacks].
  now rewrite !digit_char_not by (apply mod10_digit || exact Hc).
Qed.

Lemma lacks_pad4 (c : ascii) (v : Z) :
  is_digit c = false -> lacks c (pad4 v) = true.
Proof.
  intros Hc. unfold pad4. cbn [lacks].
  rewrite !digit_char_not by (apply mod10_digit || exact Hc).
  now rewrite lacks_pad2.
Qed.

Lemma lacks_clock (c : ascii) (h m s : Z) :
  is_digit c = false -> Ascii.eqb ":" c = false ->
  lacks c (pad2 h +:+ ":" +:+ pad2 m +:+ ":" +:+ pad2 s) = true.
Proof.
  intros Hc Hcolon. rewrite !lacks_app, !lacks_pad2 by exact Hc.
  cbn [lacks]. now rewrite Hcolon.
Qed.

Lemma lacks_iso_clock (c : ascii) (dt : datetime) :
  is_digit c = false -> Ascii.eqb ":" c = false -> Ascii.eqb "-" c = false ->
  Ascii.eqb "T" c = false ->
  lacks c (iso_clock dt) = true.
Proof.
  intros Hc H1 H2 H3. unfold iso_clock.
  rewrite !lacks_app, !lacks_pad2, lacks_pad4 by exact Hc.
  cbn [lacks]. now rewrite H1, H2, H3.
Qed.

Lemma parse_clock (h m s : Z) :
  0 <= h < 100 -> 0 <= m < 100 -> 0 <= s < 100 ->
  parse_hh_mm_ss_ff (pad2 h +:+ ":" +:+ pad2 m +:+ ":" +:+ pad2 s)
  = Some (h, m, s, 0).
Proof.
  intros Hh Hm Hs. unfold parse_hh_mm_ss_ff.
  rewrite parse_pad2 by lia. rewrite append_cons, append_empty_l.
  change (negb (Ascii.eqb ":" ":")) with false. cbv iota.
  rewrite parse_pad2 by lia. rewrite append_cons, append_empty_l.
  change (negb (Ascii.eqb ":" ":")) with false. cbv iota.
  now rewrite parse_pad2_end by lia.
Qed.

Lemma parse_offset_hh_mm (east : bool) (oh om : Z) :
  0 <= oh < 100 -> 0 <= om < 100 ->
  parse_offset (if east then 1 else -1) (pad2 oh +:+ ":" +:+ pad2 om)
  = Some (offset_seconds east oh om * 1000000).
Proof.
  intros Hh Hm. unfold parse_offset.
  change (String.length (pad2 oh +:+ ":" +:+ pad2 om)) with 5%nat.
  cbn [Nat.eqb orb]. unfold parse_hh_mm_ss_ff.
  rewrite parse_pad2 by lia. rewrite append_cons, append_empty_l.
  change (negb (Ascii.eqb ":" ":")) with false. cbv iota.
  rewrite parse_pad2_end by lia.
  unfold offset_seconds. f_equal. destruct east; lia.
Qed.

Lemma valid_on_the_second (dt : datetime) (off : option Z) :
  valid_fields dt = true -> valid_fields (on_the_second dt off) = true.
Proof.
  intros H. apply valid_fields_date in H.
  unfold valid_fields, on_the_second.
  cbn [year month day hour minute second microsecond].
  rewrite !andb_true_iff, !Z.leb_le. lia.
Qed.

Lemma split_at_sign_clock (clock tail : string) :
  lacks "+" clock = true -> lacks "-" clock = true ->
  split_at_sign "" (clock +:+ String "+" tail) = (clock, Some (1, tail))
  /\ split_at_sign "" (clock +:+ String "-" tail) = (clock, Some (-1, tail)).
Proof.
  intros Hp Hm. rewrite !split_at_sign_skip by assumption.
  rewrite append_empty_l. split; reflexivity.
Qed.

(** [fromisoformat] on a stamp with an offset. *)
Lemma fromisoformat_offset (dt : datetime) (east : bool) (oh om : Z) :
  valid_fields dt = true -> 0 <= oh <= 23 -> 0 <= om <= 59 ->
  fromisoformat (iso_offset dt east oh om)
  = Ok (on_the_second dt (Some (offset_seconds east oh om * 1000000))).
Proof.
  intros Hv Hoh Hom. pose proof (valid_fields_ranges dt Hv) as Hr.
  unfold fromisoformat, iso_offset, iso_clock. rewrite !append_assoc.
  rewrite parse_pad4 by lia. rewrite append_cons, append_empty_l.
  change (negb (Ascii.eqb "-" "-")) with false. cbv iota.
  rewrite parse_pad2 by lia. rewrite append_cons, append_empty_l.
  change (negb (Ascii.eqb "-" "-")) with false. cbv iota.
  rewrite parse_pad2 by lia. rewrite append_cons, append_empty_l.
  set (clock := pad2 (hour dt) +:+ ":" +:+ pad2 (minute dt) +:+ ":"
                +:+ pad2 (second dt)).
  set (otext := pad2 oh +:+ ":" +:+ pad2 om).
  assert (Hsplit :
    split_at_sign ""
      (pad2 (hour dt) +:+ ":" +:+ pad2 (minute dt) +:+ ":" +:+ pad2 (second dt)
       +:+ (if east then "+" else "-") +:+ otext)
    = (clock, Some (if east then 1 else -1, otext))).
  { destruct (split_at_sign_clock clock otext) as (Hplus & Hminus);
      [apply lacks_clock; reflexivity..|].
    destruct east; [exact Hplus | exact Hminus]. }
  rewrite Hsplit. unfold clock. rewrite parse_clock by lia.
  unfold otext. rewrite parse_offset_hh_mm by lia.
  fold (on_the_second dt (Some (offset_seconds east oh om * 1000000))).
  rewrite (valid_on_the_second dt _ Hv).
  cbn [utcoffset on_the_second].
  assert (Hlt : Z.ltb (Z.abs (offset_seconds east oh om * 1000000)) 86400000000
                = true).
  { apply Z.ltb_lt. unfold offset_seconds. destruct east; lia. }
  now rewrite Hlt.
Qed.

Lemma replace_Z_iso_utc (dt : datetime) :
  replace_Z (iso_utc dt) = iso_offset dt true 0 0.
Proof.
  unfold iso_utc, iso_offset. rewrite replace_Z_app.
  rewrite replace_Z_lacks by (apply lacks_iso_clock; reflexivity).
  reflexivity.
Qed.

Lemma replace_Z_iso_offset (dt : datetime) (east : bool) (oh om : Z) :
  replace_Z (iso_offset dt east oh om) = iso_offset dt east oh om.
Proof.
  apply replace_Z_lacks. unfold iso_offset.
  rewrite !lacks_app, lacks_iso_clock, !lacks_pad2 by reflexivity.
  now destruct east.
Qed.

(** The two roundings are exact on a whole second near the epoch. *)
Lemma convert_exact (lt : datetime -> res float) (s : string)
      (dt : datetime) (off secs : Z) :
  fromisoformat (replace_Z s) = Ok dt -> utcoffset dt = Some off ->
  wall_micros dt - off = secs * 1000000 ->
  Z.abs secs * 5 ^ 9 < 2 ^ 53 ->
  convert_to_nanoseconds lt s = Ok (secs * 1000000000).
Proof.
  intros Hp Ho Hw Hb.
  rewrite (convert_unfold lt s dt off Hp Ho), Hw.
  assert (Hs : Z.abs secs < 2 ^ 53) by lia.
  destruct (int_truediv_integer secs 1000000 ltac:(lia) Hs) as (t & -> & Ht).
  f_equal. apply trunc_denotes.
  apply (fmul_denotes _ _ _ _ (secs * 5 ^ 9) 9 Ht float_of_int_billion).
  - change 1000000000 with (5 ^ 9 * 2 ^ 9). ring.
  - lia.
  - rewrite Z.abs_mul. change (Z.abs (5 ^ 9)) with (5 ^ 9). exact Hb.
Qed.

Lemma wall_micros_on_the_second (dt : datetime) (off : option Z) :
  wall_micros (on_the_second dt off) = wall_seconds dt * 1000000.
Proof.
  unfold wall_micros, wall_seconds, on_the_second.
  cbn [year month day hour minute second microsecond]. lia.
Qed.

(** X12.  [convert_to_nanoseconds] on the text [YYYY-MM-DDTHH:MM:SS+HH:MM]
    (or [-HH:MM]) of a date of the calendar: the offset is taken off the
    wall-clock reading, and for an instant less than [2 ** 53 / 5 ** 9]
    seconds from the epoch the result is exactly the number of
    nanoseconds between the epoch and that instant. *)
Theorem convert_subtracts_the_offset
        (lt : datetime -> res float) (dt : datetime) (east : bool)
        (oh om : Z) :
  valid_fields dt = true -> 0 <= oh <= 23 -> 0 <= om <= 59 ->
  Z.abs (wall_seconds dt - offset_seconds east oh om) * 5 ^ 9 < 2 ^ 53 ->
  convert_to_nanoseconds lt (iso_offset dt east oh om)
  = Ok ((wall_seconds dt - offset_seconds east oh om) * 1000000000).
Proof.
  intros Hv Hoh Hom Hb.
  apply (convert_exact lt _
           (on_the_second dt (Some (offset_seconds east oh om * 1000000)))
           (offset_seconds east oh om * 1000000)).
  - rewrite replace_Z_iso_offset. now apply fromisoformat_offset.
  - reflexivity.
  - rewrite wall_micros_on_the_second. ring.
  - exact Hb.
Qed.

Lemma convert_subtracts_the_offset_witness :
  convert_to_nanoseconds (fun _ => Raise (Exn OSError "no local time"))
                         "2018-07-14T09:30:00+02:00"
  = Ok 1531553400000000000.
Proof.
  exact (convert_subtracts_the_offset
           (fun _ => Raise (Exn OSError "no local time"))
           {| year := 2018; month := 7; day := 14; hour := 9; minute := 30;
              second := 0; microsecond := 0; utcoffset := None |}
           true 2 0 eq_refl ltac:(lia) ltac:(lia) ltac:(vm_compute; reflexivity)).
Defined.

Lemma strftime_ext (a b : datetime) :
  stamp_fields a = stamp_fields b -> strftime a = strftime b.
Proof.
  unfold stamp_fields, strftime. now intros [= -> -> -> -> -> ->].
Qed.

Lemma near_epoch_years (dt : datetime) :
  valid_fields dt = true -> 1824 <= year dt <= 2115 ->
  Z.abs (wall_seconds dt) * 5 ^ 9 < 2 ^ 53.
Proof.
  intros Hv Hy. apply valid_fields_date in Hv.
  destruct Hv as (_ & Hm & Hd & Hh & Hmi & Hs & _).
  pose proof (day_of_year_bounds _ _ _ Hm Hd) as B.
  pose proof (days_before_year_mono 1824 (year dt) ltac:(lia)) as L.
  pose proof (days_before_next_year (year dt)) as N.
  pose proof (days_before_year_mono (year dt + 1) 2116 ltac:(lia)) as U.
  change (days_before_year 1824) with 665836 in L.
  change (days_before_year 2116) with 772487 in U.
  unfold wall_seconds, ymd2ord, epoch_ordinal.
  change (5 ^ 9) with 1953125. change (2 ^ 53) with 9007199254740992.
  lia.
Qed.

(** X13.  A bound given as [YYYY-MM-DDTHH:MM:SSZ] with a year from 1824 to
    2115 comes back unchanged in the name of the archive file:
    [convert_to_nanoseconds] gives the exact nanoseconds, and
    [utcfromtimestamp] on these over [1e9] gives the same year, month,
    day, hour, minute and second, which is what [strftime] prints. *)
Theorem bound_shows_in_the_file_name (lt : datetime -> res float)
        (dt : datetime) :
  valid_fields dt = true -> 1824 <= year dt <= 2115 ->
  exists dt',
    convert_to_nanoseconds lt (iso_utc dt)
    = Ok (wall_seconds dt * 1000000000)
    /\ datetime_of_ns (wall_seconds dt * 1000000000) = Ok dt'
    /\ stamp_fields dt' = stamp_fields dt
    /\ microsecond dt' = 0
    /\ strftime dt' = strftime dt.
Proof.
  intros Hv Hy. pose proof (near_epoch_years dt Hv Hy) as Hb.
  destruct (datetime_of_ns_whole_second _ Hb) as (dt' & E & Hw & _ & Hv').
  exists dt'. split.
  - apply (convert_exact lt _ (on_the_second dt (Some 0)) 0).
    + rewrite replace_Z_iso_utc. now apply fromisoformat_offset.
    + reflexivity.
    + rewrite wall_micros_on_the_second. ring.
    + exact Hb.
  - split; [exact E|].
    rewrite <- (wall_micros_on_the_second dt None) in Hw.
    destruct (wall_micros_inj _ _ Hv' (valid_on_the_second dt None Hv) Hw)
      as (Hf & Hu).
    split; [exact Hf|]. split; [exact Hu|]. now apply strftime_ext.
Qed.

Lemma bound_shows_in_the_file_name_witness :
  exists dt',
    convert_to_nanoseconds (fun _ => Raise (Exn OSError "no local time"))
                           "2018-07-14T07:30:00Z"
    = Ok 1531553400000000000
    /\ datetime_of_ns 1531553400000000000 = Ok dt'
    /\ strftime dt' = "2018-07-14_07-30-00".
Proof.
  destruct (bound_shows_in_the_file_name
              (fun _ => Raise (Exn OSError "no local time"))
              sample_start eq_refl ltac:(cbn; lia))
    as (dt' & H1 & H2 & _ & _ & H3).
  exists dt'. split; [exact H1|]. split; [exact H2 | exact H3].
Defined.

(* --------------------------------------------------------------------- *)
(** ** Bounds inside a second                                            *)
(* --------------------------------------------------------------------- *)

Lemma nearest_ge (k num den : Z) :
  0 < den -> k * den <= num -> k <= nearest num den.
Proof.
  intros Hd H. unfold nearest.
  assert (Hq : k <= num / den) by (apply Z.div_le_lower_bound; lia).
  destruct (Z.ltb (2 * (num mod den)) den); [exact Hq|].
  destruct (Z.ltb den (2 * (num mod den))); [lia|].
  destruct (Z.even (num / den)); lia.
Qed.

Lemma nearest_le_half (k num den : Z) :
  0 < den -> 2 * num < (2 * k + 1) * den -> nearest num den <= k.
Proof.
  intros Hd H. unfold nearest.
  pose proof (Z.div_mod num den ltac:(lia)) as E.
  pose proof (Z.mod_pos_bound num den Hd) as B.
  destruct (Z.ltb_spec (2 * (num mod den)) den);
    [|destruct (Z.ltb_spec den (2 * (num mod den)));
      [|destruct (Z.even (num / den))]]; nia.
Qed.

Lemma nearest_le (k num den : Z) :
  0 < den -> num <= k * den -> nearest num den <= k.
Proof. intros Hd H. apply nearest_le_half; lia. Qed.

Lemma pick_exponent_le (a d : Z) :
  pick_exponent a d <= Z.log2 a - Z.log2 d - 52.
Proof.
  unfold pick_exponent.
  destruct (scaled a d (Z.log2 a - Z.log2 d - 53)) as [n0 d0].
  destruct (Z.leb (2 ^ 53) (n0 / d0)); lia.
Qed.

(** [round53] keeps a positive quotient between two numbers of a grid
    that its own grid refines. *)
Lemma round53_grid (n d k lo hi : Z) :
  0 < n -> 0 < d -> 0 <= k -> pick_exponent n d <= - k ->
  pick_exponent n d < 0 ->
  lo * d <= n * 2 ^ k -> n * 2 ^ k <= hi * d ->
  exists m,
    round53 n d = {| fmant := m; fexpo := pick_exponent n d |}
    /\ lo * 2 ^ (- pick_exponent n d - k) <= m
    /\ m <= hi * 2 ^ (- pick_exponent n d - k).
Proof.
  intros Hn Hd Hk He Hneg Hlo Hhi. unfold round53.
  destruct (Z.eqb_spec n 0) as [->|_]; [lia|].
  rewrite (Z.abs_eq n) by lia. rewrite (Z.sgn_pos n) by lia.
  set (e := pick_exponent n d) in *.
  unfold scaled. destruct (Z.leb_spec 0 e) as [|_]; [lia|].
  eexists. split; [rewrite Z.mul_1_l; reflexivity|].
  assert (Hp : 2 ^ (- e) = 2 ^ k * 2 ^ (- e - k))
    by (rewrite <- Z.pow_add_r by lia; f_equal; lia).
  assert (Hq : 0 < 2 ^ (- e - k)) by (apply Z.pow_pos_nonneg; lia).
  assert (Hk2 : 0 < 2 ^ k) by (apply Z.pow_pos_nonneg; lia).
  split.
  - apply nearest_ge; [exact Hd|]. rewrite Hp. nia.
  - apply nearest_le; [exact Hd|]. rewrite Hp. nia.
Qed.

(** The second half of [utcfromtimestamp]: once the whole seconds and
    the microseconds are known. *)
Lemma utcfromtimestamp_split (t : float) (s us : Z) :
  trunc t = s ->
  round_half_even
    (round53 ((fst (fraction t) - s * snd (fraction t)) * 1000000)
             (snd (fraction t))) = us ->
  0 <= us < 1000000 ->
  min_second <= s <= max_second ->
  exists dt,
    utcfromtimestamp t = Ok dt
    /\ wall_micros dt = s * 1000000 + us
    /\ utcoffset dt = None
    /\ valid_fields dt = true.
Proof.
  intros Ht Hus Hu Hs. unfold utcfromtimestamp. rewrite Ht.
  destruct (fraction t) as [n d]. cbn [fst snd] in Hus. rewrite Hus.
  destruct (Z.leb_spec 1000000 us) as [|_]; [lia|].
  destruct (Z.ltb_spec us 0) as [|_]; [lia|].
  unfold min_second, max_second in Hs.
  assert (H63 : 2 ^ 38 <= 2 ^ 63) by (apply Z.pow_le_mono_r; lia).
  change (2 ^ 38) with 274877906944 in H63.
  destruct (Z.leb_spec (2 ^ 63) (Z.abs s)) as [Hbig|_]; [lia|].
  pose proof (Z.div_mod s 86400 ltac:(lia)) as Hdm.
  pose proof (Z.mod_pos_bound s 86400 ltac:(lia)) as Hmb.
  set (sod := s mod 86400) in *. set (q := s / 86400) in *.
  unfold epoch_ordinal, max_ordinal.
  assert (Hcal : 1 <= q + 719163 <= 3652059) by lia.
  assert (Hle : Z.leb 1 (q + 719163) && Z.leb (q + 719163) 3652059 = true).
  { apply andb_true_iff. rewrite !Z.leb_le. lia. }
  rewrite Hle.
  pose proof (ord_ok_all _ Hcal) as Hok. unfold ord_ok in Hok.
  destruct (ord2ymd (q + 719163)) as [[y m] dd].
  rewrite !andb_true_iff, Z.eqb_eq, !Z.leb_le in Hok.
  destruct Hok as ((((((Hy2o & Hy1) & Hy2) & Hm1) & Hm2) & Hd1) & Hd2).
  pose proof (Z.div_mod sod 3600 ltac:(lia)).
  pose proof (Z.mod_pos_bound sod 3600 ltac:(lia)).
  pose proof (Z.div_mod (sod mod 3600) 60 ltac:(lia)).
  pose proof (Z.mod_pos_bound (sod mod 3600) 60 ltac:(lia)).
  pose proof (Z.div_mod sod 60 ltac:(lia)).
  pose proof (Z.mod_pos_bound sod 60 ltac:(lia)).
  eexists. split; [reflexivity|]. split; [|split; [reflexivity|]].
  - unfold wall_micros. cbn [year month day hour minute second microsecond].
    rewrite Hy2o. unfold epoch_ordinal. lia.
  - unfold valid_fields.
    cbn [year month day hour minute second microsecond].
    rewrite !andb_true_iff, !Z.leb_le. lia.
Qed.

(** The float of [ns / 1_000_000_000] for a bound inside a second. *)
Lemma truediv_inside_second (s r : Z) :
  0 <= s -> 0 <= r <= 999999000 -> 0 < s * 1000000000 + r ->
  s * 1000000000 + r < 2 ^ 62 ->
  exists m e,
    int_truediv (s * 1000000000 + r) 1000000000
    = Ok {| fmant := m; fexpo := e |}
    /\ e <= -20
    /\ s * 2 ^ (- e) <= m
    /\ m <= s * 2 ^ (- e) + 2 ^ (- e) - 2 ^ (- e - 20).
Proof.
  intros Hs Hr Hpos Hlt. set (ns := s * 1000000000 + r) in *.
  unfold int_truediv.
  assert (H1024 : 2 ^ 62 <= 2 ^ 1024) by (apply Z.pow_le_mono_r; lia).
  destruct (Z.leb_spec (2 ^ 1024 * 1000000000) (Z.abs ns)) as [Hbig|_];
    [lia|].
  assert (He : pick_exponent ns 1000000000 <= -20).
  { pose proof (pick_exponent_le ns 1000000000) as H.
    change (Z.log2 1000000000) with 29 in H.
    assert (Z.log2 ns < 62) by (apply Z.log2_lt_pow2; lia). lia. }
  destruct (round53_grid ns 1000000000 20 (s * 2 ^ 20) ((s + 1) * 2 ^ 20 - 1))
    as (m & E & Hlo & Hhi); try lia.
  exists m, (pick_exponent ns 1000000000). split; [now rewrite E|].
  split; [exact He|].
  set (e := pick_exponent ns 1000000000) in *.
  assert (Hp : 2 ^ (- e) = 2 ^ 20 * 2 ^ (- e - 20))
    by (rewrite <- Z.pow_add_r by lia; f_equal; lia).
  assert (Hq : 0 < 2 ^ (- e - 20)) by (apply Z.pow_pos_nonneg; lia).
  rewrite Hp. split; nia.
Qed.

(** The microseconds that [utcfromtimestamp] reads off such a float
    stay below one second. *)
Lemma micros_inside_second (f D P : Z) (e : Z) :
  e <= -20 -> D = 2 ^ (- e) -> P = 2 ^ (- e - 20) ->
  0 <= f <= D - P ->
  0 <= round_half_even (round53 (f * 1000000) D) < 1000000.
Proof.
  intros He HD HP Hf.
  assert (Hp : D = 2 ^ 20 * P)
    by (subst D P; rewrite <- Z.pow_add_r by lia; f_equal; lia).
  assert (Hq : 0 < P) by (subst P; apply Z.pow_pos_nonneg; lia).
  assert (HDpos : 0 < D) by (subst D; apply Z.pow_pos_nonneg; lia).
  change (2 ^ 20) with 1048576 in Hp.
  destruct (Z.eq_dec f 0) as [->|Hf0].
  { change (round_half_even (round53 (0 * 1000000) D)) with 0. lia. }
  assert (Ha : 0 < f * 1000000) by lia.
  assert (He' : pick_exponent (f * 1000000) D <= -2).
  { pose proof (pick_exponent_le (f * 1000000) D) as H.
    assert (HlD : Z.log2 D = - e) by (subst D; apply Z.log2_pow2; lia).
    assert (Hl : Z.log2 (f * 1000000) < - e + 20).
    { apply Z.log2_lt_pow2; [lia|].
      rewrite Z.pow_add_r by lia. rewrite <- HD.
      change (2 ^ 20) with 1048576. lia. }
    lia. }
  destruct (round53_grid (f * 1000000) D 2 0 3999997)
    as (m & E & Hlo & Hhi); try lia.
  rewrite E. unfold round_half_even, fraction. cbn [fmant fexpo].
  set (e' := pick_exponent (f * 1000000) D) in *.
  destruct (Z.leb_spec 0 e') as [|_]; [lia|].
  assert (Hp' : 2 ^ (- e') = 4 * 2 ^ (- e' - 2)).
  { change 4 with (2 ^ 2). rewrite <- Z.pow_add_r by lia. f_equal. lia. }
  assert (Hq' : 0 < 2 ^ (- e' - 2)) by (apply Z.pow_pos_nonneg; lia).
  split.
  - apply nearest_ge; lia.
  - assert (nearest m (2 ^ (- e')) <= 999999); [|lia].
    apply nearest_le_half; [lia|]. rewrite Hp'. nia.
Qed.

Lemma datetime_of_ns_inside_second (s r : Z) :
  0 <= s -> 0 <= r <= 999999000 -> s * 1000000000 + r < 2 ^ 62 ->
  exists dt us,
    datetime_of_ns (s * 1000000000 + r) = Ok dt
    /\ wall_micros dt = s * 1000000 + us
    /\ 0 <= us < 1000000
    /\ utcoffset dt = None
    /\ valid_fields dt = true.
Proof.
  intros Hs Hr Hlt.
  assert (Hsmall : s < 4611686019).
  { change (2 ^ 62) with 4611686018427387904 in Hlt. lia. }
  destruct (Z.eq_dec (s * 1000000000 + r) 0) as [Hz|Hnz].
  { assert (s = 0) by lia. assert (r = 0) by lia. subst s r.
    exists {| year := 1970; month := 1; day := 1; hour := 0; minute := 0;
              second := 0; microsecond := 0; utcoffset := None |}, 0.
    repeat split; (reflexivity || lia). }
  destruct (truediv_inside_second s r Hs Hr ltac:(lia) Hlt)
    as (m & e & E & He & Hlo & Hhi).
  unfold datetime_of_ns. rewrite E.
  set (t := {| fmant := m; fexpo := e |}).
  assert (HD : 0 < 2 ^ (- e)) by (apply Z.pow_pos_nonneg; lia).
  assert (HP : 0 < 2 ^ (- e - 20)) by (apply Z.pow_pos_nonneg; lia).
  assert (Hfr : fraction t = (m, 2 ^ (- e))).
  { unfold fraction, t. cbn [fmant fexpo].
    destruct (Z.leb_spec 0 e); [lia | reflexivity]. }
  assert (Htr : trunc t = s).
  { unfold trunc. rewrite Hfr. rewrite Z.quot_div_nonneg by nia.
    symmetry. apply (Z.div_unique _ _ _ (m - s * 2 ^ (- e))); nia. }
  destruct (utcfromtimestamp_split t s
              (round_half_even
                 (round53 ((fst (fraction t) - s * snd (fraction t)) * 1000000)
                          (snd (fraction t)))))
    as (dt & Edt & Hw & Ho & Hv).
  - exact Htr.
  - reflexivity.
  - rewrite Hfr. cbn [fst snd].
    apply (micros_inside_second _ _ (2 ^ (- e - 20)) e); auto. lia.
  - unfold min_second, max_second. lia.
  - exists dt. eexists. split; [exact Edt|]. split; [exact Hw|].
    split; [|split; assumption].
    rewrite Hfr. cbn [fst snd].
    apply (micros_inside_second _ _ (2 ^ (- e - 20)) e); auto. lia.
Qed.

Lemma wall_micros_seconds (dt : datetime) :
  wall_micros dt = wall_seconds dt * 1000000 + microsecond dt.
Proof. unfold wall_micros, wall_seconds. lia. Qed.

Lemma same_second_same_stamp (a b : datetime) :
  valid_fields a = true -> valid_fields b = true ->
  wall_seconds a = wall_seconds b ->
  stamp_fields a = stamp_fields b.
Proof.
  intros Va Vb E.
  destruct (wall_micros_inj (on_the_second a None) (on_the_second b None))
    as (H & _).
  - now apply valid_on_the_second.
  - now apply valid_on_the_second.
  - rewrite !wall_micros_on_the_second. now rewrite E.
  - exact H.
Qed.

(** X22.  The name of the archive file shows the bounds to the second only.
    A bound [s * 10 ** 9 + r] nanoseconds, after the epoch and below
    [2 ** 62], whose part [r] below the second is at most 999999000, is
    read through the float division and [utcfromtimestamp] as the second
    [s]: it prints the same stamp as the bound [s * 10 ** 9], so two
    requests whose bounds differ below the second only write the same
    file. *)
Theorem file_name_keeps_whole_seconds (s r : Z) :
  0 <= s -> 0 <= r <= 999999000 -> s * 1000000000 + r < 2 ^ 62 ->
  exists dt dt0,
    datetime_of_ns (s * 1000000000 + r) = Ok dt
    /\ datetime_of_ns (s * 1000000000) = Ok dt0
    /\ wall_seconds dt = s
    /\ stamp_fields dt = stamp_fields dt0
    /\ strftime dt = strftime dt0
    /\ forall other, file_name dt other = file_name dt0 other
                     /\ file_name other dt = file_name other dt0.
Proof.
  intros Hs Hr Hlt.
  destruct (datetime_of_ns_inside_second s r Hs Hr Hlt)
    as (dt & us & E & Hw & Hus & _ & Hv).
  assert (Hlt0 : s * 1000000000 + 0 < 2 ^ 62) by lia.
  destruct (datetime_of_ns_inside_second s 0 Hs ltac:(lia) Hlt0)
    as (dt0 & us0 & E0 & Hw0 & Hus0 & _ & Hv0).
  rewrite Z.add_0_r in E0.
  exists dt, dt0. split; [exact E|]. split; [exact E0|].
  pose proof (valid_fields_date dt Hv) as Rdt.
  pose proof (valid_fields_date dt0 Hv0) as Rdt0.
  rewrite wall_micros_seconds in Hw, Hw0.
  assert (S1 : wall_seconds dt = s) by lia.
  assert (S0 : wall_seconds dt0 = s) by lia.
  assert (F : stamp_fields dt = stamp_fields dt0)
    by (apply same_second_same_stamp; congruence).
  pose proof (strftime_ext _ _ F) as Hst.
  split; [exact S1|]. split; [exact F|]. split; [exact Hst|].
  intros other. unfold file_name. now rewrite Hst.
Qed.

Lemma file_name_keeps_whole_seconds_witness :
  exists dt dt0,
    datetime_of_ns 1531553400999999000 = Ok dt
    /\ datetime_of_ns 1531553400000000000 = Ok dt0
    /\ strftime dt = strftime dt0.
Proof.
  destruct (file_name_keeps_whole_seconds 1531553400 999999000)
    as (dt & dt0 & H1 & H2 & _ & _ & H3 & _); try lia.
  exists dt, dt0. split; [exact H1|]. split; [exact H2 | exact H3].
Defined.

(** Half a microsecond before the next second the reading tips over. *)
Example file_name_rounds_up_at_the_end_of_a_second :
  (exists dt, datetime_of_ns 1531553400999999499 = Ok dt
              /\ strftime dt = "2018-07-14_07-30-01")
  /\ (exists dt, datetime_of_ns 1531553400999999000 = Ok dt
                 /\ strftime dt = "2018-07-14_07-30-00").
Proof. split; eexists; (split; [vm_compute; reflexivity | reflexivity]). Qed.

(* --------------------------------------------------------------------- *)
(** ** The command line                                                  *)
(* --------------------------------------------------------------------- *)

Lemma is_option_dash (word : string) :
  is_option word = true -> starts_with_dash word = true.
Proof.
  unfold is_option, is_help. rewrite !orb_true_iff.
  intros [[[H | H] | H] | H].
  - apply String.eqb_eq in H as ->. reflexivity.
  - apply String.eqb_eq in H as ->. reflexivity.
  - apply String.eqb_eq in H as ->. reflexivity.
  - apply bool_decide_eq_true in H as [dest H]. revert H.
    unfold value_options. cbn [assoc].
    repeat match goal with
           | |- context [String.eqb word ?k] =>
               destruct (String.eqb_spec word k) as [->|_];
               [intros _; reflexivity|]
           end.
    discriminate.
Qed.

Lemma plain_not_option (word : string) :
  plain_word word -> is_option word = false.
Proof.
  intros H. destruct (is_option word) eqn:E; [|reflexivity].
  apply is_option_dash in E. unfold plain_word in H. congruence.
Qed.

Lemma plain_not_help (word : string) : plain_word word -> is_help word = false.
Proof.
  intros H. apply plain_not_option in H. unfold is_option in H.
  now destruct (is_help word).
Qed.

Lemma plain_not_debug (word : string) :
  plain_word word -> String.eqb word "--debug" = false.
Proof.
  intros H. apply plain_not_option in H. unfold is_option in H.
  destruct (String.eqb word "--debug"); [|reflexivity].
  now rewrite orb_true_r in H.
Qed.

(** X15.  A command line that gives [--symbol], [--timeframe], [--start] and
    [--end], each followed by a value that does not begin with a dash,
    and any of [--broker], [--config], [--data-root] and [--debug], is
    parsed into the namespace with these values; an option that is not
    given falls back on its default: [bitstamp], the file
    [db_config.json] in the folder [config] beside the folder of the
    script, the folder [data] there, and no debugging.  [--data-root]
    fills the attribute [data_root]. *)
Theorem parse_arguments_reads_the_command_line
        (file symbol timeframe start end_ : string)
        (broker config data_root : option string) (debug : bool) :
  plain_word symbol -> plain_word timeframe -> plain_word start ->
  plain_word end_ ->
  plain_if_given broker -> plain_if_given config -> plain_if_given data_root ->
  parse_arguments file
    (command_line symbol timeframe start end_ broker config data_root debug)
  = Parsed {| arg_symbol := symbol;
              arg_broker := default "bitstamp" broker;
              arg_timeframe := timeframe;
              arg_start := start;
              arg_end := end_;
              arg_config := default (DB_CONFIG_FILE file) config;
              arg_data_root := default (DEFAULT_DATA_ROOT file) data_root;
              arg_debug := debug |}.
Proof.
  intros Hs Ht Hst He Hb Hc Hd.
  pose proof (plain_not_option _ Hs) as Os.
  pose proof (plain_not_option _ Ht) as Ot.
  pose proof (plain_not_option _ Hst) as Ost.
  pose proof (plain_not_option _ He) as Oe.
  unfold plain_word in Hs, Ht, Hst, He.
  unfold parse_arguments, command_line.
  destruct broker as [b|], config as [c|], data_root as [r|], debug;
    cbn [optional_words app existsb plain_if_given] in *;
    repeat match goal with
           | H : plain_word ?x |- _ =>
               pose proof (plain_not_option _ H); unfold plain_word in H
           end;
    repeat match goal with
           | H : starts_with_dash ?x = false |- _ => rewrite H
           end;
    cbn [andb orb starts_with_dash is_option is_help String.eqb Ascii.eqb
         Bool.eqb negb bool_decide decide_rel];
    cbn [take_words is_help String.eqb Ascii.eqb Bool.eqb orb assoc
         value_options stored debug_seen leftover];
    repeat match goal with
           | H : is_option ?x = false |- _ => rewrite H
           end;
    cbn [take_words is_help String.eqb Ascii.eqb Bool.eqb orb assoc
         value_options stored debug_seen leftover];
    unfold namespace_of; cbn [stored debug_seen leftover];
    vm_compute; reflexivity.
Qed.






Lemma parse_arguments_reads_the_command_line_witness :
  parse_arguments "/app/src/main.py"
    ["--symbol"; "BTCUSD"; "--timeframe"; "1m";
     "--start"; "2018-07-14T07:30:00Z"; "--end"; "2018-07-14T07:40:00Z";
     "--debug"]
  = Parsed {| arg_symbol := "BTCUSD";
              arg_broker := "bitstamp";
              arg_timeframe := "1m";
              arg_start := "2018-07-14T07:30:00Z";
              arg_end := "2018-07-14T07:40:00Z";
              arg_config := "/app/src/../config/db_config.json";
              arg_data_root := "/app/src/../data";
              arg_debug := true |}.
Proof.
  exact (parse_arguments_reads_the_command_line
           "/app/src/main.py" "BTCUSD" "1m"
           "2018-07-14T07:30:00Z" "2018-07-14T07:40:00Z" None None None true
           eq_refl eq_refl eq_refl eq_refl I I I).
Defined.

(* --------------------------------------------------------------------- *)
(** ** [main] and the script                                             *)
(* --------------------------------------------------------------------- *)

Lemma main_given (lt : datetime -> res float) (file : string)
      (argv : list string) (args : Namespace) (w : World) :
  main lt file argv (Some args) w
  = match convert_to_nanoseconds lt (arg_start args) with
    | Raise e => (Raise e, w)
    | Ok start_ns =>
        match convert_to_nanoseconds lt (arg_end args) with
        | Raise e => (Raise e, w)
        | Ok end_ns =>
            match fetch_and_save_data
                    (arg_symbol args) (arg_broker args) (arg_timeframe args)
                    start_ns end_ns (arg_data_root args) (arg_config args)
                    (arg_debug args) w with
            | (Ok _, w') => (Ok (Parsed tt), w')
            | (Raise e, w') => (Raise e, w')
            end
        end
    end.
Proof.
  unfold main, bind, lift, ret.
  destruct (convert_to_nanoseconds lt (arg_start args)); [|reflexivity].
  destruct (convert_to_nanoseconds lt (arg_end args)); [|reflexivity].
  destruct (fetch_and_save_data _ _ _ _ _ _ _ _ w) as [[o|e] w']; reflexivity.
Qed.

(** X17.  Once the log is set up, [main] converts both bounds before it does
    anything else.  When the start, or else the end, cannot be
    converted, the exception leaves [main] (it is not caught as the
    configuration and connection errors are), and nothing has happened:
    no log record, no word to the database, no file written. *)
Theorem main_stops_at_a_bad_bound
        (lt : datetime -> res float) (file : string) (argv : list string)
        (args : Namespace) (w : World) (e : exn) :
  convert_to_nanoseconds lt (arg_start args) = Raise e
  \/ (exists start_ns, convert_to_nanoseconds lt (arg_start args) = Ok start_ns)
     /\ convert_to_nanoseconds lt (arg_end args) = Raise e ->
  main lt file argv (Some args) w = (Raise e, w).
Proof.
  intros H. rewrite main_given.
  destruct H as [-> | ((n & ->) & ->)]; reflexivity.
Qed.

Lemma main_stops_at_a_bad_bound_witness :
  main (fun _ => Raise (Exn OSError "no local time")) "main.py" []
        (Some {| arg_symbol := "BTCUSD"; arg_broker := "bitstamp";
                 arg_timeframe := "1m"; arg_start := "2018-07-14T07:30:00Z";
                 arg_end := "14/07/2018"; arg_config := "config/db_config.json";
                 arg_data_root := "data"; arg_debug := false |})
        (sample_world server_rows)
  = (Raise (invalid_isoformat "14/07/2018"), sample_world server_rows).
Proof.
  apply main_stops_at_a_bad_bound. right.
  split; [exists 1531553400000000000|]; vm_compute; reflexivity.
Defined.

(** X18.  When the bounds convert and the configuration cannot be loaded, or
    the connection is refused with [OperationalError], [main] ends
    normally: it returns without an exception, having written one ERROR
    record, with no word to the database and no file changed. *)
Theorem main_ends_normally_after_a_soft_failure
        (lt : datetime -> res float) (file : string) (argv : list string)
        (args : Namespace) (w : World) (start_ns end_ns : Z) :
  convert_to_nanoseconds lt (arg_start args) = Ok start_ns ->
  convert_to_nanoseconds lt (arg_end args) = Ok end_ns ->
  (exists e, fst (db_config (arg_config args) w) = Raise e)
  \/ (exists params e,
        fst (db_config (arg_config args) w) = Ok params
        /\ accepts (pg w) params = Some e
        /\ is_OperationalError e = true) ->
  exists w' msg,
    main lt file argv (Some args) w = (Ok (Parsed tt), w')
    /\ log w' = log w ++ [(ERROR, msg)]
    /\ files w' = files w
    /\ db_trace w' = db_trace w.
Proof.
  intros Hs He H. rewrite main_given, Hs, He.
  destruct H as [(e & Hc) | (params & e & Hc & Ha & Ho)].
  - rewrite (fetch_config_failed _ _ _ _ _ _ _ _ _ _ Hc).
    rewrite (db_config_raises_exception _ _ _ Hc).
    eexists. eexists. repeat split.
  - rewrite (fetch_connect_failed _ _ _ _ _ _ _ _ _ _ _ Hc Ha), Ho.
    eexists. eexists. repeat split.
Qed.

Lemma main_ends_normally_after_a_soft_failure_witness :
  exists w' msg,
    main (fun _ => Raise (Exn OSError "no local time")) "main.py" []
          (Some {| arg_symbol := "BTCUSD"; arg_broker := "bitstamp";
                   arg_timeframe := "1m";
                   arg_start := "2018-07-14T07:30:00Z";
                   arg_end := "2018-07-14T07:40:00Z";
                   arg_config := "config/db_config.json";
                   arg_data_root := "data"; arg_debug := false |})
          (sample_world server_down) = (Ok (Parsed tt), w')
    /\ log w' = log (sample_world server_down) ++ [(ERROR, msg)]
    /\ files w' = files (sample_world server_down)
    /\ db_trace w' = db_trace (sample_world server_down).
Proof.
  apply (main_ends_normally_after_a_soft_failure
           (fun _ => Raise (Exn OSError "no local time")) "main.py" []
           {| arg_symbol := "BTCUSD"; arg_broker := "bitstamp";
              arg_timeframe := "1m"; arg_start := "2018-07-14T07:30:00Z";
              arg_end := "2018-07-14T07:40:00Z";
              arg_config := "config/db_config.json";
              arg_data_root := "data"; arg_debug := false |}
           (sample_world server_down)
           1531553400000000000 1531554000000000000).
  - vm_compute. reflexivity.
  - vm_compute. reflexivity.
  - right. exists sample_params,
             (Exn OperationalError "could not connect to server").
    split; [now rewrite sample_config_loads|]. split; reflexivity.
Defined.

Lemma fromisoformat_result (s : string) :
  match fromisoformat s with
  | Ok dt =>
      valid_fields dt = true
      /\ forall off, utcoffset dt = Some off -> Z.abs off < 86400000000
  | Raise e => class_of e = ValueError
  end.
Proof.
  unfold fromisoformat, invalid_isoformat.
  repeat case_match; simplify_eq; cbn [class_of utcoffset];
    try reflexivity;
    (split; [assumption|]); intros off [= <-]; try discriminate;
    now apply Z.ltb_lt.
Qed.

Lemma ymd2ord_range (y m d : Z) :
  1 <= y <= 9999 -> 1 <= m <= 12 -> 1 <= d <= days_in_month y m ->
  1 <= ymd2ord y m d <= 3652059.
Proof.
  intros Hy Hm Hd. pose proof (day_of_year_bounds y m d Hm Hd) as B.
  unfold ymd2ord.
  pose proof (days_before_year_mono 1 y ltac:(lia)).
  pose proof (days_before_next_year y).
  pose proof (days_before_year_mono (y + 1) 10000 ltac:(lia)).
  change (days_before_year 1) with 0 in *.
  change (days_before_year 10000) with 3652059 in *. lia.
Qed.

Lemma timestamp_aware_returns (lt : datetime -> res float) (dt : datetime)
      (off : Z) :
  valid_fields dt = true -> utcoffset dt = Some off ->
  Z.abs off < 86400000000 ->
  exists t, timestamp lt dt = Ok t.
Proof.
  intros Hv Ho Hb. unfold timestamp, int_truediv. rewrite Ho.
  apply valid_fields_date in Hv.
  destruct Hv as (Hy & Hm & Hd & Hh & Hmi & Hs & Hu).
  pose proof (ymd2ord_range _ _ _ Hy Hm Hd) as Hr.
  assert (H64 : 2 ^ 64 <= 2 ^ 1024) by (apply Z.pow_le_mono_r; lia).
  change (2 ^ 64) with 18446744073709551616 in H64.
  destruct (Z.leb_spec (2 ^ 1024 * 1000000) (Z.abs (wall_micros dt - off)))
    as [Hbig|_]; [exfalso|eauto].
  unfold wall_micros, epoch_ordinal in Hbig. lia.
Qed.

(** X14.  [convert_to_nanoseconds] catches nothing.  What it raises is a
    [ValueError] (the text is no ISO date, or a field is out of range),
    unless the text has no offset and the reading of the local time
    fails: the division and the product cannot fail on a date of the
    calendar. *)
Theorem convert_raises_value_error
        (lt : datetime -> res float) (s : string) (e : exn) :
  convert_to_nanoseconds lt s = Raise e ->
  class_of e = ValueError
  \/ (exists dt,
        fromisoformat (replace_Z s) = Ok dt /\ utcoffset dt = None
        /\ lt dt = Raise e).
Proof.
  unfold convert_to_nanoseconds.
  pose proof (fromisoformat_result (replace_Z s)) as Hr.
  destruct (fromisoformat (replace_Z s)) as [dt|e'].
  - destruct Hr as (Hv & Hoff).
    destruct (utcoffset dt) as [off|] eqn:Ho.
    + destruct (timestamp_aware_returns lt dt off Hv Ho (Hoff off eq_refl))
        as (t & ->). discriminate.
    + unfold timestamp. rewrite Ho.
      destruct (lt dt) as [t|e'] eqn:Hl; [discriminate|].
      intros [= <-]. right. exists dt. repeat split; assumption.
  - intros [= <-]. now left.
Qed.

Lemma convert_raises_value_error_witness :
  class_of (invalid_isoformat "14/07/2018") = ValueError
  \/ (exists dt,
        fromisoformat (replace_Z "14/07/2018") = Ok dt /\ utcoffset dt = None
        /\ (Raise (Exn OSError "no local time") : res float)
           = Raise (invalid_isoformat "14/07/2018")).
Proof.
  exact (convert_raises_value_error
           (fun _ => Raise (Exn OSError "no local time")) "14/07/2018"
           (invalid_isoformat "14/07/2018") eq_refl).
Defined.

Lemma fetch_log_levels
      (symbol broker timeframe data_root cfg : string) (start_ns end_ns : Z)
      (debug : bool) (w : World) :
  exists recs,
    log (snd (fetch_and_save_data symbol broker timeframe start_ns end_ns
                                  data_root cfg debug w))
    = log w ++ recs
    /\ Forall (fun r => fst r = DEBUG -> debug = true) recs.
Proof.
  destruct (fst (db_config cfg w)) as [params|e] eqn:H.
  - destruct (accepts (pg w) params) as [e|] eqn:Ha.
    + rewrite (fetch_connect_failed _ _ _ _ _ _ _ _ _ _ _ H Ha).
      destruct (is_OperationalError e); simpl.
      * eexists. split; [reflexivity|]. repeat constructor; discriminate.
      * exists []. split; [now rewrite List.app_nil_r | constructor].
    + rewrite (fetch_connected _ _ _ _ _ _ _ _ _ _ H Ha). cbv zeta.
      assert (Hdl : Forall (fun r : log_level * log_msg =>
                              fst r = DEBUG -> debug = true)
                      (debug_line (build_query symbol timeframe start_ns end_ns)
                                  debug)).
      { destruct debug; repeat constructor. }
      destruct (answers (pg w) (build_query symbol timeframe start_ns end_ns))
        as [[[|r rows] names]|e] eqn:Hq.
      * exists (debug_line (build_query symbol timeframe start_ns end_ns) debug
                ++ [(WARNING, MsgNoData)]).
        split; [destruct debug; simpl; now rewrite <- ?List.app_assoc|].
        apply Forall_app. split; [exact Hdl|]. repeat constructor; discriminate.
      * pose proof (at_save_trace symbol timeframe start_ns end_ns debug params
                      (r :: rows) names w) as Hw2. cbv zeta in Hw2.
        set (w2 := at_save symbol timeframe start_ns end_ns debug params
                           (r :: rows) names w) in *.
        destruct Hw2 as (_ & _ & _ & _ & Hl). clearbody w2.
        assert (Hf : Forall (fun r0 : log_level * log_msg =>
                               fst r0 = DEBUG -> debug = true)
                       (debug_line
                          (build_query symbol timeframe start_ns end_ns) debug
                        ++ [(INFO, MsgFetched (length (r :: rows))
                                              symbol timeframe)])).
        { apply Forall_app. split; [exact Hdl|].
          repeat constructor; discriminate. }
        destruct (datetime_of_ns start_ns) as [sdt|e1];
          [destruct (datetime_of_ns end_ns) as [edt|e2]|].
        -- pose proof (save_log {| columns := names; data := r :: rows |}
                         data_root symbol broker timeframe sdt edt w2) as Hlg.
           cbv zeta in Hlg.
           destruct (save_data_to_nested_folders _ _ _ _ _ _ _ w2)
             as [[p|e3] w3]; cbn [fst snd] in *; simpl; rewrite Hlg, Hl.
           ++ eexists. split; [rewrite <- !List.app_assoc; reflexivity|].
              apply Forall_app. split; [exact Hdl|].
              repeat constructor; discriminate.
           ++ eexists. rewrite List.app_nil_r. split; [reflexivity | exact Hf].
        -- simpl. rewrite Hl. eexists. split; [reflexivity | exact Hf].
        -- simpl. rewrite Hl. eexists. split; [reflexivity | exact Hf].
      * destruct (is_Exception e).
        -- exists (debug_line (build_query symbol timeframe start_ns end_ns)
                              debug
                   ++ [(ERROR, MsgQueryError e); (WARNING, MsgNoData)]).
           split; [destruct debug; simpl; now rewrite <- ?List.app_assoc|].
           apply Forall_app. split; [exact Hdl|].
           repeat constructor; discriminate.
        -- exists (debug_line (build_query symbol timeframe start_ns end_ns)
                              debug).
           split; [|exact Hdl].
           destruct debug; simpl; [reflexivity | now rewrite List.app_nil_r].
  - rewrite (fetch_config_failed _ _ _ _ _ _ _ _ _ _ H).
    destruct (is_Exception e); simpl.
    + eexists. split; [reflexivity|]. repeat constructor; discriminate.
    + exists []. split; [now rewrite List.app_nil_r | constructor].
Qed.

Lemma shown_all (debug : bool) (recs : list (log_level * log_msg)) :
  Forall (fun r => fst r = DEBUG -> debug = true) recs ->
  shown (basicConfig_level debug) recs = recs.
Proof.
  unfold shown. induction 1 as [|[l m] recs Hr _ IH]; [reflexivity|].
  cbn [List.filter fst] in *. rewrite IH.
  destruct debug; [now destruct l|].
  destruct l; [|reflexivity..]. now specialize (Hr eq_refl).
Qed.

(** X19.  [main] sets the level of the log to DEBUG when [debug] is set and
    to INFO otherwise, and no record that the run then writes lies below
    that level: everything the program logs is shown. *)
Theorem main_shows_every_record
        (lt : datetime -> res float) (file : string) (argv : list string)
        (args : Namespace) (w : World) :
  exists recs,
    log (snd (main lt file argv (Some args) w)) = log w ++ recs
    /\ shown (basicConfig_level (arg_debug args)) recs = recs.
Proof.
  rewrite main_given.
  destruct (convert_to_nanoseconds lt (arg_start args)) as [s|e1].
  2:{ exists []. split; [now rewrite List.app_nil_r | reflexivity]. }
  destruct (convert_to_nanoseconds lt (arg_end args)) as [e|e2].
  2:{ exists []. split; [now rewrite List.app_nil_r | reflexivity]. }
  destruct (fetch_log_levels (arg_symbol args) (arg_broker args)
              (arg_timeframe args) (arg_data_root args) (arg_config args)
              s e (arg_debug args) w) as (recs & Hl & Hf).
  exists recs. split; [|now apply shown_all].
  destruct (fetch_and_save_data _ _ _ _ _ _ _ _ w) as [[o|x] w']; exact Hl.
Qed.

(** X20.  Run as a script, the file calls [main] with the hard-coded
    arguments.  Whatever the command line holds, the run fetches BTCUSD
    from bitstamp at 1m between 2018-07-14 07:30:00 and 07:40:00 UTC
    (1531553400000000000 and 1531554000000000000 nanoseconds), with
    debugging on, the configuration and the data root at their default
    places; [parse_arguments] is not called. *)
Theorem script_ignores_the_command_line
        (lt : datetime -> res float) (file : string) (argv : list string)
        (w : World) :
  script lt file argv w
  = match fetch_and_save_data "BTCUSD" "bitstamp" "1m"
            1531553400000000000 1531554000000000000
            (DEFAULT_DATA_ROOT file) (DB_CONFIG_FILE file) true w with
    | (Ok _, w') => (Ok (Parsed tt), w')
    | (Raise e, w') => (Raise e, w')
    end.
Proof.
  unfold script. rewrite main_given.
  cbn [HardcodedArgs arg_symbol arg_broker arg_timeframe arg_start arg_end
       arg_config arg_data_root arg_debug].
  assert (convert_to_nanoseconds lt "2018-07-14T07:30:00Z"
          = Ok 1531553400000000000) as -> by (vm_compute; reflexivity).
  assert (convert_to_nanoseconds lt "2018-07-14T07:40:00Z"
          = Ok 1531554000000000000) as -> by (vm_compute; reflexivity).
  reflexivity.
Qed.

Lemma up_to_last_slash_none (name : string) :
  lacks slash name = true -> up_to_last_slash name = None.
Proof.
  induction name as [|c name IH]; [reflexivity|].
  cbn [lacks up_to_last_slash]. intros H.
  apply andb_true_iff in H as [Hc Hn]. apply negb_true_iff in Hc.
  now rewrite (IH Hn), Hc.
Qed.

Lemma up_to_last_slash_dir (dir name : string) :
  lacks slash name = true ->
  up_to_last_slash (dir +:+ String slash name) = Some (dir +:+ String slash "").
Proof.
  intros Hn. induction dir as [|c dir IH].
  - rewrite !append_empty_l. cbn [up_to_last_slash].
    now rewrite (up_to_last_slash_none _ Hn), Ascii.eqb_refl.
  - rewrite !append_cons. cbn [up_to_last_slash]. now rewrite IH.
Qed.

Lemma dir_slash_not_all_slashes (dir : string) :
  dir <> "" -> ends_with_slash dir = false ->
  all_slashes (dir +:+ String slash "") = false
  /\ rstrip_slash (dir +:+ String slash "") = dir.
Proof.
  induction dir as [|c dir IH]; [congruence|]. intros _ He.
  rewrite append_cons. cbn [all_slashes rstrip_slash].
  destruct dir as [|c' dir'].
  - cbn [ends_with_slash] in He. rewrite append_empty_l.
    cbn [all_slashes rstrip_slash]. rewrite Ascii.eqb_refl, He. now split.
  - assert (Hne : String c' dir' <> "") by discriminate.
    assert (He' : ends_with_slash (String c' dir') = false) by exact He.
    destruct (IH Hne He') as (Ha & Hr). rewrite Ha, Hr.
    split; [apply andb_false_r | reflexivity].
Qed.

Lemma dirname_of_file (dir name : string) :
  dir <> "" -> ends_with_slash dir = false -> lacks slash name = true ->
  dirname (dir +:+ String slash name) = dir.
Proof.
  intros Hd He Hn. unfold dirname. rewrite (up_to_last_slash_dir _ _ Hn).
  destruct (dir_slash_not_all_slashes dir Hd He) as (-> & ->). reflexivity.
Qed.

Lemma enter_app (fs : filesystem) (a b cur : list string) :
  enter fs cur (a ++ b)
  = match enter fs cur a with
    | Ok d => enter fs d b
    | Raise e => Raise e
    end.
Proof.
  revert cur. induction a as [|n a IH]; intros cur; [reflexivity|].
  cbn [app enter]. destruct (String.eqb n ".."); [apply IH|].
  destruct (lookup_node fs (cur ++ [n])) as [[|c]|]; [apply IH | |];
    reflexivity.
Qed.

(** X21.  When the script is started as [dir/name], the default configuration
    file is [dir/../config/db_config.json] and the default data root
    [dir/../data].  If [dir] can be entered and its parent holds a
    folder [config], the configuration is looked for in that folder:
    beside the folder of the script, not inside it. *)
Theorem default_config_lies_beside_the_script_folder
        (fs : filesystem) (cd : list string) (dir name : string)
        (d : list string) :
  let file := dir +:+ "/" +:+ name in
  dir <> "" -> ends_with_slash dir = false -> lacks slash name = true ->
  enter fs (if is_absolute dir then [] else cd) (steps dir) = Ok d ->
  lookup_node fs (parent d ++ ["config"]) = Some Dir ->
  dirname file = dir
  /\ DB_CONFIG_FILE file = dir +:+ "/../config/db_config.json"
  /\ DEFAULT_DATA_ROOT file = dir +:+ "/../data"
  /\ locate fs cd (DB_CONFIG_FILE file)
     = Ok (parent d ++ ["config"; "db_config.json"]).
Proof.
  intros file Hd He Hn Hent Hcfg.
  assert (Hdir : dirname file = dir) by now apply dirname_of_file.
  assert (Hc : DB_CONFIG_FILE file = dir +:+ "/../config/db_config.json").
  { unfold DB_CONFIG_FILE, CONFIG_PATH, os_path_join. cbn [fold_left].
    rewrite Hdir.
    rewrite (join2_plain dir "..") by auto.
    destruct (join2_plain_keeps dir ".." Hd) as (N1 & E1);
      [repeat split; (discriminate || reflexivity)|].
    rewrite (join2_plain _ "config") by auto.
    destruct (join2_plain_keeps _ "config" N1) as (N2 & E2);
      [repeat split; (discriminate || reflexivity)|].
    rewrite (join2_plain _ "db_config.json") by auto.
    now rewrite !append_assoc. }
  assert (Hr : DEFAULT_DATA_ROOT file = dir +:+ "/../data").
  { unfold DEFAULT_DATA_ROOT, os_path_join. cbn [fold_left]. rewrite Hdir.
    rewrite (join2_plain dir "..") by auto.
    destruct (join2_plain_keeps dir ".." Hd) as (N1 & E1);
      [repeat split; (discriminate || reflexivity)|].
    rewrite (join2_plain _ "data") by auto.
    now rewrite !append_assoc. }
  split; [exact Hdir|]. split; [exact Hc|]. split; [exact Hr|].
  rewrite Hc.
  replace (parent d ++ ["config"; "db_config.json"])
    with ((parent d ++ ["config"]) ++ ["db_config.json"])
    by now rewrite <- List.app_assoc.
  apply (locate_in_folder _ _ _ (steps dir ++ [".."; "config"])).
  - unfold steps.
    change ("/../config/db_config.json")
      with (String slash "../config/db_config.json").
    rewrite split_slash_app_slash, List.filter_app.
    rewrite <- List.app_assoc. reflexivity.
  - reflexivity.
  - assert (Ha : is_absolute (dir +:+ "/../config/db_config.json")
                 = is_absolute dir)
      by (destruct dir; [congruence | reflexivity]).
    rewrite Ha, enter_app, Hent. cbn [enter String.eqb Ascii.eqb Bool.eqb].
    now rewrite Hcfg.
Qed.

Lemma default_config_lies_beside_the_script_folder_witness :
  DB_CONFIG_FILE "/srv/src/main.py" = "/srv/src/../config/db_config.json"
  /\ locate (set_entry ["srv"; "src"] Dir sample_files) []
            (DB_CONFIG_FILE "/srv/src/main.py")
     = Ok ["srv"; "config"; "db_config.json"].
Proof.
  destruct (default_config_lies_beside_the_script_folder
              (set_entry ["srv"; "src"] Dir sample_files) []
              "/srv/src" "main.py" ["srv"; "src"])
    as (_ & H1 & _ & H2); try reflexivity; try discriminate.
  split; [exact H1 | exact H2].
Defined.

(* --------------------------------------------------------------------- *)
(** ** The probe of the table                                            *)
(* --------------------------------------------------------------------- *)

Lemma db_config_ok_reads (cfg : string) (w : World)
      (params : gmap string json) :
  fst (db_config cfg w) = Ok params ->
  read_file (files w) (cwd w) cfg = Ok (JsonText (JDict params)).
Proof.
  unfold db_config.
  destruct (negb (path_exists (files w) (cwd w) cfg)); [discriminate|].
  destruct (read_file (files w) (cwd w) cfg) as [c|e]; [|discriminate].
  destruct c as [[]| | |]; simpl; try discriminate.
  destruct (bool_decide _); [|discriminate]. now intros [= ->].
Qed.

(** X23.  The [db_config] of [debug_db.py] checks nothing: it returns the
    value that the default configuration file decodes to, whatever it
    is.  Whenever the [db_config] of [main.py] returns parameters for
    that file, the probe's returns the same; and whenever the probe's
    raises, so does the one of [main.py]. *)
Theorem probe_loader_checks_nothing (file : string) (w : World) :
  (forall params,
     fst (db_config (DB_CONFIG_FILE file) w) = Ok params ->
     debug_db.db_config file w = (Ok (JDict params), w))
  /\ (forall j,
        read_file (files w) (cwd w) (DB_CONFIG_FILE file) = Ok (JsonText j) ->
        debug_db.db_config file w = (Ok j, w))
  /\ (forall e,
        fst (debug_db.db_config file w) = Raise e ->
        exists e', fst (db_config (DB_CONFIG_FILE file) w) = Raise e').
Proof.
  split; [|split].
  - intros params H. apply db_config_ok_reads in H.
    unfold debug_db.db_config. now rewrite H.
  - intros j H. unfold debug_db.db_config. now rewrite H.
  - intros e. unfold debug_db.db_config, db_config.
    destruct (negb (path_exists (files w) (cwd w) (DB_CONFIG_FILE file)));
      [eauto|].
    destruct (read_file (files w) (cwd w) (DB_CONFIG_FILE file)) as [c|e0];
      [|eauto].
    destruct c as [j| | |]; simpl; try discriminate; eauto.
Qed.

Lemma print_rows_output (rows : list (list dbvalue)) (t : Terminal) :
  debug_db.print_rows rows t
  = (Ok tt, {| world := world t;
               stdout := stdout t ++ List.map PrintedRow rows |}).
Proof.
  revert t. induction rows as [|row rows IH]; intros t.
  - simpl. rewrite List.app_nil_r. now destruct t.
  - cbn [debug_db.print_rows]. unfold debug_db.bindT, debug_db.print.
    rewrite IH. cbn [world stdout List.map].
    now rewrite <- List.app_assoc.
Qed.

(** X24.  When the configuration decodes to an object, the connection opens
    and the server answers, [debug_bitstamp_data] prints the column
    names first, then either the remark that no rows came back or the
    heading and the rows one by one in the order of the answer.  It
    sends the one query [SELECT * FROM bitstamp_data LIMIT 5;], closes
    the cursor and the connection, commits nothing, logs nothing and
    touches no file. *)
Theorem probe_prints_names_then_rows
        (file : string) (t : Terminal) (params : gmap string json)
        (rows : list (list dbvalue)) (names : list string) :
  debug_db.db_config file (world t) = (Ok (JDict params), world t) ->
  accepts (pg (world t)) params = None ->
  answers (pg (world t)) debug_db.query = Ok (rows, names) ->
  exists t',
    debug_db.debug_bitstamp_data file t = (Ok tt, t')
    /\ stdout t' = stdout t ++ probe_output rows names
    /\ db_trace (world t')
       = db_trace (world t)
         ++ [EvConnect params; EvCursor; EvExecute debug_db.query;
             EvCursorClose; EvClose]
    /\ files (world t') = files (world t)
    /\ log (world t') = log (world t).
Proof.
  intros Hc Ha Hq.
  unfold debug_db.debug_bitstamp_data, debug_db.bindT, debug_db.in_world.
  rewrite Hc. cbn [world stdout debug_db.connect].
  unfold psycopg2_connect. rewrite Ha.
  cbn [world stdout debug_db.conn_cursor].
  unfold cursor_execute. cbn [pg set_cursor add_event]. rewrite Hq.
  cbn [world stdout cursor_fetchall cursor_description cursor set_cursor
       add_event debug_db.print].
  destruct rows as [|row rows].
  - cbn [world stdout debug_db.cursor_close conn_close].
    eexists. split; [reflexivity|]. cbn [world stdout probe_output].
    split; [now rewrite <- List.app_assoc|].
    split; [simpl; now rewrite <- !List.app_assoc|]. split; reflexivity.
  - rewrite print_rows_output.
    cbn [world stdout debug_db.cursor_close conn_close].
    eexists. split; [reflexivity|]. cbn [world stdout probe_output].
    split; [now rewrite <- !List.app_assoc|].
    split; [simpl; now rewrite <- !List.app_assoc|]. split; reflexivity.
Qed.

Lemma probe_prints_names_then_rows_witness :
  exists t',
    debug_db.debug_bitstamp_data "/srv/src/debug_db.py"
                                 (sample_terminal server_rows) = (Ok tt, t')
    /\ stdout t' = ColumnNames sample_columns :: AFewRows
                   :: List.map PrintedRow sample_rows.
Proof.
  destruct (probe_prints_names_then_rows
              "/srv/src/debug_db.py" (sample_terminal server_rows)
              sample_params sample_rows sample_columns)
    as (t' & E & Hout & _).
  - reflexivity.
  - reflexivity.
  - reflexivity.
  - exists t'. split; [exact E | exact Hout].
Defined.

(** X25.  [debug_bitstamp_data] catches nothing.  An error of the loader or
    of [psycopg2.connect], [OperationalError] included, leaves it with
    nothing printed and nothing changed; an error of the query leaves it
    with nothing printed and with the cursor and the connection still
    open. *)
Theorem probe_handles_no_error
        (file : string) (t : Terminal) (e : exn) :
  (fst (debug_db.db_config file (world t)) = Raise e ->
   debug_db.debug_bitstamp_data file t = (Raise e, t))
  /\ (forall params,
        debug_db.db_config file (world t) = (Ok (JDict params), world t) ->
        accepts (pg (world t)) params = Some e ->
        debug_db.debug_bitstamp_data file t = (Raise e, t))
  /\ (forall params,
        debug_db.db_config file (world t) = (Ok (JDict params), world t) ->
        accepts (pg (world t)) params = None ->
        answers (pg (world t)) debug_db.query = Raise e ->
        exists t',
          debug_db.debug_bitstamp_data file t = (Raise e, t')
          /\ stdout t' = stdout t
          /\ db_trace (world t')
             = db_trace (world t)
               ++ [EvConnect params; EvCursor; EvExecute debug_db.query]).
Proof.
  split; [|split].
  - intros H.
    unfold debug_db.debug_bitstamp_data, debug_db.bindT, debug_db.in_world.
    assert (Hw : snd (debug_db.db_config file (world t)) = world t).
    { unfold debug_db.db_config. destruct (read_file _ _ _); reflexivity. }
    destruct (debug_db.db_config file (world t)) as [r w'].
    cbn [fst snd] in *. subst r w'. now destruct t.
  - intros params Hc Ha.
    unfold debug_db.debug_bitstamp_data, debug_db.bindT, debug_db.in_world.
    rewrite Hc. cbn [world stdout debug_db.connect].
    unfold psycopg2_connect. rewrite Ha. now destruct t.
  - intros params Hc Ha Hq.
    unfold debug_db.debug_bitstamp_data, debug_db.bindT, debug_db.in_world.
    rewrite Hc. cbn [world stdout debug_db.connect].
    unfold psycopg2_connect. rewrite Ha.
    cbn [world stdout debug_db.conn_cursor].
    unfold cursor_execute. cbn [pg set_cursor add_event]. rewrite Hq.
    eexists. split; [reflexivity|]. cbn [world stdout].
    split; [reflexivity|]. simpl. now rewrite <- !List.app_assoc.
Qed.
